(** * n8n MCP servers: the request helper, the tool handlers and the catalog

    A shallow embedding of the two servers of the repository,

    - [src/src/n8n_mcp_server.py]: six [@tool] handlers collected in
      [n8n_server] (module [Sdk] below), and
    - [src/n8n_mcp_server_standalone.py]: [list_tools] and [call_tool]
      (module [Standalone] below),

    which share one request helper, [make_n8n_request] (the same text in
    both files).

    The Python code is dynamically typed: a decoded JSON payload may be any
    JSON value, and every operation applied to it ([in], [.get], [len],
    iteration, [str.join]) either answers or raises.  The embedding keeps
    this: payloads are values of the type [value], and the operations
    return in [res], whose [Raise] carries the exception.

    What lies outside the repository is taken as a parameter of the
    development: the network ([transport], one answer per request), the
    JSON decoder ([json_loads]) and the process configuration (the three
    [N8N_*] globals).  *)

From Stdlib Require Import String Ascii ZArith DecimalString.
From stdpp Require Import gmap strings list fin_maps.

Set Warnings "-register-all".
Local Open Scope string_scope.
Local Open Scope list_scope.

(** ** Characters that a Rocq string literal cannot hold *)

Definition nl : string := String (ascii_of_nat 10) EmptyString.
Definition squote : ascii := ascii_of_nat 39.
Definition dquote : ascii := ascii_of_nat 34.
Definition backslash : ascii := ascii_of_nat 92.

(** * Python values and exceptions *)

Module Py.

(** A float is represented by the two observations this program makes of
    one: its truth value and its [repr]. *)
Record pyfloat := { float_nonzero : bool; float_repr : string }.

(** The values [json.loads] and [response.json()] produce.  A [str] is a
    sequence of characters below 256; [VDict] lists the entries of a
    [dict] in insertion order. *)
Inductive value :=
| VNone
| VBool (b : bool)
| VInt (n : Z)
| VFloat (f : pyfloat)
| VStr (s : string)
| VList (xs : list value)
| VDict (items : list (string * value)).

(** An exception instance: its class and [str(e)].  Every exception of
    the model is an instance of [Exception]. *)
Record exn := { exn_class : string; exn_msg : string }.

Inductive res (A : Type) :=
| Ok (a : A)
| Raise (e : exn).
Arguments Ok {A} a.
Arguments Raise {A} e.

Definition KeyError (repr_key : string) : exn :=
  {| exn_class := "KeyError"; exn_msg := repr_key |}.
Definition AttributeError (msg : string) : exn :=
  {| exn_class := "AttributeError"; exn_msg := msg |}.
Definition TypeError (msg : string) : exn :=
  {| exn_class := "TypeError"; exn_msg := msg |}.
Definition JSONDecodeError (msg : string) : exn :=
  {| exn_class := "JSONDecodeError"; exn_msg := msg |}.

Definition res_bind {A B} (m : res A) (f : A -> res B) : res B :=
  match m with
  | Ok a => f a
  | Raise e => Raise e
  end.

#[global] Instance res_ret : MRet res := fun _ a => Ok a.
#[global] Instance res_mbind : MBind res := fun _ _ f m => res_bind m f.

(** [type(v).__name__] *)
Definition type_name (v : value) : string :=
  match v with
  | VNone => "NoneType"
  | VBool _ => "bool"
  | VInt _ => "int"
  | VFloat _ => "float"
  | VStr _ => "str"
  | VList _ => "list"
  | VDict _ => "dict"
  end.

(** ** [str] and [repr] *)

Definition str_int (n : Z) : string := NilZero.string_of_int (Z.to_int n).

Definition hex_digit (n : nat) : ascii :=
  match n with
  | 0 => "0" | 1 => "1" | 2 => "2" | 3 => "3" | 4 => "4" | 5 => "5"
  | 6 => "6" | 7 => "7" | 8 => "8" | 9 => "9" | 10 => "a" | 11 => "b"
  | 12 => "c" | 13 => "d" | 14 => "e" | _ => "f"
  end%char.

Definition hex_escape (c : ascii) : string :=
  let n := nat_of_ascii c in
  "\x" +:+ String (hex_digit (n / 16)) (String (hex_digit (n mod 16)) "").

(** [str.isprintable] on one character below 256. *)
Definition printable (c : ascii) : bool :=
  let n := nat_of_ascii c in
  ((32 <=? n)%nat && (n <=? 126)%nat) || ((161 <=? n)%nat && negb (n =? 173)%nat).

Definition has_char (c : ascii) (s : string) : bool :=
  existsb (Ascii.eqb c) (list_ascii_of_string s).

Definition repr_char (quote c : ascii) : string :=
  if Ascii.eqb c backslash || Ascii.eqb c quote then String backslash (String c "")
  else match nat_of_ascii c with
       | 9 => "\t"
       | 10 => "\n"
       | 13 => "\r"
       | _ => if printable c then String c "" else hex_escape c
       end.

(** [repr] of a [str]: single quotes, unless the text holds a single
    quote and no double quote. *)
Definition repr_str (s : string) : string :=
  let quote := if has_char squote s && negb (has_char dquote s)
               then dquote else squote in
  String quote
    (String.concat "" (map (repr_char quote) (list_ascii_of_string s))
     +:+ String quote "").

Fixpoint py_repr (v : value) : string :=
  match v with
  | VNone => "None"
  | VBool true => "True"
  | VBool false => "False"
  | VInt n => str_int n
  | VFloat f => float_repr f
  | VStr s => repr_str s
  | VList xs => "[" +:+ String.concat ", " (map py_repr xs) +:+ "]"
  | VDict items =>
      "{" +:+ String.concat ", "
                (map (fun kv => repr_str (fst kv) +:+ ": " +:+ py_repr (snd kv))
                     items)
      +:+ "}"
  end.

(** [str(v)], which an f-string applies to each [{...}] field. *)
Definition py_str (v : value) : string :=
  match v with
  | VStr s => s
  | _ => py_repr v
  end.

(** [str(x)] of an optional [str]: [dict.get] answers [None] for a
    missing key. *)
Definition str_opt (o : option string) : string :=
  match o with
  | Some s => s
  | None => "None"
  end.

(** ** Truth value, membership, lookup, length, iteration *)

Definition py_truthy (v : value) : bool :=
  match v with
  | VNone => false
  | VBool b => b
  | VInt n => negb (n =? 0)%Z
  | VFloat f => float_nonzero f
  | VStr s => negb (String.eqb s "")
  | VList xs => match xs with [] => false | _ => true end
  | VDict items => match items with [] => false | _ => true end
  end.

Fixpoint dict_lookup (key : string) (items : list (string * value)) : option value :=
  match items with
  | [] => None
  | (k, v) :: rest => if String.eqb k key then Some v else dict_lookup key rest
  end.

Definition is_substring (needle s : string) : bool :=
  match String.index 0 needle s with
  | Some _ => true
  | None => false
  end.

Definition is_str (s : string) (v : value) : bool :=
  match v with
  | VStr t => String.eqb t s
  | _ => false
  end.

(** [key in v] for a [str] key. *)
Definition py_contains (key : string) (v : value) : res bool :=
  match v with
  | VDict items => Ok (match dict_lookup key items with Some _ => true | None => false end)
  | VList xs => Ok (existsb (is_str key) xs)
  | VStr s => Ok (is_substring key s)
  | _ => Raise (TypeError ("argument of type '" +:+ type_name v +:+ "' is not iterable"))
  end.

(** [v.get(key, default)] *)
Definition py_get (v : value) (key : string) (default : value) : res value :=
  match v with
  | VDict items => Ok (match dict_lookup key items with Some x => x | None => default end)
  | _ => Raise (AttributeError ("'" +:+ type_name v +:+ "' object has no attribute 'get'"))
  end.

(** [v[key]] for a [str] key. *)
Definition py_getitem (v : value) (key : string) : res value :=
  match v with
  | VDict items =>
      match dict_lookup key items with
      | Some x => Ok x
      | None => Raise (KeyError (repr_str key))
      end
  | VList _ => Raise (TypeError "list indices must be integers or slices, not str")
  | VStr _ => Raise (TypeError "string indices must be integers, not 'str'")
  | _ => Raise (TypeError ("'" +:+ type_name v +:+ "' object is not subscriptable"))
  end.

(** [len(v)] *)
Definition py_len (v : value) : res nat :=
  match v with
  | VStr s => Ok (String.length s)
  | VList xs => Ok (length xs)
  | VDict items => Ok (length items)
  | _ => Raise (TypeError ("object of type '" +:+ type_name v +:+ "' has no len()"))
  end.

(** The elements [for x in v] visits. *)
Definition py_iter (v : value) : res (list value) :=
  match v with
  | VList xs => Ok xs
  | VDict items => Ok (map (fun kv => VStr (fst kv)) items)
  | VStr s => Ok (map (fun c => VStr (String c "")) (list_ascii_of_string s))
  | _ => Raise (TypeError ("'" +:+ type_name v +:+ "' object is not iterable"))
  end.

(** The items of [sep.join(xs)], each of which must be a [str]. *)
Fixpoint join_items (i : nat) (xs : list value) : res (list string) :=
  match xs with
  | [] => Ok []
  | VStr s :: rest => res_bind (join_items (S i) rest) (fun ss => Ok (s :: ss))
  | x :: _ =>
      Raise (TypeError ("sequence item " +:+ str_int (Z.of_nat i)
                        +:+ ": expected str instance, " +:+ type_name x +:+ " found"))
  end.

Definition str_join (sep : string) (xs : list value) : res string :=
  res_bind (join_items 0 xs) (fun ss => Ok (String.concat sep ss)).

(** A loop or comprehension that builds one item per element and stops
    at the first exception. *)
Fixpoint res_map {A B} (f : A -> res B) (xs : list A) : res (list B) :=
  match xs with
  | [] => Ok []
  | x :: rest =>
      res_bind (f x) (fun y => res_bind (res_map f rest) (fun ys => Ok (y :: ys)))
  end.

End Py.
Import Py.

(** * The network and the issued requests *)

(** One HTTP call as [make_n8n_request] issues it through aiohttp: the
    session method, the URL, the headers, the [json=] argument ([None] for
    the calls that pass none, [Some v] for [json=v]; [Some VNone] is
    [json=None], for which aiohttp sends no body) and whether the
    connector was built with certificate verification switched off. *)
Record request := {
  rq_method : string;
  rq_url : string;
  rq_headers : list (string * string);
  rq_json : option value;
  rq_skip_ssl_verify : bool;
}.

(** The three reads the helper makes of an aiohttp response:
    [response.status], [await response.json()] and
    [await response.text()]; the two awaited ones may raise. *)
Record response := {
  status : Z;
  json : res value;
  text : res string;
}.

(** What lies outside the repository: the three module-level globals read
    from the process environment, the remote service (the answer to a
    request, or the exception aiohttp raises for it) and [json.loads]. *)
Record Env := {
  N8N_BASE_URL : string;
  N8N_API_KEY : string;
  N8N_SKIP_SSL_VERIFY : bool;
  transport : request -> res response;
  json_loads : string -> res value;
}.

(** A computation that may raise and that records the HTTP calls it
    issued, in order. *)
Record M (A : Type) := Run { outcome : res A; issued : list request }.
Arguments Run {A} outcome issued.
Arguments outcome {A} m.
Arguments issued {A} m.

#[global] Instance M_ret : MRet M := fun _ a => Run (Ok a) [].
#[global] Instance M_bind : MBind M := fun _ _ f m =>
  match outcome m with
  | Ok a => Run (outcome (f a)) (issued m ++ issued (f a))
  | Raise e => Run (Raise e) (issued m)
  end.

(** A pure step. *)
Definition lift {A} (r : res A) : M A := Run r [].

(** [try: body / except Exception as e: handler e] *)
Definition try_except {A} (body : M A) (handler : exn -> M A) : M A :=
  match outcome body with
  | Ok a => body
  | Raise e => Run (outcome (handler e)) (issued body ++ issued (handler e))
  end.

(** * The request helper (both files) *)

Definition error_dict (msg : string) : value := VDict [("error", VStr msg)].

Section Helper.
Variable env : Env.

(** [async with session.<method>(url, headers=headers, json=...) as response] *)
Definition send (method url : string) (headers : list (string * string))
    (body : option value) : M response :=
  let rq := {| rq_method := method; rq_url := url; rq_headers := headers;
               rq_json := body;
               rq_skip_ssl_verify := N8N_SKIP_SSL_VERIFY env |} in
  Run (transport env rq) [rq].

(** The [else] branch of each method: the HTTP error. *)
Definition http_error (response : response) : M value :=
  error_text ← lift (text response);
  mret (error_dict ("HTTP " +:+ str_int (status response) +:+ ": " +:+ error_text)).

Definition make_n8n_request (method endpoint : string) (data : value) : M value :=
  if negb (py_truthy (VStr (N8N_API_KEY env))) then
    mret (error_dict "N8N_API_KEY not configured. Set environment variable N8N_API_KEY.")
  else
    let url := N8N_BASE_URL env +:+ "/api/v1/" +:+ endpoint in
    let headers := [("X-N8N-API-KEY", N8N_API_KEY env);
                    ("Content-Type", "application/json")] in
    try_except
      (if String.eqb method "GET" then
         response ← send "GET" url headers None;
         if (status response =? 200)%Z then lift (json response)
         else http_error response
       else if String.eqb method "POST" then
         response ← send "POST" url headers (Some data);
         if (status response =? 200)%Z || (status response =? 201)%Z
         then lift (json response)
         else http_error response
       else if String.eqb method "PATCH" then
         response ← send "PATCH" url headers (Some data);
         if (status response =? 200)%Z then lift (json response)
         else http_error response
       else if String.eqb method "DELETE" then
         response ← send "DELETE" url headers None;
         if (status response =? 200)%Z || (status response =? 204)%Z
         then mret (VDict [("success", VBool true)])
         else http_error response
       else mret VNone)
      (fun e => mret (error_dict ("Request failed: " +:+ exn_msg e))).

End Helper.

(** * Replies *)

(** One text block: the dict [{"type": "text", "text": t}] of the SDK
    handlers and the [TextContent(type="text", text=t)] of the standalone
    server. *)
Record TextContent := { type : string; text_of : string }.

Definition text_content (t : string) : TextContent :=
  {| type := "text"; text_of := t |}.

(** ['Active' if x else 'Inactive'] and ['Finished' if x else 'Running'] *)
Definition active_word (x : value) : string :=
  if py_truthy x then "Active" else "Inactive".
Definition finished_word (x : value) : string :=
  if py_truthy x then "Finished" else "Running".

(** [arguments.get(key)] on the argument mapping. *)
Definition args_get (args : gmap string string) (key : string) : option string :=
  args !! key.

(** [args[key]] on the argument mapping. *)
Definition args_getitem (args : gmap string string) (key : string) : res string :=
  match args !! key with
  | Some s => Ok s
  | None => Raise (KeyError (repr_str key))
  end.

(** [try: body / except cls: handler] around a step that issues no
    request; another class propagates. *)
Definition res_try_class {A} (cls : string) (body handler : res A) : res A :=
  match body with
  | Ok a => Ok a
  | Raise e => if String.eqb (exn_class e) cls then handler else Raise e
  end.

(** ** What every tool does with the helper's result

    Each of the twelve call sites continues with the same test,
    [if "error" in result: return <error reply>(f"Error: {result['error']}")],
    and otherwise returns the ordinary reply with the text it renders.
    [respond] is that continuation, given the two replies of the server
    and the rendering of the tool. *)
Definition respond {A} (ok err : string -> A) (render : value -> res string)
    (result : value) : res A :=
  has_error ← py_contains "error" result;
  if has_error : bool then
    e ← py_getitem result "error";
    mret (err ("Error: " +:+ py_str e))
  else
    t ← render result;
    mret (ok t).

(** ** Text that both files build with the same expressions *)

(** The line of one workflow in the workflow list. *)
Definition workflow_line (wf : value) : res string :=
  name ← py_get wf "name" (VStr "Unnamed");
  id ← py_get wf "id" VNone;
  active ← py_get wf "active" VNone;
  mret ("- " +:+ py_str name +:+ " (ID: " +:+ py_str id +:+ ") "
        +:+ "[" +:+ active_word active +:+ "]").

(** [list_workflows], after the error test. *)
Definition list_workflows_text (result : value) : res string :=
  workflows ← py_get result "data" (VList []);
  if negb (py_truthy workflows) then
    mret "No workflows found in n8n."
  else
    wfs ← py_iter workflows;
    workflow_list ← res_map workflow_line wfs;
    n ← py_len workflows;
    mret ("Found " +:+ str_int (Z.of_nat n) +:+ " workflow(s):" +:+ nl
          +:+ String.concat nl workflow_list).

(** [', '.join([tag.get('name', '') for tag in tags])] *)
Definition tag_names (tags : value) : res string :=
  ts ← py_iter tags;
  names ← res_map (fun tag => py_get tag "name" (VStr "")) ts;
  str_join ", " names.

(** [execute_workflow], after the error test. *)
Definition execute_workflow_text (result : value) : res string :=
  execution_data ← py_get result "data" (VDict []);
  execution_id ← py_get execution_data "id" (VStr "unknown");
  finished ← py_get execution_data "finished" (VBool false);
  mret ("Workflow executed!" +:+ nl
        +:+ "Execution ID: " +:+ py_str execution_id +:+ nl
        +:+ "Status: " +:+ finished_word finished).

(** The [info] lines of one execution. *)
Definition execution_info (execution : value) : res (list string) :=
  id ← py_get execution "id" VNone;
  workflow_data ← py_get execution "workflowData" (VDict []);
  workflow_name ← py_get workflow_data "name" (VStr "Unknown");
  finished ← py_get execution "finished" VNone;
  mode ← py_get execution "mode" (VStr "unknown");
  let info := ["Execution ID: " +:+ py_str id;
               "Workflow: " +:+ py_str workflow_name;
               "Status: " +:+ finished_word finished;
               "Mode: " +:+ py_str mode] in
  stopped ← py_get execution "stoppedAt" VNone;
  if py_truthy stopped then
    stopped' ← py_get execution "stoppedAt" VNone;
    mret (info ++ ["Stopped at: " +:+ py_str stopped'])
  else mret info.

(** [get_execution], after the error test. *)
Definition get_execution_text (result : value) : res string :=
  execution ← py_get result "data" (VDict []);
  info ← execution_info execution;
  mret (String.concat nl info).

(** * src/src/n8n_mcp_server.py *)

Module Sdk.

(** The dict a handler returns: its content blocks, and whether it holds
    ["is_error": True] (the successful replies leave the key out). *)
Record ToolResult := { content : list TextContent; is_error : bool }.

Definition reply (t : string) : ToolResult :=
  {| content := [text_content t]; is_error := false |}.
Definition error_reply (t : string) : ToolResult :=
  {| content := [text_content t]; is_error := true |}.

(** [get_workflow], after the error test. *)
Definition get_workflow_text (result : value) : res string :=
  wf ← py_get result "data" (VDict []);
  name ← py_get wf "name" (VStr "Unnamed");
  id ← py_get wf "id" VNone;
  active ← py_get wf "active" VNone;
  nodes ← py_get wf "nodes" (VList []);
  n_nodes ← py_len nodes;
  connections ← py_get wf "connections" (VDict []);
  n_connections ← py_len connections;
  let info := ["Workflow: " +:+ py_str name;
               "ID: " +:+ py_str id;
               "Status: " +:+ active_word active;
               "Nodes: " +:+ str_int (Z.of_nat n_nodes);
               "Connections: " +:+ str_int (Z.of_nat n_connections)] in
  tags ← py_get wf "tags" VNone;
  if py_truthy tags then
    tags' ← py_get wf "tags" (VList []);
    joined ← tag_names tags';
    mret (String.concat nl (info ++ ["Tags: " +:+ joined]))
  else
    mret (String.concat nl info).

Section Handlers.
Variable env : Env.

Definition list_workflows (args : gmap string string) : M ToolResult :=
  try_except
    (result ← make_n8n_request env "GET" "workflows" VNone;
     lift (respond reply error_reply list_workflows_text result))
    (fun e => mret (error_reply ("Failed to list workflows: " +:+ exn_msg e))).

Definition get_workflow (args : gmap string string) : M ToolResult :=
  try_except
    (workflow_id ← lift (args_getitem args "workflow_id");
     result ← make_n8n_request env "GET" ("workflows/" +:+ workflow_id) VNone;
     lift (respond reply error_reply get_workflow_text result))
    (fun e => mret (error_reply ("Failed to get workflow: " +:+ exn_msg e))).

(** The body to post, or the reply of the early [return] for an
    [input_data] that is not JSON. *)
Definition data_payload (args : gmap string string) : res (value + ToolResult) :=
  match args_get args "input_data" with
  | Some s =>
      if py_truthy (VStr s) then
        res_try_class "JSONDecodeError"
          (input_data ← args_getitem args "input_data";
           payload ← json_loads env input_data;
           mret (inl payload))
          (mret (inr (error_reply "Error: input_data must be valid JSON string")))
      else mret (inl (VDict []))
  | None => mret (inl (VDict []))
  end.

Definition execute_workflow (args : gmap string string) : M ToolResult :=
  try_except
    (workflow_id ← lift (args_getitem args "workflow_id");
     parsed ← lift (data_payload args);
     match parsed with
     | inr early => mret early
     | inl payload =>
         result ← make_n8n_request env "POST"
                    ("workflows/" +:+ workflow_id +:+ "/execute") payload;
         lift (respond reply error_reply execute_workflow_text result)
     end)
    (fun e => mret (error_reply ("Failed to execute workflow: " +:+ exn_msg e))).

Definition get_execution (args : gmap string string) : M ToolResult :=
  try_except
    (execution_id ← lift (args_getitem args "execution_id");
     result ← make_n8n_request env "GET" ("executions/" +:+ execution_id) VNone;
     lift (respond reply error_reply get_execution_text result))
    (fun e => mret (error_reply ("Failed to get execution: " +:+ exn_msg e))).

Definition activate_workflow (args : gmap string string) : M ToolResult :=
  try_except
    (workflow_id ← lift (args_getitem args "workflow_id");
     result ← make_n8n_request env "PATCH" ("workflows/" +:+ workflow_id)
                (VDict [("active", VBool true)]);
     lift (respond reply error_reply
             (fun _ => mret ("Workflow " +:+ workflow_id +:+ " activated successfully!"))
             result))
    (fun e => mret (error_reply ("Failed to activate workflow: " +:+ exn_msg e))).

Definition deactivate_workflow (args : gmap string string) : M ToolResult :=
  try_except
    (workflow_id ← lift (args_getitem args "workflow_id");
     result ← make_n8n_request env "PATCH" ("workflows/" +:+ workflow_id)
                (VDict [("active", VBool false)]);
     lift (respond reply error_reply
             (fun _ => mret ("Workflow " +:+ workflow_id +:+ " deactivated successfully!"))
             result))
    (fun e => mret (error_reply ("Failed to deactivate workflow: " +:+ exn_msg e))).

(** One [@tool(name, description, schema)] registration: the schema dict
    maps each argument to [str]. *)
Record SdkTool := {
  tool_name : string;
  tool_description : string;
  tool_schema : list string;
  tool_handler : gmap string string -> M ToolResult;
}.

(** [n8n_server = create_sdk_mcp_server(name="n8n", ..., tools=[...])] *)
Definition n8n_server : list SdkTool :=
  [ {| tool_name := "list_workflows";
       tool_description := "List all workflows in n8n. Returns workflow names, IDs, and active status.";
       tool_schema := [];
       tool_handler := list_workflows |};
    {| tool_name := "get_workflow";
       tool_description := "Get detailed information about a specific workflow by ID.";
       tool_schema := ["workflow_id"];
       tool_handler := get_workflow |};
    {| tool_name := "execute_workflow";
       tool_description := "Execute a workflow by ID. Optionally pass input data as JSON string.";
       tool_schema := ["workflow_id"; "input_data"];
       tool_handler := execute_workflow |};
    {| tool_name := "get_execution";
       tool_description := "Get the status and result of a workflow execution by execution ID.";
       tool_schema := ["execution_id"];
       tool_handler := get_execution |};
    {| tool_name := "activate_workflow";
       tool_description := "Activate (enable) a workflow by ID so it can run automatically.";
       tool_schema := ["workflow_id"];
       tool_handler := activate_workflow |};
    {| tool_name := "deactivate_workflow";
       tool_description := "Deactivate (disable) a workflow by ID to stop it from running automatically.";
       tool_schema := ["workflow_id"];
       tool_handler := deactivate_workflow |} ].

End Handlers.
End Sdk.

(** * src/n8n_mcp_server_standalone.py *)

Module Standalone.

(** One entry of [inputSchema["properties"]]. *)
Record Property := {
  prop_name : string;
  prop_type : string;
  prop_description : string;
}.

(** [inputSchema]: ["type"], ["properties"], ["required"]. *)
Record InputSchema := {
  schema_type : string;
  properties : list Property;
  required : list string;
}.

Record Tool := {
  name : string;
  description : string;
  inputSchema : InputSchema;
}.

Definition string_property (n d : string) : Property :=
  {| prop_name := n; prop_type := "string"; prop_description := d |}.

Definition object_schema (props : list Property) (req : list string) : InputSchema :=
  {| schema_type := "object"; properties := props; required := req |}.

Definition list_tools : M (list Tool) :=
  mret
    [ {| name := "list_workflows";
         description := "List all workflows in n8n. Returns workflow names, IDs, and active status.";
         inputSchema := object_schema [] [] |};
      {| name := "get_workflow";
         description := "Get detailed information about a specific workflow by ID.";
         inputSchema :=
           object_schema [string_property "workflow_id" "The ID of the workflow"]
                         ["workflow_id"] |};
      {| name := "execute_workflow";
         description := "Execute a workflow by ID. Optionally pass input data as JSON string.";
         inputSchema :=
           object_schema
             [string_property "workflow_id" "The ID of the workflow to execute";
              string_property "input_data"
                "Optional JSON string with input data for the workflow"]
             ["workflow_id"] |};
      {| name := "get_execution";
         description := "Get the status and result of a workflow execution by execution ID.";
         inputSchema :=
           object_schema [string_property "execution_id" "The execution ID to check"]
                         ["execution_id"] |};
      {| name := "activate_workflow";
         description := "Activate (enable) a workflow by ID so it can run automatically.";
         inputSchema :=
           object_schema [string_property "workflow_id" "The ID of the workflow to activate"]
                         ["workflow_id"] |};
      {| name := "deactivate_workflow";
         description := "Deactivate (disable) a workflow by ID to stop it from running automatically.";
         inputSchema :=
           object_schema [string_property "workflow_id" "The ID of the workflow to deactivate"]
                         ["workflow_id"] |} ].

(** [[TextContent(type="text", text=t)]]: every [return] of [call_tool]
    has this form, for an error as for a result. *)
Definition one_text (t : string) : list TextContent := [text_content t].

(** The line of one node in the [get_workflow] branch. *)
Definition node_line (node : value) : res string :=
  node_type ← py_get node "type" (VStr "Unknown");
  node_name ← py_get node "name" (VStr "Unnamed");
  mret ("  - " +:+ py_str node_name +:+ " (" +:+ py_str node_type +:+ ")").

(** The [get_workflow] branch, after the error test. *)
Definition get_workflow_text (result : value) : res string :=
  has_data ← py_contains "data" result;
  wf ← (if has_data : bool then py_get result "data" (VDict []) else mret result);
  nodes ← py_get wf "nodes" (VList []);
  connections ← py_get wf "connections" (VDict []);
  wf_name ← py_get wf "name" (VStr "Unnamed");
  id ← py_get wf "id" VNone;
  active ← py_get wf "active" VNone;
  n_nodes ← py_len nodes;
  n_connections ← py_len connections;
  let info := ["Workflow: " +:+ py_str wf_name;
               "ID: " +:+ py_str id;
               "Status: " +:+ active_word active;
               "Nodes: " +:+ str_int (Z.of_nat n_nodes);
               "Connections: " +:+ str_int (Z.of_nat n_connections)] in
  node_info ← (if py_truthy nodes then
                 ns ← py_iter nodes;
                 lines ← res_map node_line ns;
                 mret ((nl +:+ "Nodes in workflow:") :: lines)
               else mret []);
  tags ← py_get wf "tags" VNone;
  tag_info ← (if py_truthy tags then
                tags' ← py_get wf "tags" (VList []);
                joined ← tag_names tags';
                mret [nl +:+ "Tags: " +:+ joined]
              else mret []);
  mret (String.concat nl (info ++ node_info ++ tag_info)).

Section CallTool.
Variable env : Env.

(** The body to post, or the reply of the early [return] for an
    [input_data] that is not JSON. *)
Definition data_payload (arguments : gmap string string)
    : res (value + list TextContent) :=
  let input_data := default "{}" (args_get arguments "input_data") in
  res_try_class "JSONDecodeError"
    (payload ← (if py_truthy (VStr input_data) then json_loads env input_data
                else mret (VDict []));
     mret (inl payload))
    (mret (inr (one_text "Error: input_data must be valid JSON string"))).

Definition call_tool (name : string) (arguments : gmap string string)
    : M (list TextContent) :=
  if String.eqb name "list_workflows" then
    result ← make_n8n_request env "GET" "workflows" VNone;
    lift (respond one_text one_text list_workflows_text result)

  else if String.eqb name "get_workflow" then
    let workflow_id := args_get arguments "workflow_id" in
    result ← make_n8n_request env "GET" ("workflows/" +:+ str_opt workflow_id) VNone;
    lift (respond one_text one_text get_workflow_text result)

  else if String.eqb name "execute_workflow" then
    let workflow_id := args_get arguments "workflow_id" in
    parsed ← lift (data_payload arguments);
    match parsed with
    | inr early => mret early
    | inl payload =>
        result ← make_n8n_request env "POST"
                   ("workflows/" +:+ str_opt workflow_id +:+ "/execute") payload;
        lift (respond one_text one_text execute_workflow_text result)
    end

  else if String.eqb name "get_execution" then
    let execution_id := args_get arguments "execution_id" in
    result ← make_n8n_request env "GET" ("executions/" +:+ str_opt execution_id) VNone;
    lift (respond one_text one_text get_execution_text result)

  else if String.eqb name "activate_workflow" then
    let workflow_id := args_get arguments "workflow_id" in
    result ← make_n8n_request env "PATCH" ("workflows/" +:+ str_opt workflow_id)
               (VDict [("active", VBool true)]);
    lift (respond one_text one_text
            (fun _ => mret ("Workflow " +:+ str_opt workflow_id
                            +:+ " activated successfully!"))
            result)

  else if String.eqb name "deactivate_workflow" then
    let workflow_id := args_get arguments "workflow_id" in
    result ← make_n8n_request env "PATCH" ("workflows/" +:+ str_opt workflow_id)
               (VDict [("active", VBool false)]);
    lift (respond one_text one_text
            (fun _ => mret ("Workflow " +:+ str_opt workflow_id
                            +:+ " deactivated successfully!"))
            result)

  else
    mret (one_text ("Unknown tool: " +:+ name)).

End CallTool.
End Standalone.

(** * The module-level configuration (both files)

    Each server reads its three globals once, when the module is loaded,
    from the process environment as [load_dotenv()] has left it:
    [N8N_BASE_URL = os.getenv("N8N_BASE_URL", "http://localhost:5678").rstrip("/")],
    [N8N_API_KEY = os.getenv("N8N_API_KEY", "")] and
    [N8N_SKIP_SSL_VERIFY = os.getenv("N8N_SKIP_SSL_VERIFY", "false").lower() == "true"]. *)

Module Config.

(** [os.getenv(key, default)]: the default stands for an unset variable
    only, a variable set to the empty text is returned as it is. *)
Definition getenv (environ : gmap string string) (key dflt : string) : string :=
  match environ !! key with
  | Some v => v
  | None => dflt
  end.

(** [s.rstrip(chars)]: the longest suffix made of characters of [chars]
    is removed. *)
Fixpoint rstrip (chars s : string) : string :=
  match s with
  | EmptyString => EmptyString
  | String c rest =>
      match rstrip chars rest with
      | EmptyString => if has_char c chars then EmptyString else String c EmptyString
      | String c' kept => String c (String c' kept)
      end
  end.

(** [s.lower()] on the letters [A] to [Z].  The globals compare the
    result with ["true"] only, and no other character has one of the
    letters [t], [r], [u], [e] for its lower case. *)
Definition lower_char (c : ascii) : ascii :=
  let n := nat_of_ascii c in
  if ((65 <=? n) && (n <=? 90))%nat then ascii_of_nat (n + 32) else c.

Fixpoint lower (s : string) : string :=
  match s with
  | EmptyString => EmptyString
  | String c rest => String (lower_char c) (lower rest)
  end.

(** The globals of a module loaded in the environment [environ], with the
    network and the decoder it will use. *)
Definition load_globals (environ : gmap string string)
    (transport : request -> res response) (json_loads : string -> res value) : Env :=
  {| N8N_BASE_URL := rstrip "/" (getenv environ "N8N_BASE_URL" "http://localhost:5678");
     N8N_API_KEY := getenv environ "N8N_API_KEY" "";
     N8N_SKIP_SSL_VERIFY :=
       String.eqb (lower (getenv environ "N8N_SKIP_SSL_VERIFY" "false")) "true";
     transport := transport;
     json_loads := json_loads |}.

End Config.

(** * src/example_usage.py *)

Module Example.

(** The options of the example client:
    [ClaudeAgentOptions(mcp_servers={"n8n": n8n_server}, allowed_tools=[...])]. *)
Record ClaudeAgentOptions := {
  mcp_servers : list (string * list Sdk.SdkTool);
  allowed_tools : list string;
}.

Definition options (env : Env) : ClaudeAgentOptions :=
  {| mcp_servers := [("n8n", Sdk.n8n_server env)];
     allowed_tools := ["mcp__n8n__list_workflows";
                       "mcp__n8n__get_workflow";
                       "mcp__n8n__execute_workflow";
                       "mcp__n8n__get_execution";
                       "mcp__n8n__activate_workflow";
                       "mcp__n8n__deactivate_workflow"] |}.

End Example.

(** * Sample environments

    The concrete environments of the examples: a server at the default
    address, a transport that gives one fixed answer, and the decoder's
    answers on the three texts the examples pass as [input_data]. *)

Definition quoted (s : string) : string := String dquote s +:+ String dquote "".

(** [json.loads] on ["{}"], ["[1, 2]"] and ["not-json"], the only texts
    the examples decode. *)
Definition sample_loads (s : string) : res value :=
  if String.eqb s "{}" then Ok (VDict [])
  else if String.eqb s "[1, 2]" then Ok (VList [VInt 1; VInt 2])
  else Raise (JSONDecodeError "Expecting value: line 1 column 1 (char 0)").

Definition sample_env (key : string) (answer : res response) : Env :=
  {| N8N_BASE_URL := "http://localhost:5678";
     N8N_API_KEY := key;
     N8N_SKIP_SSL_VERIFY := false;
     transport := fun _ => answer;
     json_loads := sample_loads |}.

(** A response whose body is the JSON text [body], which decodes to [v]. *)
Definition json_response (code : Z) (body : string) (v : value) : res response :=
  Ok {| status := code; json := Ok v; text := Ok body |}.

(** A response whose body is not JSON. *)
Definition plain_response (code : Z) (body : string) : res response :=
  Ok {| status := code;
        json := Raise (JSONDecodeError "Expecting value: line 1 column 1 (char 0)");
        text := Ok body |}.

(** The answer 200 with an empty body: [response.json()] returns [None]
    for it and does not raise. *)
Definition empty_response : res response :=
  Ok {| status := 200; json := Ok VNone; text := Ok "" |}.

(** The connection is refused. *)
Definition refused : res response :=
  Raise {| exn_class := "ClientConnectorError";
           exn_msg := "Cannot connect to host localhost:5678" |}.

(** The same environment with a decoder that also answers the text
    ["null"]. *)
Definition loads_null (s : string) : res value :=
  if String.eqb s "null" then Ok VNone else sample_loads s.

Definition null_env (key : string) (answer : res response) : Env :=
  {| N8N_BASE_URL := "http://localhost:5678";
     N8N_API_KEY := key;
     N8N_SKIP_SSL_VERIFY := false;
     transport := fun _ => answer;
     json_loads := loads_null |}.

(** Argument mappings of the examples. *)
Definition args_id (id : string) : gmap string string :=
  {[ "workflow_id" := id ]}.

Definition args_input (id input : string) : gmap string string :=
  <[ "input_data" := input ]> (args_id id).

(** A workflow as [GET workflows/{id}] of n8n returns it: the object
    itself, with no ["data"] wrapper. *)
Definition flat_workflow : value :=
  VDict [("id", VStr "42"); ("name", VStr "Foo"); ("active", VBool true);
         ("nodes", VList [VDict [("name", VStr "Start");
                                 ("type", VStr "n8n-nodes-base.start")]]);
         ("connections", VDict [])].

(** The fields of a workflow that has two tags and no node. *)
Definition tagged_workflow : list (string * value) :=
  [("id", VInt 7); ("name", VStr "Bar");
   ("tags", VList [VDict [("id", VStr "t1"); ("name", VStr "prod")];
                   VDict [("id", VStr "t2"); ("name", VStr "billing")]])].

(** * The dispatch table and the classification, as the specification
      words them

    The specification describes the helper as a table: a request derived
    from the method, the endpoint and the body, and an outcome read off the
    answer by the accepted statuses of the method.  These definitions
    follow that wording; [make_n8n_request_spec] below compares the helper
    with them. *)

(** The statuses accepted for a method. *)
Definition accepted (method : string) (code : Z) : bool :=
  if String.eqb method "GET" then (code =? 200)%Z
  else if String.eqb method "POST" then (code =? 200)%Z || (code =? 201)%Z
  else if String.eqb method "PATCH" then (code =? 200)%Z
  else if String.eqb method "DELETE" then (code =? 200)%Z || (code =? 204)%Z
  else false.

Definition known_method (method : string) : bool :=
  String.eqb method "GET" || String.eqb method "POST"
  || String.eqb method "PATCH" || String.eqb method "DELETE".

(** The methods whose body is decoded on an accepted status. *)
Definition decodes_body (method : string) : bool :=
  String.eqb method "GET" || String.eqb method "POST" || String.eqb method "PATCH".

Definition sends_body (method : string) : bool :=
  String.eqb method "POST" || String.eqb method "PATCH".

(** The one request of an invocation. *)
Definition request_for (env : Env) (method endpoint : string) (data : value) : request :=
  {| rq_method := method;
     rq_url := N8N_BASE_URL env +:+ "/api/v1/" +:+ endpoint;
     rq_headers := [("X-N8N-API-KEY", N8N_API_KEY env);
                    ("Content-Type", "application/json")];
     rq_json := if sends_body method then Some data else None;
     rq_skip_ssl_verify := N8N_SKIP_SSL_VERIFY env |}.

Definition request_failed (e : exn) : value :=
  error_dict ("Request failed: " +:+ exn_msg e).

Definition http_status_error (code : Z) (body : string) : value :=
  error_dict ("HTTP " +:+ str_int code +:+ ": " +:+ body).

(** The value the helper hands to the tool for an answer of the network. *)
Definition classify (method : string) (answer : res response) : value :=
  match answer with
  | Raise e => request_failed e
  | Ok r =>
      if accepted method (status r) then
        if decodes_body method then
          match json r with
          | Ok v => v
          | Raise e => request_failed e
          end
        else VDict [("success", VBool true)]
      else
        match text r with
        | Ok body => http_status_error (status r) body
        | Raise e => request_failed e
        end
  end.

Definition not_configured : string :=
  "N8N_API_KEY not configured. Set environment variable N8N_API_KEY.".

(** The names of the catalog, in its order. *)
Definition catalog_names : list string :=
  ["list_workflows"; "get_workflow"; "execute_workflow";
   "get_execution"; "activate_workflow"; "deactivate_workflow"].

(** ** The renderings, as the specification words them *)

(** A field of a JSON object, or its default. *)
Definition field (fields : list (string * value)) (key : string) (dflt : value) : value :=
  match dict_lookup key fields with
  | Some x => x
  | None => dflt
  end.

(** The line of one workflow of the list: [- name (ID: id) [Active|Inactive]],
    a missing name defaulting to [Unnamed]. *)
Definition workflow_entry (wf : list (string * value)) : string :=
  "- " +:+ py_str (field wf "name" (VStr "Unnamed"))
  +:+ " (ID: " +:+ py_str (field wf "id" VNone) +:+ ") ["
  +:+ (if py_truthy (field wf "active" VNone) then "Active" else "Inactive") +:+ "]".

(** The count line and the lines of a list of workflows. *)
Definition workflow_listing (wfs : list (list (string * value))) : string :=
  "Found " +:+ str_int (Z.of_nat (length wfs)) +:+ " workflow(s):" +:+ nl
  +:+ String.concat nl (map workflow_entry wfs).

(** The line of one node of a workflow: [name (type)], after the list
    mark. *)
Definition node_entry (node : list (string * value)) : string :=
  "  - " +:+ py_str (field node "name" (VStr "Unnamed"))
  +:+ " (" +:+ py_str (field node "type" (VStr "Unknown")) +:+ ")".

(** The name of one tag, as the tag line joins it. *)
Definition tag_entry (tag : list (string * value)) : string :=
  py_str (field tag "name" (VStr "")).

(** The text of one workflow: name, id, status, node count and connection
    count; then, when there are nodes, a header and one line per node;
    then, when there are tags, the line of their comma-joined names. *)
Definition workflow_details (wf : list (string * value))
    (nodes : list (list (string * value))) (connections : list (string * value))
    (tags : list (list (string * value))) : string :=
  String.concat nl
    (["Workflow: " +:+ py_str (field wf "name" (VStr "Unnamed"));
      "ID: " +:+ py_str (field wf "id" VNone);
      "Status: " +:+ (if py_truthy (field wf "active" VNone) then "Active" else "Inactive");
      "Nodes: " +:+ str_int (Z.of_nat (length nodes));
      "Connections: " +:+ str_int (Z.of_nat (length connections))]
     ++ match nodes with
        | [] => []
        | _ :: _ => (nl +:+ "Nodes in workflow:") :: map node_entry nodes
        end
     ++ match tags with
        | [] => []
        | _ :: _ => [nl +:+ "Tags: " +:+ String.concat ", " (map tag_entry tags)]
        end).

(** The arguments of a descriptor that its schema does not require. *)
Definition optional_arguments (t : Standalone.Tool) : list string :=
  filter (fun a => negb (existsb (String.eqb a)
                           (Standalone.required (Standalone.inputSchema t))))
         (map Standalone.prop_name (Standalone.properties (Standalone.inputSchema t))).

(** A descriptor as the catalog contract reads it: its name, its required
    and its optional arguments. *)
Definition descriptor (t : Standalone.Tool) : string * list string * list string :=
  (Standalone.name t, Standalone.required (Standalone.inputSchema t),
   optional_arguments t).

(** ** When an invocation reaches the helper *)

(** The SDK handler of [execute_workflow] has a body to post: [input_data]
    is absent, empty, or decodes. *)
Definition sdk_input_decodes (env : Env) (args : gmap string string) : Prop :=
  match args !! "input_data" with
  | None => True
  | Some s => s = "" \/ exists v, json_loads env s = Ok v
  end.

(** The same for [call_tool], which decodes ["{}"] when [input_data] is
    absent. *)
Definition standalone_input_decodes (env : Env) (args : gmap string string) : Prop :=
  let s := default "{}" (args !! "input_data") in
  s = "" \/ exists v, json_loads env s = Ok v.

(** An SDK handler reaches the helper when the arguments it indexes are
    present and, for [execute_workflow], the body is there. *)
Definition sdk_ready (env : Env) (t : Sdk.SdkTool) (args : gmap string string) : Prop :=
  (forall k, In k (Sdk.tool_schema t) -> k <> "input_data" -> is_Some (args !! k))
  /\ (Sdk.tool_name t = "execute_workflow" -> sdk_input_decodes env args).

(** A reply of one text block, whose text is not empty. *)
Definition one_nonempty_text (blocks : list TextContent) : Prop :=
  exists t, blocks = [text_content t] /\ (0 < String.length t)%nat.

(** One call of an SDK handler: it returns a reply of one non-empty text
    and has issued at most one request. *)
Definition replies_once (m : M Sdk.ToolResult) : Prop :=
  exists r, outcome m = Ok r
            /\ one_nonempty_text (Sdk.content r)
            /\ (length (issued m) <= 1)%nat.

(** ** The configuration, as a reader of the servers describes it *)

(** The text of [n] slashes. *)
Fixpoint slashes (n : nat) : string :=
  match n with
  | O => EmptyString
  | S k => String "/" (slashes k)
  end.

(** Whether the last character of [s] is [c]. *)
Fixpoint ends_with (c : ascii) (s : string) : bool :=
  match s with
  | EmptyString => false
  | String x EmptyString => Ascii.eqb x c
  | String _ rest => ends_with c rest
  end.

(** The upper case of a letter [a] to [z]. *)
Definition upper_char (c : ascii) : ascii :=
  let n := nat_of_ascii c in
  if ((97 <=? n) && (n <=? 122))%nat then ascii_of_nat (n - 32) else c.

(** Every way to write [s] in lower and upper case letters. *)
Fixpoint spellings (s : string) : list string :=
  match s with
  | EmptyString => [EmptyString]
  | String c rest =>
      flat_map (fun t => [String c t; String (upper_char c) t]) (spellings rest)
  end.

(** ** The replies, as a reader of the servers describes them *)

(** A tool name with its underscores written as spaces. *)
Fixpoint spaced (s : string) : string :=
  match s with
  | EmptyString => EmptyString
  | String c rest => String (if Ascii.eqb c "_" then " " else c)%char (spaced rest)
  end.

(** The opening of the reply of an SDK handler that caught an exception. *)
Definition failure_prefix (name : string) : string :=
  "Failed to " +:+ spaced name +:+ ": ".

(** A text in single quotes. *)
Definition single_quoted (s : string) : string :=
  String squote (s +:+ String squote EmptyString).

(** Whether [s] opens with [p]. *)
Fixpoint starts_with (p s : string) : bool :=
  match p, s with
  | EmptyString, _ => true
  | String a p', String b s' => Ascii.eqb a b && starts_with p' s'
  | String _ _, EmptyString => false
  end.

(** Whether a text opens as the error replies do. *)
Definition error_text (t : string) : bool :=
  starts_with "Error: " t || starts_with "Failed to " t.

(** A rendering whose texts are not empty and do not open as an error. *)
Definition renders_result (render : value -> res string) : Prop :=
  forall v t, render v = Ok t -> error_text t = false /\ (0 < String.length t)%nat.

(** What a handler of the SDK server does once it has its arguments: one
    call of the helper, the reply, and the catch-all around both. *)
Definition sdk_run (env : Env) (method endpoint : string) (data : value)
    (render : value -> res string) (failure : string) : M Sdk.ToolResult :=
  try_except
    (result ← make_n8n_request env method endpoint data;
     lift (respond Sdk.reply Sdk.error_reply render result))
    (fun e => mret (Sdk.error_reply (failure +:+ exn_msg e))).

(** The same in [call_tool], where nothing catches. *)
Definition standalone_run (env : Env) (method endpoint : string) (data : value)
    (render : value -> res string) : M (list TextContent) :=
  result ← make_n8n_request env method endpoint data;
  lift (respond Standalone.one_text Standalone.one_text render result).

(** The [json=] argument of a PATCH of the tools: [{"active": b}]. *)
Definition patch_body (method : string) (data : value) : Prop :=
  method = "PATCH" -> exists b : bool, data = VDict [("active", VBool b)].

(** The JSON body that goes out with a request: aiohttp serialises the
    [json=] argument unless it is [None], and sends no body for a call
    without the argument or with [json=None]. *)
Definition sent_body (rq : request) : option value :=
  match rq_json rq with
  | Some VNone => None
  | Some v => Some v
  | None => None
  end.

(** What every request of a tool has in common.  The last three parts
    are about the [json=] argument of the call and the body that goes
    out: a GET is called without the argument; a PATCH with the object
    [{"active": b}]; a POST with the value decoded from [input_data],
    which may be anything, [None] included; so that a body goes out unless
    the request is a GET or the argument is [None]. *)
Definition well_formed_request (env : Env) (rq : request) : Prop :=
  N8N_API_KEY env <> ""
  /\ In (rq_method rq) ["GET"; "POST"; "PATCH"]
  /\ (exists endpoint, rq_url rq = N8N_BASE_URL env +:+ "/api/v1/" +:+ endpoint)
  /\ rq_headers rq = [("X-N8N-API-KEY", N8N_API_KEY env);
                      ("Content-Type", "application/json")]
  /\ rq_skip_ssl_verify rq = N8N_SKIP_SSL_VERIFY env
  /\ (rq_json rq = None <-> rq_method rq = "GET")
  /\ ((rq_method rq = "GET" /\ rq_json rq = None)
      \/ (rq_method rq = "POST" /\ exists data, rq_json rq = Some data)
      \/ (rq_method rq = "PATCH"
          /\ exists b : bool, rq_json rq = Some (VDict [("active", VBool b)])))
  /\ (sent_body rq = None <-> rq_method rq = "GET" \/ rq_json rq = Some VNone).

(** How a reply [out] of a tool that issued the request [rq] reports the
    four failures of the HTTP step, [err] being the error reply of its
    server: the network raises; the status is not accepted and the body
    text is read; the status is not accepted and reading the body text
    raises; the status is accepted and [response.json()] raises. *)
Definition reports_failures {A} (env : Env) (rq : request) (out : res A)
    (err : string -> A) : Prop :=
  (forall e, transport env rq = Raise e ->
     out = Ok (err ("Error: Request failed: " +:+ exn_msg e)))
  /\ (forall r body,
        transport env rq = Ok r -> accepted (rq_method rq) (status r) = false ->
        text r = Ok body ->
        out = Ok (err ("Error: HTTP " +:+ str_int (status r) +:+ ": " +:+ body)))
  /\ (forall r e,
        transport env rq = Ok r -> accepted (rq_method rq) (status r) = false ->
        text r = Raise e ->
        out = Ok (err ("Error: Request failed: " +:+ exn_msg e)))
  /\ (forall r e,
        transport env rq = Ok r -> accepted (rq_method rq) (status r) = true ->
        json r = Raise e ->
        out = Ok (err ("Error: Request failed: " +:+ exn_msg e))).

(** The arguments that the schema of a catalog tool declares. *)
Definition declared_arguments (t : Standalone.Tool) : list string :=
  map Standalone.prop_name (Standalone.properties (Standalone.inputSchema t)).

(** The tools of the catalog; [list_tools] returns them at every call. *)
Definition catalog : list Standalone.Tool :=
  match outcome Standalone.list_tools with
  | Ok tools => tools
  | Raise _ => []
  end.

(** The reply of an SDK handler next to the reply of [call_tool] for the
    same invocation: the same requests; the same content when [call_tool]
    returns; and, when [call_tool] raises, the flagged reply that names the
    exception after the [failure] opening of the handler. *)
Definition same_reply (sdk : M Sdk.ToolResult) (standalone : M (list TextContent))
    (failure : string) : Prop :=
  issued sdk = issued standalone
  /\ match outcome standalone with
     | Ok blocks => exists r, outcome sdk = Ok r /\ Sdk.content r = blocks
     | Raise e => outcome sdk = Ok (Sdk.error_reply (failure +:+ exn_msg e))
     end.

(** The body that [execute_workflow] posts for the arguments, in both
    servers: the decoded [input_data], or [{}] for an empty or absent one
    (the standalone server decodes the text ["{}"] for an absent one). *)
Definition posts (env : Env) (args : gmap string string) (body : value) : Prop :=
  match args !! "input_data" with
  | Some s => if String.eqb s "" then body = VDict [] else json_loads env s = Ok body
  | None => body = VDict [] /\ json_loads env "{}" = Ok (VDict [])
  end.

(** The text of one execution: its id, the name of its workflow, its
    status and its mode, then the time it stopped when it has one. *)
Definition execution_details (execution workflow_data : list (string * value)) : string :=
  String.concat nl
    (["Execution ID: " +:+ py_str (field execution "id" VNone);
      "Workflow: " +:+ py_str (field workflow_data "name" (VStr "Unknown"));
      "Status: " +:+ (if py_truthy (field execution "finished" VNone)
                      then "Finished" else "Running");
      "Mode: " +:+ py_str (field execution "mode" (VStr "unknown"))]
     ++ (if py_truthy (field execution "stoppedAt" VNone)
         then ["Stopped at: " +:+ py_str (field execution "stoppedAt" VNone)]
         else [])).

(** The text of a started execution. *)
Definition started_execution (execution_data : list (string * value)) : string :=
  "Workflow executed!" +:+ nl
  +:+ "Execution ID: " +:+ py_str (field execution_data "id" (VStr "unknown")) +:+ nl
  +:+ "Status: " +:+ (if py_truthy (field execution_data "finished" (VBool false))
                      then "Finished" else "Running").

(** The text of one workflow in the SDK server: the five summary lines,
    then the line of the tag names when there are tags. *)
Definition workflow_summary (wf : list (string * value)) (n_nodes n_connections : nat)
    (tags : list (list (string * value))) : string :=
  String.concat nl
    (["Workflow: " +:+ py_str (field wf "name" (VStr "Unnamed"));
      "ID: " +:+ py_str (field wf "id" VNone);
      "Status: " +:+ (if py_truthy (field wf "active" VNone) then "Active" else "Inactive");
      "Nodes: " +:+ str_int (Z.of_nat n_nodes);
      "Connections: " +:+ str_int (Z.of_nat n_connections)]
     ++ match tags with
        | [] => []
        | _ :: _ => ["Tags: " +:+ String.concat ", " (map tag_entry tags)]
        end).

(** * Properties *)

(** ** The monad *)

Lemma M_eta {A} (m : M A) : Run (outcome m) (issued m) = m.
Proof. destruct m; reflexivity. Qed.

Lemma bind_Run_Ok {A B} (a : A) (t : list request) (f : A -> M B) :
  Run (Ok a) t ≫= f = Run (outcome (f a)) (t ++ issued (f a)).
Proof. reflexivity. Qed.

Lemma bind_Run_Raise {A B} (e : exn) (t : list request) (f : A -> M B) :
  Run (Raise e) t ≫= f = Run (Raise e) t.
Proof. reflexivity. Qed.

Lemma bind_lift_Ok {A B} (a : A) (f : A -> M B) : lift (Ok a) ≫= f = f a.
Proof. unfold lift. rewrite bind_Run_Ok. apply M_eta. Qed.

Lemma bind_lift_Raise {A B} (e : exn) (f : A -> M B) :
  lift (Raise e) ≫= f = Run (Raise e) [].
Proof. reflexivity. Qed.

Lemma bind_mret {A B} (a : A) (f : A -> M B) : mret a ≫= f = f a.
Proof. apply (bind_lift_Ok a f). Qed.

Lemma outcome_bind {A B} (m : M A) (f : A -> M B) :
  outcome (m ≫= f) = match outcome m with
                     | Ok a => outcome (f a)
                     | Raise e => Raise e
                     end.
Proof. unfold mbind, M_bind. destruct (outcome m); reflexivity. Qed.

Lemma issued_bind {A B} (m : M A) (f : A -> M B) :
  issued (m ≫= f) = match outcome m with
                    | Ok a => issued m ++ issued (f a)
                    | Raise e => issued m
                    end.
Proof. unfold mbind, M_bind. destruct (outcome m); reflexivity. Qed.

Lemma try_except_Ok {A} (a : A) (t : list request) (h : exn -> M A) :
  try_except (Run (Ok a) t) h = Run (Ok a) t.
Proof. reflexivity. Qed.

Lemma try_except_Raise {A} (e : exn) (t : list request) (h : exn -> M A) :
  try_except (Run (Raise e) t) h = Run (outcome (h e)) (t ++ issued (h e)).
Proof. reflexivity. Qed.

(** A computation that issues no request. *)
Definition silent {A} (m : M A) : Prop := issued m = [].

Lemma silent_lift {A} (r : res A) : silent (lift r).
Proof. reflexivity. Qed.

Lemma silent_mret {A} (a : A) : silent (mret a : M A).
Proof. reflexivity. Qed.

Lemma silent_bind {A B} (m : M A) (f : A -> M B) :
  silent m -> (forall a, outcome m = Ok a -> silent (f a)) -> silent (m ≫= f).
Proof.
  unfold silent. intros Hm Hf. rewrite issued_bind, Hm.
  destruct (outcome m) as [a|e] eqn:E; [|reflexivity].
  now apply Hf.
Qed.

Lemma silent_try_except {A} (body : M A) (h : exn -> M A) :
  silent body -> (forall e, silent (h e)) -> silent (try_except body h).
Proof.
  unfold silent, try_except. intros Hb Hh.
  destruct (outcome body); simpl; [assumption|].
  now rewrite Hb, Hh.
Qed.

(** What follows a silent prefix, or precedes a silent rest, is the whole
    trace. *)
Lemma issued_bind_silent {A B} (m : M A) (f : A -> M B) :
  (forall a, silent (f a)) -> issued (m ≫= f) = issued m.
Proof.
  intros Hf. rewrite issued_bind. destruct (outcome m); [|reflexivity].
  rewrite (Hf a). apply app_nil_r.
Qed.

Lemma issued_try_except_silent {A} (body : M A) (h : exn -> M A) :
  (forall e, silent (h e)) -> issued (try_except body h) = issued body.
Proof.
  intros Hh. unfold try_except. destruct (outcome body); [reflexivity|].
  simpl. rewrite (Hh e). apply app_nil_r.
Qed.

(** ** The request helper *)

Lemma key_truthy (env : Env) :
  N8N_API_KEY env <> "" -> negb (py_truthy (VStr (N8N_API_KEY env))) = false.
Proof.
  intros H. simpl. apply String.eqb_neq in H. now rewrite H.
Qed.

(** Without a credential the helper answers at once. *)
Lemma make_n8n_request_no_key (env : Env) (method endpoint : string) (data : value) :
  N8N_API_KEY env = "" ->
  make_n8n_request env method endpoint data = mret (error_dict not_configured).
Proof. intros H. unfold make_n8n_request. now rewrite H. Qed.

(** With a credential, the helper issues the request of the table and
    returns the classified answer. *)
Lemma make_n8n_request_spec (env : Env) (method endpoint : string) (data : value) :
  N8N_API_KEY env <> "" ->
  known_method method = true ->
  make_n8n_request env method endpoint data
  = Run (Ok (classify method (transport env (request_for env method endpoint data))))
        [request_for env method endpoint data].
Proof.
  intros Hkey Hm. unfold make_n8n_request. rewrite (key_truthy env Hkey).
  unfold known_method in Hm. unfold classify, accepted, decodes_body, request_for, sends_body.
  unfold send, http_error.
  destruct (String.eqb method "GET") eqn:EG.
  { apply String.eqb_eq in EG; subst method. simpl.
    destruct (transport env _) as [r|e]; [|reflexivity].
    rewrite bind_Run_Ok.
    destruct (status r =? 200)%Z.
    - destruct (json r); reflexivity.
    - destruct (text r); reflexivity. }
  destruct (String.eqb method "POST") eqn:EP.
  { apply String.eqb_eq in EP; subst method. simpl.
    destruct (transport env _) as [r|e]; [|reflexivity].
    rewrite bind_Run_Ok.
    destruct ((status r =? 200)%Z || (status r =? 201)%Z).
    - destruct (json r); reflexivity.
    - destruct (text r); reflexivity. }
  destruct (String.eqb method "PATCH") eqn:EA.
  { apply String.eqb_eq in EA; subst method. simpl.
    destruct (transport env _) as [r|e]; [|reflexivity].
    rewrite bind_Run_Ok.
    destruct (status r =? 200)%Z.
    - destruct (json r); reflexivity.
    - destruct (text r); reflexivity. }
  destruct (String.eqb method "DELETE") eqn:ED; [|discriminate].
  apply String.eqb_eq in ED; subst method. simpl.
  destruct (transport env _) as [r|e]; [|reflexivity].
  rewrite bind_Run_Ok.
  destruct ((status r =? 200)%Z || (status r =? 204)%Z).
  - reflexivity.
  - destruct (text r); reflexivity.
Qed.

(** Another method name sends nothing and returns [None]. *)
Lemma make_n8n_request_other_method (env : Env) (method endpoint : string) (data : value) :
  N8N_API_KEY env <> "" ->
  known_method method = false ->
  make_n8n_request env method endpoint data = mret VNone.
Proof.
  intros Hkey Hm. unfold make_n8n_request. rewrite (key_truthy env Hkey).
  unfold known_method in Hm.
  destruct (String.eqb method "GET"); [discriminate|].
  destruct (String.eqb method "POST"); [discriminate|].
  destruct (String.eqb method "PATCH"); [discriminate|].
  destruct (String.eqb method "DELETE"); [discriminate|].
  reflexivity.
Qed.

(** The helper never raises, and issues at most one request. *)
Lemma make_n8n_request_total (env : Env) (method endpoint : string) (data : value) :
  exists v t, make_n8n_request env method endpoint data = Run (Ok v) t
              /\ (length t <= 1)%nat.
Proof.
  destruct (String.eqb (N8N_API_KEY env) "") eqn:EK.
  - apply String.eqb_eq in EK.
    rewrite (make_n8n_request_no_key env method endpoint data EK).
    eexists _, []. split; [reflexivity|simpl; lia].
  - apply String.eqb_neq in EK.
    destruct (known_method method) eqn:Hm.
    + rewrite (make_n8n_request_spec env method endpoint data EK Hm).
      eexists _, [_]. split; [reflexivity|simpl; lia].
    + rewrite (make_n8n_request_other_method env method endpoint data EK Hm).
      eexists _, []. split; [reflexivity|simpl; lia].
Qed.



(** ** The shape of a tool: arguments, one call of the helper, the reply *)

Lemma truthy_str_false (s : string) : py_truthy (VStr s) = false -> s = "".
Proof. simpl. intros H. apply negb_false_iff in H. now apply String.eqb_eq. Qed.

Lemma truthy_str_true (s : string) : s <> "" -> py_truthy (VStr s) = true.
Proof. simpl. intros H. apply negb_true_iff. now apply String.eqb_neq. Qed.

(** An SDK handler whose helper call returned [v]: the reply is rendered
    from [v], and an exception of the rendering becomes the handler's
    failure reply. *)
Lemma try_bind_lift {A} (m : M value) (k : value -> res A) (h : exn -> A)
    (v : value) (t : list request) :
  m = Run (Ok v) t ->
  try_except (result ← m; lift (k result)) (fun e => mret (h e))
  = Run (Ok (match k v with Ok a => a | Raise e => h e end)) t.
Proof.
  intros ->. rewrite bind_Run_Ok. unfold lift, try_except. simpl.
  destruct (k v); simpl; now rewrite ?app_nil_r.
Qed.

(** The same call in [call_tool], where nothing catches. *)
Lemma bind_lift_run {A} (m : M value) (k : value -> res A)
    (v : value) (t : list request) :
  m = Run (Ok v) t -> (result ← m; lift (k result)) = Run (k v) t.
Proof. intros ->. rewrite bind_Run_Ok. simpl. now rewrite app_nil_r. Qed.

Lemma respond_error_dict {A} (ok err : string -> A) (render : value -> res string)
    (msg : string) :
  respond ok err render (error_dict msg) = Ok (err ("Error: " +:+ msg)).
Proof. reflexivity. Qed.

Lemma respond_no_error {A} (ok err : string -> A) (render : value -> res string)
    (v : value) :
  py_contains "error" v = Ok false ->
  respond ok err render v = (t ← render v; mret (ok t)).
Proof. intros H. unfold respond. now rewrite H. Qed.

(** The outcomes of the [input_data] step of the SDK handler. *)
Lemma sdk_data_payload_cases (env : Env) (args : gmap string string) :
  match args !! "input_data" with
  | None => Sdk.data_payload env args = Ok (inl (VDict []))
  | Some s =>
      if String.eqb s "" then Sdk.data_payload env args = Ok (inl (VDict []))
      else match json_loads env s with
           | Ok v => Sdk.data_payload env args = Ok (inl v)
           | Raise e =>
               if String.eqb (exn_class e) "JSONDecodeError"
               then Sdk.data_payload env args
                    = Ok (inr (Sdk.error_reply "Error: input_data must be valid JSON string"))
               else Sdk.data_payload env args = Raise e
           end
  end.
Proof.
  unfold Sdk.data_payload, args_get, args_getitem.
  destruct (args !! "input_data") as [s|]; [|reflexivity].
  simpl. destruct (String.eqb s ""); simpl; [reflexivity|].
  destruct (json_loads env s) as [v|e]; simpl; [reflexivity|].
  destruct (String.eqb (exn_class e) "JSONDecodeError"); reflexivity.
Qed.

(** The outcomes of the [input_data] step of [call_tool]. *)
Lemma standalone_data_payload_cases (env : Env) (args : gmap string string) :
  let s := default "{}" (args !! "input_data") in
  if String.eqb s "" then Standalone.data_payload env args = Ok (inl (VDict []))
  else match json_loads env s with
       | Ok v => Standalone.data_payload env args = Ok (inl v)
       | Raise e =>
           if String.eqb (exn_class e) "JSONDecodeError"
           then Standalone.data_payload env args
                = Ok (inr (Standalone.one_text "Error: input_data must be valid JSON string"))
           else Standalone.data_payload env args = Raise e
       end.
Proof.
  unfold Standalone.data_payload, args_get. simpl.
  destruct (String.eqb (default "{}" (args !! "input_data")) ""); simpl; [reflexivity|].
  destruct (json_loads env _) as [v|e]; simpl; [reflexivity|].
  destruct (String.eqb (exn_class e) "JSONDecodeError"); reflexivity.
Qed.

(** A name of the catalog passes one of the six tests of [call_tool]. *)
Lemma catalog_name_cases (name : string) :
  In name catalog_names ->
  name = "list_workflows" \/ name = "get_workflow" \/ name = "execute_workflow"
  \/ name = "get_execution" \/ name = "activate_workflow"
  \/ name = "deactivate_workflow".
Proof. simpl. intuition. Qed.

Ltac sdk_cases Ht :=
  simpl in Ht;
  destruct Ht as [<-|[<-|[<-|[<-|[<-|[<-|[]]]]]]];
  cbn [Sdk.tool_handler Sdk.tool_schema Sdk.tool_name].

(** ** C1: no credential *)

Local Ltac flagged :=
  split; [reflexivity|]; split; [eexists; split; reflexivity|].

Local Ltac missing_argument key :=
  flagged; intros [H _];
  destruct (H key) as [x Hx]; [now left|discriminate|]; congruence.

(** C1, as amended.  With no credential configured no tool makes a network
    call, whatever the tool name and the arguments.  The check sits in the
    request helper, which a tool calls after the dispatch on its name, the
    lookup of its arguments and the parsing of [input_data]: an invocation
    that reaches the helper returns the text ["Error: N8N_API_KEY not
    configured. ..."], which the SDK handlers flag with [is_error]; every
    reply of an SDK handler is flagged in this configuration. *)
Theorem C1_no_credential (env : Env) (Hkey : N8N_API_KEY env = "") :
  (forall t args, In t (Sdk.n8n_server env) ->
      issued (Sdk.tool_handler t args) = []
      /\ (exists r, outcome (Sdk.tool_handler t args) = Ok r /\ Sdk.is_error r = true)
      /\ (sdk_ready env t args ->
          outcome (Sdk.tool_handler t args)
          = Ok (Sdk.error_reply ("Error: " +:+ not_configured))))
  /\ (forall name args,
      issued (Standalone.call_tool env name args) = []
      /\ (In name catalog_names ->
          (name = "execute_workflow" -> standalone_input_decodes env args) ->
          outcome (Standalone.call_tool env name args)
          = Ok (Standalone.one_text ("Error: " +:+ not_configured)))).
Proof.
  pose proof (fun m ep d => make_n8n_request_no_key env m ep d Hkey) as Hno.
  split.
  - intros t args Ht. unfold sdk_ready. sdk_cases Ht.
    + unfold Sdk.list_workflows.
      rewrite (try_bind_lift _ _ _ _ _ (Hno _ _ _)), respond_error_dict.
      flagged. reflexivity.
    + unfold Sdk.get_workflow, args_getitem.
      destruct (args !! "workflow_id") as [w|] eqn:Ew; [|missing_argument "workflow_id"].
      rewrite bind_lift_Ok, (try_bind_lift _ _ _ _ _ (Hno _ _ _)), respond_error_dict.
      flagged. reflexivity.
    + unfold Sdk.execute_workflow, args_getitem.
      destruct (args !! "workflow_id") as [w|] eqn:Ew; [|missing_argument "workflow_id"].
      rewrite bind_lift_Ok.
      pose proof (sdk_data_payload_cases env args) as Hp. unfold sdk_input_decodes.
      destruct (args !! "input_data") as [s|] eqn:Ein.
      * destruct (String.eqb s "") eqn:Es.
        { rewrite Hp, bind_lift_Ok, (try_bind_lift _ _ _ _ _ (Hno _ _ _)), respond_error_dict.
          flagged. reflexivity. }
        destruct (json_loads env s) as [v|e] eqn:El.
        { rewrite Hp, bind_lift_Ok, (try_bind_lift _ _ _ _ _ (Hno _ _ _)), respond_error_dict.
          flagged. reflexivity. }
        apply String.eqb_neq in Es.
        destruct (String.eqb (exn_class e) "JSONDecodeError"); rewrite Hp;
          flagged; intros [_ H]; destruct (H eq_refl) as [?|[v Hv]]; congruence.
      * rewrite Hp, bind_lift_Ok, (try_bind_lift _ _ _ _ _ (Hno _ _ _)), respond_error_dict.
        flagged. reflexivity.
    + unfold Sdk.get_execution, args_getitem.
      destruct (args !! "execution_id") as [w|] eqn:Ew; [|missing_argument "execution_id"].
      rewrite bind_lift_Ok, (try_bind_lift _ _ _ _ _ (Hno _ _ _)), respond_error_dict.
      flagged. reflexivity.
    + unfold Sdk.activate_workflow, args_getitem.
      destruct (args !! "workflow_id") as [w|] eqn:Ew; [|missing_argument "workflow_id"].
      rewrite bind_lift_Ok, (try_bind_lift _ _ _ _ _ (Hno _ _ _)), respond_error_dict.
      flagged. reflexivity.
    + unfold Sdk.deactivate_workflow, args_getitem.
      destruct (args !! "workflow_id") as [w|] eqn:Ew; [|missing_argument "workflow_id"].
      rewrite bind_lift_Ok, (try_bind_lift _ _ _ _ _ (Hno _ _ _)), respond_error_dict.
      flagged. reflexivity.
  - intros name args. unfold Standalone.call_tool, standalone_input_decodes.
    destruct (String.eqb name "list_workflows") eqn:E1.
    { rewrite (bind_lift_run _ _ _ _ (Hno _ _ _)), respond_error_dict. now split. }
    destruct (String.eqb name "get_workflow") eqn:E2.
    { rewrite (bind_lift_run _ _ _ _ (Hno _ _ _)), respond_error_dict. now split. }
    destruct (String.eqb name "execute_workflow") eqn:E3.
    { apply String.eqb_eq in E3.
      pose proof (standalone_data_payload_cases env args) as Hp. simpl in Hp.
      destruct (String.eqb (default "{}" (args !! "input_data")) "") eqn:Es.
      { rewrite Hp, bind_lift_Ok, (bind_lift_run _ _ _ _ (Hno _ _ _)), respond_error_dict.
        now split. }
      destruct (json_loads env _) as [v|e] eqn:El.
      { rewrite Hp, bind_lift_Ok, (bind_lift_run _ _ _ _ (Hno _ _ _)), respond_error_dict.
        now split. }
      apply String.eqb_neq in Es.
      destruct (String.eqb (exn_class e) "JSONDecodeError"); rewrite Hp;
        (split; [reflexivity|]); intros _ H;
        destruct (H E3) as [?|[v Hv]]; congruence. }
    destruct (String.eqb name "get_execution") eqn:E4.
    { rewrite (bind_lift_run _ _ _ _ (Hno _ _ _)), respond_error_dict. now split. }
    destruct (String.eqb name "activate_workflow") eqn:E5.
    { rewrite (bind_lift_run _ _ _ _ (Hno _ _ _)), respond_error_dict. now split. }
    destruct (String.eqb name "deactivate_workflow") eqn:E6.
    { rewrite (bind_lift_run _ _ _ _ (Hno _ _ _)), respond_error_dict. now split. }
    split; [reflexivity|]. intros Hin _.
    apply catalog_name_cases in Hin.
    destruct Hin as [->|[->|[->|[->|[->| ->]]]]]; discriminate.
Qed.

(** The three inputs that refute C1 as stated: with no credential, an
    [input_data] that is not JSON, a missing [workflow_id] and an unknown
    tool name are each answered before the configuration check, with
    another text than the configuration error. *)
Lemma C1_counterexample :
  N8N_API_KEY (sample_env "" refused) = ""
  /\ outcome (Sdk.execute_workflow (sample_env "" refused) (args_input "1" "not-json"))
     = Ok (Sdk.error_reply "Error: input_data must be valid JSON string")
  /\ outcome (Sdk.get_workflow (sample_env "" refused) ∅)
     = Ok (Sdk.error_reply "Failed to get workflow: 'workflow_id'")
  /\ outcome (Standalone.call_tool (sample_env "" refused) "nonexistent_tool" ∅)
     = Ok (Standalone.one_text "Unknown tool: nonexistent_tool").
Proof. repeat split; vm_compute; reflexivity. Qed.

Lemma C1_witness :
  issued (Sdk.get_workflow (sample_env "" refused) (args_id "42")) = []
  /\ outcome (Sdk.get_workflow (sample_env "" refused) (args_id "42"))
     = Ok (Sdk.error_reply
             "Error: N8N_API_KEY not configured. Set environment variable N8N_API_KEY.").
Proof.
  destruct (C1_no_credential (sample_env "" refused) eq_refl) as [Hsdk _].
  destruct (Hsdk _ (args_id "42") (or_intror (or_introl eq_refl))) as (Hi & _ & Ho).
  split; [exact Hi|]. apply Ho. split.
  - intros k [<-|[]] _. exists "42". reflexivity.
  - discriminate.
Defined.



(** ** C10: an accepted status with a body that is not JSON *)

Lemma decodes_known (method : string) :
  decodes_body method = true -> known_method method = true.
Proof. unfold decodes_body, known_method. intros ->. reflexivity. Qed.

(** C10, as amended.  With a credential configured, when a request is
    answered with a status accepted for its method, what the helper
    returns depends on the method and on what [response.json()] does.
    For GET, POST and PATCH: if [response.json()] raises (the body is not
    JSON), the helper catches the exception and returns (it does not
    raise) the error dict whose text is ["Request failed: "] followed by
    the description, with no status code, and every tool turns that dict
    into the reply ["Error: Request failed: ..."]; if [response.json()]
    returns a value, the helper returns that value as it is, [None] for
    an empty body included, and reports no error.  For DELETE the body is
    never decoded: the helper returns [{"success": True}] whatever the
    body is. *)
Theorem C10_undecodable_body (env : Env) (method endpoint : string) (data : value)
    (r : response)
    (Hkey : N8N_API_KEY env <> "")
    (Hm : known_method method = true)
    (Hans : transport env (request_for env method endpoint data) = Ok r)
    (Hacc : accepted method (status r) = true) :
  (decodes_body method = true ->
   forall e, json r = Raise e ->
     make_n8n_request env method endpoint data
     = Run (Ok (error_dict ("Request failed: " +:+ exn_msg e)))
           [request_for env method endpoint data]
     /\ (forall (A : Type) (ok err : string -> A) (render : value -> res string),
           respond ok err render (error_dict ("Request failed: " +:+ exn_msg e))
           = Ok (err ("Error: Request failed: " +:+ exn_msg e))))
  /\ (decodes_body method = true ->
      forall v, json r = Ok v ->
        make_n8n_request env method endpoint data
        = Run (Ok v) [request_for env method endpoint data])
  /\ (method = "DELETE" ->
      make_n8n_request env method endpoint data
      = Run (Ok (VDict [("success", VBool true)]))
            [request_for env method endpoint data]).
Proof.
  rewrite (make_n8n_request_spec env method endpoint data Hkey Hm).
  unfold classify. rewrite Hans, Hacc.
  split; [|split].
  - intros Hd e Hjson. rewrite Hd, Hjson. split; [reflexivity|].
    intros A ok err render. reflexivity.
  - intros Hd v Hjson. rewrite Hd, Hjson. reflexivity.
  - intros ->. reflexivity.
Qed.

Lemma C10_witness :
  make_n8n_request (sample_env "k" (plain_response 200 "<html>")) "GET" "workflows" VNone
  = Run (Ok (error_dict "Request failed: Expecting value: line 1 column 1 (char 0)"))
        [request_for (sample_env "k" (plain_response 200 "<html>")) "GET" "workflows" VNone].
Proof.
  assert (Hkey : N8N_API_KEY (sample_env "k" (plain_response 200 "<html>")) <> "")
    by discriminate.
  exact (proj1 (proj1 (C10_undecodable_body _ "GET" "workflows" VNone _ Hkey
                         eq_refl eq_refl eq_refl)
                  eq_refl _ eq_refl)).
Defined.

(** The inputs that refute C10 as stated, for every request with an
    accepted status and a body that is not JSON.  A DELETE answered 200
    with the body [<html>] is a success: the helper returns
    [{"success": True}] and never reads the body.  A GET answered 200 with
    an empty body is no error of the helper either: [response.json()]
    returns [None], the helper returns it, and the tool fails on it, the
    standalone [call_tool] by raising the [TypeError] to its caller and
    the SDK handler with a reply that does not start with
    ["Error: Request failed"]. *)
Lemma C10_counterexample :
  make_n8n_request (sample_env "k" (plain_response 200 "<html>")) "DELETE" "workflows/1" VNone
  = Run (Ok (VDict [("success", VBool true)]))
        [request_for (sample_env "k" refused) "DELETE" "workflows/1" VNone]
  /\ accepted "DELETE" 200 = true
  /\ make_n8n_request (sample_env "k" empty_response) "GET" "workflows" VNone
     = Run (Ok VNone) [request_for (sample_env "k" refused) "GET" "workflows" VNone]
  /\ outcome (Standalone.call_tool (sample_env "k" empty_response) "list_workflows" ∅)
     = Raise (TypeError "argument of type 'NoneType' is not iterable")
  /\ outcome (Sdk.list_workflows (sample_env "k" empty_response) ∅)
     = Ok (Sdk.error_reply
             "Failed to list workflows: argument of type 'NoneType' is not iterable").
Proof. repeat split; vm_compute; reflexivity. Qed.

(** ** C5: the body of [execute_workflow] *)

Lemma sdk_payload_invalid (env : Env) (args : gmap string string) (s : string) (e : exn) :
  args !! "input_data" = Some s -> s <> "" ->
  json_loads env s = Raise e -> exn_class e = "JSONDecodeError" ->
  Sdk.data_payload env args
  = Ok (inr (Sdk.error_reply "Error: input_data must be valid JSON string")).
Proof.
  intros Hin Hs Hl Hc. pose proof (sdk_data_payload_cases env args) as Hp.
  apply String.eqb_neq in Hs. now rewrite Hin, Hs, Hl, Hc in Hp.
Qed.

Lemma sdk_payload_empty (env : Env) (args : gmap string string) :
  args !! "input_data" = None \/ args !! "input_data" = Some "" ->
  Sdk.data_payload env args = Ok (inl (VDict [])).
Proof.
  intros H. pose proof (sdk_data_payload_cases env args) as Hp.
  destruct H as [H|H]; now rewrite H in Hp.
Qed.

Lemma sdk_payload_valid (env : Env) (args : gmap string string) (s : string) (v : value) :
  args !! "input_data" = Some s -> s <> "" -> json_loads env s = Ok v ->
  Sdk.data_payload env args = Ok (inl v).
Proof.
  intros Hin Hs Hl. pose proof (sdk_data_payload_cases env args) as Hp.
  apply String.eqb_neq in Hs. now rewrite Hin, Hs, Hl in Hp.
Qed.

Lemma standalone_payload_invalid (env : Env) (args : gmap string string)
    (s : string) (e : exn) :
  args !! "input_data" = Some s -> s <> "" ->
  json_loads env s = Raise e -> exn_class e = "JSONDecodeError" ->
  Standalone.data_payload env args
  = Ok (inr (Standalone.one_text "Error: input_data must be valid JSON string")).
Proof.
  intros Hin Hs Hl Hc. pose proof (standalone_data_payload_cases env args) as Hp.
  apply String.eqb_neq in Hs. simpl in Hp. rewrite Hin in Hp. simpl in Hp.
  now rewrite Hs, Hl, Hc in Hp.
Qed.

Lemma standalone_payload_valid (env : Env) (args : gmap string string)
    (s : string) (v : value) :
  default "{}" (args !! "input_data") = s -> s <> "" -> json_loads env s = Ok v ->
  Standalone.data_payload env args = Ok (inl v).
Proof.
  intros Hin Hs Hl. pose proof (standalone_data_payload_cases env args) as Hp.
  apply String.eqb_neq in Hs. simpl in Hp. rewrite Hin in Hp.
  now rewrite Hs, Hl in Hp.
Qed.

Lemma standalone_payload_empty (env : Env) (args : gmap string string) :
  args !! "input_data" = Some "" ->
  Standalone.data_payload env args = Ok (inl (VDict [])).
Proof.
  intros Hin. pose proof (standalone_data_payload_cases env args) as Hp.
  simpl in Hp. now rewrite Hin in Hp.
Qed.

(** The trace of [execute_workflow] once the body is known. *)
Lemma sdk_execute_issued (env : Env) (args : gmap string string)
    (wid : string) (payload : value) :
  N8N_API_KEY env <> "" ->
  args !! "workflow_id" = Some wid ->
  Sdk.data_payload env args = Ok (inl payload) ->
  issued (Sdk.execute_workflow env args)
  = [request_for env "POST" ("workflows/" +:+ wid +:+ "/execute") payload].
Proof.
  intros Hkey Hwid Hp. unfold Sdk.execute_workflow, args_getitem.
  rewrite Hwid, bind_lift_Ok, Hp, bind_lift_Ok.
  now rewrite (try_bind_lift _ _ _ _ _ (make_n8n_request_spec env "POST" _ payload Hkey eq_refl)).
Qed.

Lemma standalone_execute_issued (env : Env) (args : gmap string string)
    (wid : string) (payload : value) :
  N8N_API_KEY env <> "" ->
  args !! "workflow_id" = Some wid ->
  Standalone.data_payload env args = Ok (inl payload) ->
  issued (Standalone.call_tool env "execute_workflow" args)
  = [request_for env "POST" ("workflows/" +:+ wid +:+ "/execute") payload].
Proof.
  intros Hkey Hwid Hp. unfold Standalone.call_tool, args_get. simpl String.eqb. cbv iota.
  rewrite Hwid, Hp, bind_lift_Ok. simpl str_opt.
  now rewrite (bind_lift_run _ _ _ _ (make_n8n_request_spec env "POST" _ payload Hkey eq_refl)).
Qed.

(** C5, as amended.  With a credential configured and a [workflow_id]
    given: an [input_data] that is present, not empty and not valid JSON
    issues no HTTP request and is answered with the one text
    ["Error: input_data must be valid JSON string"]; the SDK handler flags
    that reply with [is_error], while the standalone [call_tool] returns
    it as a bare text block, the record of its successful replies, since
    its replies have no error flag.  An absent or empty [input_data]
    issues exactly one POST to [workflows/{workflow_id}/execute] whose
    [json=] argument is [{}] (the standalone server decodes the default
    text ["{}"] for an absent one).  An [input_data] that decodes issues
    exactly one POST whose [json=] argument is the decoded value, whatever
    it is: for the text [null] the argument is [None]. *)
Theorem C5_execute_workflow (env : Env) (args : gmap string string) (wid : string)
    (Hkey : N8N_API_KEY env <> "")
    (Hwid : args !! "workflow_id" = Some wid) :
  let post body := request_for env "POST" ("workflows/" +:+ wid +:+ "/execute") body in
  (forall s e,
      args !! "input_data" = Some s -> s <> "" ->
      json_loads env s = Raise e -> exn_class e = "JSONDecodeError" ->
      Sdk.execute_workflow env args
      = Run (Ok (Sdk.error_reply "Error: input_data must be valid JSON string")) []
      /\ Standalone.call_tool env "execute_workflow" args
         = Run (Ok (Standalone.one_text "Error: input_data must be valid JSON string")) [])
  /\ (args !! "input_data" = None \/ args !! "input_data" = Some "" ->
      issued (Sdk.execute_workflow env args) = [post (VDict [])]
      /\ (args !! "input_data" = Some "" \/ json_loads env "{}" = Ok (VDict []) ->
          issued (Standalone.call_tool env "execute_workflow" args) = [post (VDict [])]))
  /\ (forall s v,
      args !! "input_data" = Some s -> s <> "" -> json_loads env s = Ok v ->
      issued (Sdk.execute_workflow env args) = [post v]
      /\ issued (Standalone.call_tool env "execute_workflow" args) = [post v])
  /\ rq_method (post (VDict [])) = "POST"
  /\ rq_url (post (VDict [])) = N8N_BASE_URL env +:+ "/api/v1/workflows/" +:+ wid +:+ "/execute"
  /\ (forall body, rq_json (post body) = Some body).
Proof.
  intros post. subst post. split; [|split; [|split; [|split; [|split]]]].
  - intros s e Hin Hs Hl Hc. split.
    + unfold Sdk.execute_workflow, args_getitem.
      rewrite Hwid, bind_lift_Ok, (sdk_payload_invalid env args s e Hin Hs Hl Hc), bind_lift_Ok.
      reflexivity.
    + unfold Standalone.call_tool. simpl String.eqb. cbv iota.
      rewrite (standalone_payload_invalid env args s e Hin Hs Hl Hc), bind_lift_Ok.
      reflexivity.
  - intros Hin. split.
    + apply (sdk_execute_issued env args wid _ Hkey Hwid), sdk_payload_empty, Hin.
    + intros Hd. apply (standalone_execute_issued env args wid _ Hkey Hwid).
      destruct Hin as [Hin|Hin].
      * destruct Hd as [Hd|Hd]; [congruence|].
        apply (standalone_payload_valid env args "{}"); [now rewrite Hin|discriminate|exact Hd].
      * now apply standalone_payload_empty.
  - intros s v Hin Hs Hl. split.
    + apply (sdk_execute_issued env args wid _ Hkey Hwid).
      now apply (sdk_payload_valid env args s).
    + apply (standalone_execute_issued env args wid _ Hkey Hwid).
      apply (standalone_payload_valid env args s); [now rewrite Hin|exact Hs|exact Hl].
  - reflexivity.
  - reflexivity.
  - reflexivity.
Qed.

Lemma C5_witness :
  Sdk.execute_workflow (sample_env "k" refused) (args_input "1" "not-json")
  = Run (Ok (Sdk.error_reply "Error: input_data must be valid JSON string")) []
  /\ issued (Sdk.execute_workflow (sample_env "k" refused) (args_id "1"))
     = [request_for (sample_env "k" refused) "POST" "workflows/1/execute" (VDict [])]
  /\ issued (Standalone.call_tool (sample_env "k" refused) "execute_workflow"
               (args_input "1" "[1, 2]"))
     = [request_for (sample_env "k" refused) "POST" "workflows/1/execute"
          (VList [VInt 1; VInt 2])].
Proof.
  assert (Hkey : N8N_API_KEY (sample_env "k" refused) <> "") by discriminate.
  split; [|split].
  - destruct (C5_execute_workflow (sample_env "k" refused) (args_input "1" "not-json")
                "1" Hkey eq_refl) as (H & _).
    refine (proj1 (H "not-json" _ eq_refl _ eq_refl eq_refl)). discriminate.
  - destruct (C5_execute_workflow (sample_env "k" refused) (args_id "1")
                "1" Hkey eq_refl) as (_ & H & _).
    exact (proj1 (H (or_introl eq_refl))).
  - destruct (C5_execute_workflow (sample_env "k" refused) (args_input "1" "[1, 2]")
                "1" Hkey eq_refl) as (_ & _ & H & _).
    refine (proj2 (H "[1, 2]" _ eq_refl _ eq_refl)). discriminate.
Defined.

(** The inputs that refute C5 as stated.  For an [input_data] that is not
    JSON the standalone [call_tool] returns no error-flagged envelope: its
    reply is the bare text block that a successful call returns too, and
    only the SDK handler sets [is_error].  And the POST does not always
    carry the parsed value as its body: for the text [null] the parsed
    value is [None], so that the call is [json=None]. *)
Lemma C5_counterexample :
  Standalone.call_tool (sample_env "k" refused) "execute_workflow"
    (args_input "1" "not-json")
  = Run (Ok [{| type := "text";
                text_of := "Error: input_data must be valid JSON string" |}]) []
  /\ outcome (Standalone.call_tool (sample_env "k" (json_response 200 "{}" (VDict [])))
                "activate_workflow" (args_id "1"))
     = Ok [{| type := "text"; text_of := "Workflow 1 activated successfully!" |}]
  /\ outcome (Sdk.execute_workflow (sample_env "k" refused) (args_input "1" "not-json"))
     = Ok {| Sdk.content :=
               [{| type := "text";
                   text_of := "Error: input_data must be valid JSON string" |}];
             Sdk.is_error := true |}
  /\ map rq_json (issued (Sdk.execute_workflow (null_env "k" refused)
                            (args_input "1" "null")))
     = [Some VNone]
  /\ map rq_json (issued (Standalone.call_tool (null_env "k" refused) "execute_workflow"
                            (args_input "1" "null")))
     = [Some VNone].
Proof. repeat split; vm_compute; reflexivity. Qed.

(** ** C6: an unknown tool name *)

(** C6, as amended.  For a tool name that is none of the six catalog
    names, [call_tool] makes no network call and returns the one text
    block ["Unknown tool: <name>"]: ordinary content, which carries no
    error flag. *)
Theorem C6_unknown_tool (env : Env) (name : string) (args : gmap string string)
    (Hname : ~ In name catalog_names) :
  Standalone.call_tool env name args
  = Run (Ok [{| type := "text"; text_of := "Unknown tool: " +:+ name |}]) [].
Proof.
  unfold Standalone.call_tool.
  repeat match goal with
  | |- context [String.eqb name ?s] =>
      let E := fresh "E" in
      destruct (String.eqb name s) eqn:E;
      [apply String.eqb_eq in E; exfalso; apply Hname; rewrite E; simpl; tauto|]
  end.
  reflexivity.
Qed.

Lemma C6_witness :
  Standalone.call_tool (sample_env "k" refused) "delete_workflow" ∅
  = Run (Ok [{| type := "text"; text_of := "Unknown tool: delete_workflow" |}]) [].
Proof.
  apply (C6_unknown_tool (sample_env "k" refused) "delete_workflow" ∅).
  simpl. intros [H|[H|[H|[H|[H|[H|[]]]]]]]; discriminate.
Defined.

(** The input that refutes C6 as stated: the reply to an unknown name is
    a bare text block, the same record as a successful reply, and its
    text does not even start as the error replies of [call_tool] do. *)
Lemma C6_counterexample :
  Standalone.call_tool (sample_env "k" refused) "nonexistent_tool" ∅
  = Run (Ok [{| type := "text"; text_of := "Unknown tool: nonexistent_tool" |}]) []
  /\ String.prefix "Error: " "Unknown tool: nonexistent_tool" = false
  /\ Standalone.call_tool (sample_env "k" refused) "list_workflows" ∅
     = Run (Ok [{| type := "text";
                   text_of := "Error: Request failed: Cannot connect to host localhost:5678" |}])
           [request_for (sample_env "k" refused) "GET" "workflows" VNone].
Proof. repeat split; vm_compute; reflexivity. Qed.

(** ** C8: activate and deactivate *)

Lemma sdk_patch_run (env : Env) (wid : string) (b : bool) (render : value -> res string)
    (h : exn -> Sdk.ToolResult) :
  N8N_API_KEY env <> "" ->
  let rq := request_for env "PATCH" ("workflows/" +:+ wid) (VDict [("active", VBool b)]) in
  try_except
    (result ← make_n8n_request env "PATCH" ("workflows/" +:+ wid)
                (VDict [("active", VBool b)]);
     lift (respond Sdk.reply Sdk.error_reply render result))
    (fun e => mret (h e))
  = Run (Ok (match respond Sdk.reply Sdk.error_reply render
                     (classify "PATCH" (transport env rq)) with
             | Ok a => a
             | Raise e => h e
             end)) [rq].
Proof.
  intros Hkey rq.
  apply try_bind_lift, (make_n8n_request_spec env "PATCH" _ _ Hkey eq_refl).
Qed.

Lemma classify_patch_ok (env : Env) (rq : request) (r : response) (v : value) :
  transport env rq = Ok r -> status r = 200%Z -> json r = Ok v ->
  classify "PATCH" (transport env rq) = v.
Proof. intros Hr Hs Hj. unfold classify. rewrite Hr, Hs, Hj. reflexivity. Qed.

(** C8.  With a credential configured, for every [workflow_id]:
    [activate_workflow] issues exactly one PATCH to
    [workflows/{workflow_id}] with body [{"active": True}] and
    [deactivate_workflow] exactly one PATCH to the same path with body
    [{"active": False}]; when the call succeeds (status 200, a decoded
    body that holds no ["error"]) the reply is the fixed sentence
    ["Workflow <id> activated successfully!"], respectively
    ["Workflow <id> deactivated successfully!"]. *)
Theorem C8_activate_deactivate (env : Env) (args : gmap string string) (wid : string)
    (Hkey : N8N_API_KEY env <> "")
    (Hwid : args !! "workflow_id" = Some wid) :
  let patch b :=
    request_for env "PATCH" ("workflows/" +:+ wid) (VDict [("active", VBool b)]) in
  let succeeds b :=
    exists r v, transport env (patch b) = Ok r /\ status r = 200%Z
                /\ json r = Ok v /\ py_contains "error" v = Ok false in
  (issued (Sdk.activate_workflow env args) = [patch true]
   /\ issued (Standalone.call_tool env "activate_workflow" args) = [patch true]
   /\ issued (Sdk.deactivate_workflow env args) = [patch false]
   /\ issued (Standalone.call_tool env "deactivate_workflow" args) = [patch false])
  /\ (forall b, rq_method (patch b) = "PATCH"
                /\ rq_url (patch b) = N8N_BASE_URL env +:+ "/api/v1/workflows/" +:+ wid
                /\ rq_json (patch b) = Some (VDict [("active", VBool b)]))
  /\ (succeeds true ->
      outcome (Sdk.activate_workflow env args)
      = Ok (Sdk.reply ("Workflow " +:+ wid +:+ " activated successfully!"))
      /\ outcome (Standalone.call_tool env "activate_workflow" args)
         = Ok (Standalone.one_text ("Workflow " +:+ wid +:+ " activated successfully!")))
  /\ (succeeds false ->
      outcome (Sdk.deactivate_workflow env args)
      = Ok (Sdk.reply ("Workflow " +:+ wid +:+ " deactivated successfully!"))
      /\ outcome (Standalone.call_tool env "deactivate_workflow" args)
         = Ok (Standalone.one_text ("Workflow " +:+ wid +:+ " deactivated successfully!"))).
Proof.
  intros patch succeeds. subst patch succeeds. cbv beta.
  assert (Hsa : forall b render h,
    try_except
      (workflow_id ← lift (args_getitem args "workflow_id");
       result ← make_n8n_request env "PATCH" ("workflows/" +:+ workflow_id)
                  (VDict [("active", VBool b)]);
       lift (respond Sdk.reply Sdk.error_reply (render workflow_id) result))
      (fun e => mret (h e))
    = Run (Ok (match respond Sdk.reply Sdk.error_reply (render wid)
                       (classify "PATCH" (transport env
                          (request_for env "PATCH" ("workflows/" +:+ wid)
                             (VDict [("active", VBool b)])))) with
               | Ok a => a
               | Raise e => h e
               end))
          [request_for env "PATCH" ("workflows/" +:+ wid) (VDict [("active", VBool b)])]).
  { intros b render h. unfold args_getitem. rewrite Hwid, bind_lift_Ok.
    apply (sdk_patch_run env wid b (render wid) h Hkey). }
  assert (Hst : forall b (render : value -> res string),
    (result ← make_n8n_request env "PATCH" ("workflows/" +:+ wid)
                (VDict [("active", VBool b)]);
     lift (respond Standalone.one_text Standalone.one_text render result))
    = Run (respond Standalone.one_text Standalone.one_text render
             (classify "PATCH" (transport env
                (request_for env "PATCH" ("workflows/" +:+ wid)
                   (VDict [("active", VBool b)])))))
          [request_for env "PATCH" ("workflows/" +:+ wid) (VDict [("active", VBool b)])]).
  { intros b render.
    apply bind_lift_run, (make_n8n_request_spec env "PATCH" _ _ Hkey eq_refl). }
  assert (Hca : Standalone.call_tool env "activate_workflow" args
                = (result ← make_n8n_request env "PATCH" ("workflows/" +:+ wid)
                              (VDict [("active", VBool true)]);
                   lift (respond Standalone.one_text Standalone.one_text
                           (fun _ => mret ("Workflow " +:+ wid +:+ " activated successfully!"))
                           result))).
  { unfold Standalone.call_tool, args_get. simpl String.eqb. cbv iota.
    rewrite Hwid. reflexivity. }
  assert (Hcd : Standalone.call_tool env "deactivate_workflow" args
                = (result ← make_n8n_request env "PATCH" ("workflows/" +:+ wid)
                              (VDict [("active", VBool false)]);
                   lift (respond Standalone.one_text Standalone.one_text
                           (fun _ => mret ("Workflow " +:+ wid +:+ " deactivated successfully!"))
                           result))).
  { unfold Standalone.call_tool, args_get. simpl String.eqb. cbv iota.
    rewrite Hwid. reflexivity. }
  unfold Sdk.activate_workflow, Sdk.deactivate_workflow.
  rewrite (Hsa true (fun w _ => mret ("Workflow " +:+ w +:+ " activated successfully!"))).
  rewrite (Hsa false (fun w _ => mret ("Workflow " +:+ w +:+ " deactivated successfully!"))).
  rewrite Hca, Hcd, !Hst.
  split; [repeat split|]. split; [intros b; repeat split|].
  split.
  - intros (r & v & Hr & Hs & Hj & He). cbn [outcome].
    rewrite (classify_patch_ok env _ r v Hr Hs Hj), !(respond_no_error _ _ _ v He).
    split; reflexivity.
  - intros (r & v & Hr & Hs & Hj & He). cbn [outcome].
    rewrite (classify_patch_ok env _ r v Hr Hs Hj), !(respond_no_error _ _ _ v He).
    split; reflexivity.
Qed.

Lemma C8_witness :
  issued (Sdk.activate_workflow (sample_env "k" (json_response 200 "{}" (VDict [])))
            (args_id "42"))
  = [{| rq_method := "PATCH";
        rq_url := "http://localhost:5678/api/v1/workflows/42";
        rq_headers := [("X-N8N-API-KEY", "k"); ("Content-Type", "application/json")];
        rq_json := Some (VDict [("active", VBool true)]);
        rq_skip_ssl_verify := false |}]
  /\ outcome (Sdk.activate_workflow (sample_env "k" (json_response 200 "{}" (VDict [])))
                (args_id "42"))
     = Ok (Sdk.reply "Workflow 42 activated successfully!")
  /\ outcome (Standalone.call_tool (sample_env "k" (json_response 200 "{}" (VDict [])))
                "deactivate_workflow" (args_id "42"))
     = Ok (Standalone.one_text "Workflow 42 deactivated successfully!").
Proof.
  assert (Hkey : N8N_API_KEY (sample_env "k" (json_response 200 "{}" (VDict []))) <> "")
    by discriminate.
  destruct (C8_activate_deactivate _ (args_id "42") "42" Hkey eq_refl)
    as ((Hi & _) & _ & Ha & Hd).
  split; [exact Hi|]. split.
  - refine (proj1 (Ha _)). eexists _, (VDict []). repeat split; reflexivity.
  - refine (proj2 (Hd _)). eexists _, (VDict []). repeat split; reflexivity.
Defined.

(** ** C7: the list of workflows *)

Lemma res_bind_Ok {A B} (a : A) (f : A -> res B) : Ok a ≫= f = f a.
Proof. reflexivity. Qed.

Lemma workflow_line_entry (wf : list (string * value)) :
  workflow_line (VDict wf) = Ok (workflow_entry wf).
Proof. reflexivity. Qed.

Lemma res_map_workflow_line (wfs : list (list (string * value))) :
  res_map workflow_line (map VDict wfs) = Ok (map workflow_entry wfs).
Proof.
  induction wfs as [|wf wfs IH]; [reflexivity|].
  cbn [map res_map]. rewrite workflow_line_entry, IH. reflexivity.
Qed.

Lemma list_workflows_text_empty (items : list (string * value)) :
  dict_lookup "data" items = None \/ dict_lookup "data" items = Some (VList []) ->
  list_workflows_text (VDict items) = Ok "No workflows found in n8n.".
Proof.
  intros H. unfold list_workflows_text. simpl py_get.
  destruct H as [-> | ->]; reflexivity.
Qed.

Lemma list_workflows_text_listing (items : list (string * value))
    (wf : list (string * value)) (wfs : list (list (string * value))) :
  dict_lookup "data" items = Some (VList (map VDict (wf :: wfs))) ->
  list_workflows_text (VDict items) = Ok (workflow_listing (wf :: wfs)).
Proof.
  intros H. unfold list_workflows_text. simpl py_get. rewrite H, res_bind_Ok.
  change (py_truthy (VList (map VDict (wf :: wfs)))) with true. cbn [negb].
  change (py_iter (VList (map VDict (wf :: wfs)))) with (Ok (map VDict (wf :: wfs))).
  rewrite res_bind_Ok, res_map_workflow_line, res_bind_Ok.
  change (py_len (VList (map VDict (wf :: wfs))))
    with (Ok (length (map VDict (wf :: wfs)))).
  rewrite res_bind_Ok, length_map. reflexivity.
Qed.

(** Both servers, on a successful answer to the list request. *)
Lemma list_workflows_success (env : Env) (args : gmap string string)
    (r : response) (items : list (string * value)) (t : string) :
  N8N_API_KEY env <> "" ->
  transport env (request_for env "GET" "workflows" VNone) = Ok r ->
  status r = 200%Z ->
  json r = Ok (VDict items) ->
  dict_lookup "error" items = None ->
  list_workflows_text (VDict items) = Ok t ->
  Sdk.list_workflows env args
  = Run (Ok (Sdk.reply t)) [request_for env "GET" "workflows" VNone]
  /\ Standalone.call_tool env "list_workflows" args
     = Run (Ok (Standalone.one_text t)) [request_for env "GET" "workflows" VNone].
Proof.
  intros Hkey Hr Hs Hj He Ht.
  assert (Hc : classify "GET" (transport env (request_for env "GET" "workflows" VNone))
               = VDict items).
  { unfold classify. rewrite Hr, Hs, Hj. reflexivity. }
  assert (Hn : py_contains "error" (VDict items) = Ok false).
  { simpl. now rewrite He. }
  split.
  - unfold Sdk.list_workflows.
    rewrite (try_bind_lift _ _ _ _ _ (make_n8n_request_spec env "GET" _ _ Hkey eq_refl)).
    rewrite Hc, (respond_no_error _ _ _ _ Hn), Ht. reflexivity.
  - unfold Standalone.call_tool. simpl String.eqb. cbv iota.
    rewrite (bind_lift_run _ _ _ _ (make_n8n_request_spec env "GET" _ _ Hkey eq_refl)).
    rewrite Hc, (respond_no_error _ _ _ _ Hn), Ht. reflexivity.
Qed.

(** C7.  For a successful answer to [list_workflows] (status 200, a JSON
    object that holds no ["error"]): when ["data"] is the empty list, or
    absent, the text is exactly ["No workflows found in n8n."]; when it is
    a non-empty list of workflow objects, the text is the count line
    ["Found N workflow(s):"] followed by one line per workflow,
    ["- name (ID: id) [Active]"] or [[Inactive]], a missing name
    rendered as [Unnamed].  Both servers render the same text. *)
Theorem C7_list_workflows (env : Env) (args : gmap string string)
    (r : response) (items : list (string * value))
    (Hkey : N8N_API_KEY env <> "")
    (Hans : transport env (request_for env "GET" "workflows" VNone) = Ok r)
    (Hst : status r = 200%Z)
    (Hjson : json r = Ok (VDict items))
    (Herr : dict_lookup "error" items = None) :
  (dict_lookup "data" items = None \/ dict_lookup "data" items = Some (VList []) ->
     outcome (Sdk.list_workflows env args) = Ok (Sdk.reply "No workflows found in n8n.")
     /\ outcome (Standalone.call_tool env "list_workflows" args)
        = Ok (Standalone.one_text "No workflows found in n8n."))
  /\ (forall wf wfs,
        dict_lookup "data" items = Some (VList (map VDict (wf :: wfs))) ->
        let text :=
          "Found " +:+ str_int (Z.of_nat (length (wf :: wfs))) +:+ " workflow(s):" +:+ nl
          +:+ String.concat nl (map workflow_entry (wf :: wfs)) in
        outcome (Sdk.list_workflows env args) = Ok (Sdk.reply text)
        /\ outcome (Standalone.call_tool env "list_workflows" args)
           = Ok (Standalone.one_text text))
  /\ (forall wf, dict_lookup "name" wf = None ->
        workflow_entry wf
        = "- Unnamed (ID: " +:+ py_str (field wf "id" VNone) +:+ ") ["
          +:+ (if py_truthy (field wf "active" VNone) then "Active" else "Inactive")
          +:+ "]").
Proof.
  split; [|split].
  - intros Hd.
    destruct (list_workflows_success env args r items _ Hkey Hans Hst Hjson Herr
                (list_workflows_text_empty items Hd)) as [-> ->].
    split; reflexivity.
  - intros wf wfs Hd text. subst text.
    destruct (list_workflows_success env args r items _ Hkey Hans Hst Hjson Herr
                (list_workflows_text_listing items wf wfs Hd)) as [-> ->].
    split; reflexivity.
  - intros wf Hn. unfold workflow_entry, field. rewrite Hn. reflexivity.
Qed.

Lemma C7_witness :
  outcome (Sdk.list_workflows
             (sample_env "k"
                (json_response 200 "..."
                   (VDict [("data", VList [VDict [("name", VStr "Foo"); ("id", VStr "1");
                                                  ("active", VBool true)]])])))
             ∅)
  = Ok (Sdk.reply ("Found 1 workflow(s):" +:+ nl +:+ "- Foo (ID: 1) [Active]")).
Proof.
  assert (Hkey : N8N_API_KEY (sample_env "k" refused) <> "") by discriminate.
  destruct (C7_list_workflows
              (sample_env "k"
                 (json_response 200 "..."
                    (VDict [("data", VList [VDict [("name", VStr "Foo"); ("id", VStr "1");
                                                   ("active", VBool true)]])])))
              ∅ _ _ Hkey eq_refl eq_refl eq_refl eq_refl) as (_ & H & _).
  exact (proj1 (H [("name", VStr "Foo"); ("id", VStr "1"); ("active", VBool true)] []
                  eq_refl)).
Defined.

(** ** C9: the catalog *)

(** C9.  The catalog query takes no argument, reads no state and issues no
    request: [list_tools] is one value, the same at every call.  It holds
    exactly six descriptors, in this order: [list_workflows] (no
    argument), [get_workflow] (required [workflow_id]), [execute_workflow]
    (required [workflow_id], optional [input_data]), [get_execution]
    (required [execution_id]), [activate_workflow] and
    [deactivate_workflow] (required [workflow_id]).  The SDK server
    registers the same six names in the same order, in every
    environment. *)
Theorem C9_catalog :
  issued Standalone.list_tools = []
  /\ (exists tools,
        outcome Standalone.list_tools = Ok tools
        /\ length tools = 6%nat
        /\ map descriptor tools
           = [ ("list_workflows", [], []);
               ("get_workflow", ["workflow_id"], []);
               ("execute_workflow", ["workflow_id"], ["input_data"]);
               ("get_execution", ["execution_id"], []);
               ("activate_workflow", ["workflow_id"], []);
               ("deactivate_workflow", ["workflow_id"], []) ]
        /\ map Standalone.name tools = catalog_names)
  /\ (forall env : Env,
        map Sdk.tool_name (Sdk.n8n_server env) = catalog_names
        /\ map Sdk.tool_schema (Sdk.n8n_server env)
           = [ []; ["workflow_id"]; ["workflow_id"; "input_data"];
               ["execution_id"]; ["workflow_id"]; ["workflow_id"] ]).
Proof.
  split; [reflexivity|]. split.
  - eexists. split; [reflexivity|]. repeat split.
  - intros env. split; reflexivity.
Qed.

(** ** C2: an exception of the rendering *)

(** C2, at the failing input.  The list request is answered with status
    200 and the JSON array [[]]: [call_tool] raises the [AttributeError]
    of [result.get], while the SDK handler of the same tool catches it and
    returns its failure reply. *)
Theorem C2_call_tool_raises :
  outcome (Standalone.call_tool (sample_env "k" (json_response 200 "[]" (VList [])))
             "list_workflows" ∅)
  = Raise (AttributeError "'list' object has no attribute 'get'")
  /\ outcome (Sdk.list_workflows (sample_env "k" (json_response 200 "[]" (VList []))) ∅)
     = Ok (Sdk.error_reply
             "Failed to list workflows: 'list' object has no attribute 'get'").
Proof. split; vm_compute; reflexivity. Qed.

(** ** C3: the text of a workflow *)

(** C3, at the failing input.  The workflow request is answered with
    status 200 and the workflow object itself, without a ["data"] wrapper:
    the SDK handler renders the empty dict it falls back to, and no node
    line; [call_tool] renders the payload, with one line per node.  On the
    wrapped payload the SDK handler renders the five summary lines and
    still no node line. *)
Theorem C3_get_workflow_flat :
  outcome (Sdk.get_workflow (sample_env "k" (json_response 200 "..." flat_workflow))
             (args_id "42"))
  = Ok (Sdk.reply
          ("Workflow: Unnamed" +:+ nl +:+ "ID: None" +:+ nl +:+ "Status: Inactive" +:+ nl
           +:+ "Nodes: 0" +:+ nl +:+ "Connections: 0"))
  /\ outcome (Standalone.call_tool
                (sample_env "k" (json_response 200 "..." flat_workflow))
                "get_workflow" (args_id "42"))
     = Ok (Standalone.one_text
             ("Workflow: Foo" +:+ nl +:+ "ID: 42" +:+ nl +:+ "Status: Active" +:+ nl
              +:+ "Nodes: 1" +:+ nl +:+ "Connections: 0" +:+ nl
              +:+ nl +:+ "Nodes in workflow:" +:+ nl
              +:+ "  - Start (n8n-nodes-base.start)"))
  /\ outcome (Sdk.get_workflow
                (sample_env "k" (json_response 200 "..." (VDict [("data", flat_workflow)])))
                (args_id "42"))
     = Ok (Sdk.reply
             ("Workflow: Foo" +:+ nl +:+ "ID: 42" +:+ nl +:+ "Status: Active" +:+ nl
              +:+ "Nodes: 1" +:+ nl +:+ "Connections: 0")).
Proof. repeat split; vm_compute; reflexivity. Qed.


(** ** The SDK handlers never raise *)

Lemma res_bind_inv {A B} (m : res A) (f : A -> res B) (b : B) :
  m ≫= f = Ok b -> exists a, m = Ok a /\ f a = Ok b.
Proof. destruct m as [a|e]; [eauto|discriminate]. Qed.

Ltac res_inv :=
  repeat match goal with
  | H : (?m ≫= ?f) = Ok _ |- _ =>
      apply res_bind_inv in H; destruct H as (? & ? & H); cbv beta in H
  | H : (if ?b then _ else _) = Ok _ |- _ => destruct b
  | H : mret _ = Ok _ |- _ => injection H as <-
  | H : Ok _ = Ok _ |- _ => injection H as <-
  end.

Lemma list_workflows_text_nonempty (v : value) (t : string) :
  list_workflows_text v = Ok t -> (0 < String.length t)%nat.
Proof.
  unfold list_workflows_text. intros H. res_inv; simpl; lia.
Qed.

Lemma sdk_get_workflow_text_nonempty (v : value) (t : string) :
  Sdk.get_workflow_text v = Ok t -> (0 < String.length t)%nat.
Proof.
  unfold Sdk.get_workflow_text. intros H. res_inv; simpl; lia.
Qed.

Lemma execute_workflow_text_nonempty (v : value) (t : string) :
  execute_workflow_text v = Ok t -> (0 < String.length t)%nat.
Proof.
  unfold execute_workflow_text. intros H. res_inv; simpl; lia.
Qed.

Lemma get_execution_text_nonempty (v : value) (t : string) :
  get_execution_text v = Ok t -> (0 < String.length t)%nat.
Proof.
  unfold get_execution_text, execution_info. intros H. res_inv; simpl; lia.
Qed.

Lemma standalone_get_workflow_text_nonempty (v : value) (t : string) :
  Standalone.get_workflow_text v = Ok t -> (0 < String.length t)%nat.
Proof.
  unfold Standalone.get_workflow_text. intros H. res_inv; simpl; lia.
Qed.

Lemma respond_sdk_nonempty (render : value -> res string) (v : value) (r : Sdk.ToolResult) :
  (forall t, render v = Ok t -> (0 < String.length t)%nat) ->
  respond Sdk.reply Sdk.error_reply render v = Ok r ->
  one_nonempty_text (Sdk.content r).
Proof.
  unfold respond. intros Hr H. res_inv.
  - eexists. split; [reflexivity|]. simpl. lia.
  - eexists. split; [reflexivity|]. now apply Hr.
Qed.

Lemma respond_standalone_nonempty (render : value -> res string) (v : value)
    (blocks : list TextContent) :
  (forall t, render v = Ok t -> (0 < String.length t)%nat) ->
  respond Standalone.one_text Standalone.one_text render v = Ok blocks ->
  one_nonempty_text blocks.
Proof.
  unfold respond. intros Hr H. res_inv.
  - eexists. split; [reflexivity|]. simpl. lia.
  - eexists. split; [reflexivity|]. now apply Hr.
Qed.

Lemma sdk_call_replies_once (env : Env) (method endpoint : string) (data : value)
    (render : value -> res string) (h : exn -> Sdk.ToolResult) :
  (forall v t, render v = Ok t -> (0 < String.length t)%nat) ->
  (forall e, one_nonempty_text (Sdk.content (h e))) ->
  replies_once
    (try_except
       (result ← make_n8n_request env method endpoint data;
        lift (respond Sdk.reply Sdk.error_reply render result))
       (fun e => mret (h e))).
Proof.
  intros Hr Hh.
  destruct (make_n8n_request_total env method endpoint data) as (v & t & Heq & Hlen).
  rewrite (try_bind_lift _ _ _ _ _ Heq). eexists. split; [reflexivity|].
  split; [|exact Hlen].
  destruct (respond Sdk.reply Sdk.error_reply render v) as [r|e] eqn:E.
  - apply (respond_sdk_nonempty render v r (Hr v) E).
  - apply Hh.
Qed.

Lemma failed_reply_nonempty (c : ascii) (prefix : string) (e : exn) :
  one_nonempty_text (Sdk.content (Sdk.error_reply (String c prefix +:+ exn_msg e))).
Proof. eexists. split; [reflexivity|]. simpl. lia. Qed.

Lemma sdk_missing_argument (key : string) (k : string -> M Sdk.ToolResult)
    (c : ascii) (prefix : string) :
  replies_once
    (try_except (x ← lift (Raise (KeyError (repr_str key))); k x)
       (fun e => mret (Sdk.error_reply (String c prefix +:+ exn_msg e)))).
Proof.
  eexists. split; [reflexivity|]. split; [apply failed_reply_nonempty|simpl; lia].
Qed.

(** X1. Every handler that the SDK server registers is total: for every
    environment (whatever the network and [json.loads] do) and every
    argument mapping it returns a reply, never an exception; the reply
    holds exactly one text block, whose text is not empty; and the call
    has issued at most one request. *)
Theorem sdk_handlers_never_raise (env : Env) (args : gmap string string) :
  Forall (fun t => exists r,
            outcome (Sdk.tool_handler t args) = Ok r
            /\ one_nonempty_text (Sdk.content r)
            /\ (length (issued (Sdk.tool_handler t args)) <= 1)%nat)
         (Sdk.n8n_server env).
Proof.
  unfold Sdk.n8n_server. repeat (apply List.Forall_cons; [|try apply List.Forall_nil]);
    cbn [Sdk.tool_handler]; fold (replies_once).
  - apply sdk_call_replies_once;
      [intros v; apply list_workflows_text_nonempty|intros e; apply failed_reply_nonempty].
  - unfold Sdk.get_workflow, args_getitem.
    destruct (args !! "workflow_id") as [w|]; [|apply sdk_missing_argument].
    rewrite bind_lift_Ok. apply sdk_call_replies_once;
      [intros v; apply sdk_get_workflow_text_nonempty|intros e; apply failed_reply_nonempty].
  - unfold Sdk.execute_workflow, args_getitem.
    destruct (args !! "workflow_id") as [w|]; [|apply sdk_missing_argument].
    rewrite bind_lift_Ok.
    pose proof (sdk_data_payload_cases env args) as Hp.
    destruct (Sdk.data_payload env args) as [[payload|early]|e] eqn:E.
    + rewrite bind_lift_Ok. apply sdk_call_replies_once;
        [intros v; apply execute_workflow_text_nonempty|intros e; apply failed_reply_nonempty].
    + rewrite bind_lift_Ok.
      assert (early = Sdk.error_reply "Error: input_data must be valid JSON string") as ->.
      { destruct (args !! "input_data") as [s|]; [|congruence].
        destruct (String.eqb s ""); [congruence|].
        destruct (json_loads env s); [congruence|].
        destruct (String.eqb (exn_class e) "JSONDecodeError"); congruence. }
      eexists. split; [reflexivity|]. split; [|simpl; lia].
      eexists. split; [reflexivity|]. simpl. lia.
    + eexists. split; [reflexivity|]. split; [apply failed_reply_nonempty|simpl; lia].
  - unfold Sdk.get_execution, args_getitem.
    destruct (args !! "execution_id") as [w|]; [|apply sdk_missing_argument].
    rewrite bind_lift_Ok. apply sdk_call_replies_once;
      [intros v; apply get_execution_text_nonempty|intros e; apply failed_reply_nonempty].
  - unfold Sdk.activate_workflow, args_getitem.
    destruct (args !! "workflow_id") as [w|]; [|apply sdk_missing_argument].
    rewrite bind_lift_Ok. apply sdk_call_replies_once;
      [intros v t H; injection H as <-; simpl; lia|intros e; apply failed_reply_nonempty].
  - unfold Sdk.deactivate_workflow, args_getitem.
    destruct (args !! "workflow_id") as [w|]; [|apply sdk_missing_argument].
    rewrite bind_lift_Ok. apply sdk_call_replies_once;
      [intros v t H; injection H as <-; simpl; lia|intros e; apply failed_reply_nonempty].
Qed.


(** ** The standalone server: what [call_tool] returns when it returns *)

Lemma standalone_call_replies (env : Env) (method endpoint : string) (data : value)
    (render : value -> res string) :
  (forall v t, render v = Ok t -> (0 < String.length t)%nat) ->
  let m := (result ← make_n8n_request env method endpoint data;
            lift (respond Standalone.one_text Standalone.one_text render result)) in
  (length (issued m) <= 1)%nat
  /\ (forall blocks, outcome m = Ok blocks -> one_nonempty_text blocks).
Proof.
  intros Hr m. subst m.
  destruct (make_n8n_request_total env method endpoint data) as (v & t & Heq & Hlen).
  rewrite (bind_lift_run _ _ _ _ Heq). split; [exact Hlen|].
  intros blocks H. apply (respond_standalone_nonempty render v blocks (Hr v) H).
Qed.

(** X3. The standalone [call_tool] issues at most one request at every
    invocation, and every reply it returns is exactly one text block, whose
    text is not empty: the replies of the six tools and the reply to an
    unknown name. *)
Theorem call_tool_replies_once (env : Env) (name : string) (args : gmap string string) :
  (length (issued (Standalone.call_tool env name args)) <= 1)%nat
  /\ (forall blocks,
        outcome (Standalone.call_tool env name args) = Ok blocks ->
        one_nonempty_text blocks).
Proof.
  unfold Standalone.call_tool.
  destruct (String.eqb name "list_workflows");
    [apply standalone_call_replies; intros v; apply list_workflows_text_nonempty|].
  destruct (String.eqb name "get_workflow");
    [apply standalone_call_replies; intros v; apply standalone_get_workflow_text_nonempty|].
  destruct (String.eqb name "execute_workflow").
  { pose proof (standalone_data_payload_cases env args) as Hp. cbv zeta in Hp.
    destruct (Standalone.data_payload env args) as [[payload|early]|e] eqn:E.
    - rewrite bind_lift_Ok.
      apply standalone_call_replies; intros v; apply execute_workflow_text_nonempty.
    - rewrite bind_lift_Ok.
      assert (early = Standalone.one_text "Error: input_data must be valid JSON string")
        as ->.
      { destruct (String.eqb (default "{}" (args !! "input_data")) ""); [congruence|].
        destruct (json_loads env (default "{}" (args !! "input_data"))); [congruence|].
        destruct (String.eqb (exn_class e) "JSONDecodeError"); congruence. }
      split; [simpl; lia|]. intros blocks H. injection H as <-.
      eexists. split; [reflexivity|]. simpl. lia.
    - rewrite bind_lift_Raise. split; [simpl; lia|]. intros blocks H. discriminate H. }
  destruct (String.eqb name "get_execution");
    [apply standalone_call_replies; intros v; apply get_execution_text_nonempty|].
  destruct (String.eqb name "activate_workflow");
    [apply standalone_call_replies; intros v t H; injection H as <-; simpl; lia|].
  destruct (String.eqb name "deactivate_workflow");
    [apply standalone_call_replies; intros v t H; injection H as <-; simpl; lia|].
  split; [simpl; lia|]. intros blocks H. injection H as <-.
  eexists. split; [reflexivity|]. simpl. lia.
Qed.

(** ** The text of one workflow in the standalone server *)

Lemma py_get_field (items : list (string * value)) (key : string) (dflt : value) :
  py_get (VDict items) key dflt = Ok (field items key dflt).
Proof. reflexivity. Qed.

Lemma res_map_node_line (nodes : list (list (string * value))) :
  res_map Standalone.node_line (map VDict nodes) = Ok (map node_entry nodes).
Proof.
  induction nodes as [|node nodes IH]; [reflexivity|].
  cbn [map res_map].
  change (Standalone.node_line (VDict node)) with (Ok (node_entry node)).
  rewrite IH. reflexivity.
Qed.

Lemma res_map_tag_name (tags : list (list (string * value))) :
  res_map (fun tag => py_get tag "name" (VStr "")) (map VDict tags)
  = Ok (map (fun tag => field tag "name" (VStr "")) tags).
Proof.
  induction tags as [|tag tags IH]; [reflexivity|].
  cbn [map res_map]. rewrite py_get_field, IH. reflexivity.
Qed.

Lemma join_items_names (tags : list (list (string * value))) (i : nat) :
  Forall (fun tag => exists n, field tag "name" (VStr "") = VStr n) tags ->
  join_items i (map (fun tag => field tag "name" (VStr "")) tags)
  = Ok (map tag_entry tags).
Proof.
  intros H. revert i. induction H as [|tag tags [n Hn] _ IH]; intros i; [reflexivity|].
  cbn [map join_items]. unfold tag_entry at 1. rewrite Hn, IH. reflexivity.
Qed.

Lemma tag_names_entries (tags : list (list (string * value))) :
  Forall (fun tag => exists n, field tag "name" (VStr "") = VStr n) tags ->
  tag_names (VList (map VDict tags)) = Ok (String.concat ", " (map tag_entry tags)).
Proof.
  intros H. unfold tag_names.
  change (py_iter (VList (map VDict tags))) with (Ok (map VDict tags)).
  rewrite res_bind_Ok, res_map_tag_name, res_bind_Ok.
  unfold str_join. rewrite (join_items_names tags 0 H). reflexivity.
Qed.

Lemma field_default_cases (items : list (string * value)) (key : string) (d x : value) :
  field items key d = x ->
  dict_lookup key items = Some x \/ (dict_lookup key items = None /\ d = x).
Proof. unfold field. destruct (dict_lookup key items); intros <-; auto. Qed.

Lemma standalone_get_workflow_text_details (payload wf : list (string * value))
    (nodes : list (list (string * value))) (connections : list (string * value))
    (tags : list (list (string * value))) :
  field payload "data" (VDict payload) = VDict wf ->
  field wf "nodes" (VList []) = VList (map VDict nodes) ->
  field wf "connections" (VDict []) = VDict connections ->
  field wf "tags" (VList []) = VList (map VDict tags) ->
  Forall (fun tag => exists n, field tag "name" (VStr "") = VStr n) tags ->
  Standalone.get_workflow_text (VDict payload)
  = Ok (workflow_details wf nodes connections tags).
Proof.
  intros Hwf Hnodes Hconns Htags Hnames.
  unfold Standalone.get_workflow_text.
  assert (Hsel : (has_data ← py_contains "data" (VDict payload);
                  if has_data : bool then py_get (VDict payload) "data" (VDict [])
                  else mret (VDict payload)) = Ok (VDict wf)).
  { cbn [py_contains py_get]. rewrite res_bind_Ok.
    unfold field in Hwf. destruct (dict_lookup "data" payload); now rewrite Hwf. }
  cbn [py_contains]. rewrite res_bind_Ok.
  cbn [py_contains] in Hsel. rewrite res_bind_Ok in Hsel. rewrite Hsel, res_bind_Ok.
  rewrite !py_get_field. rewrite !res_bind_Ok. rewrite Hnodes, Hconns.
  change (py_len (VList (map VDict nodes))) with (Ok (length (map VDict nodes))).
  change (py_len (VDict connections)) with (Ok (length connections)).
  rewrite !res_bind_Ok, length_map.
  change (py_iter (VList (map VDict nodes))) with (Ok (map VDict nodes)).
  assert (Hn : (if py_truthy (VList (map VDict nodes))
                then ns ← Ok (map VDict nodes);
                     lines ← res_map Standalone.node_line ns;
                     mret ((nl +:+ "Nodes in workflow:") :: lines)
                else mret [])
               = Ok (match nodes with
                     | [] => []
                     | _ :: _ => (nl +:+ "Nodes in workflow:") :: map node_entry nodes
                     end)).
  { destruct nodes as [|node nodes']; [reflexivity|].
    change (py_truthy (VList (map VDict (node :: nodes')))) with true. cbv iota.
    rewrite res_bind_Ok, res_map_node_line. reflexivity. }
  rewrite Hn, !res_bind_Ok.
  assert (Ht : (if py_truthy (field wf "tags" VNone)
                then joined ← tag_names (field wf "tags" (VList []));
                     mret [nl +:+ "Tags: " +:+ joined]
                else mret [])
               = Ok (match tags with
                     | [] => []
                     | _ :: _ => [nl +:+ "Tags: " +:+ String.concat ", " (map tag_entry tags)]
                     end)).
  { rewrite Htags.
    destruct (field_default_cases _ _ _ _ Htags) as [Hl | [Hl Hd]].
    - unfold field. rewrite Hl. destruct tags as [|tag tags']; [reflexivity|].
      change (py_truthy (VList (map VDict (tag :: tags')))) with true. cbv iota.
      rewrite (tag_names_entries _ Hnames). reflexivity.
    - unfold field. rewrite Hl. destruct tags as [|tag tags']; [reflexivity|].
      discriminate Hd. }
  rewrite Ht, res_bind_Ok. reflexivity.
Qed.

(** X2. The [get_workflow] branch of the standalone [call_tool], on a
    successful answer (status 200, a JSON object that holds no ["error"]):
    the workflow is the [data] field of the payload when the payload has
    one, the payload itself otherwise; for a list of node objects, an
    object of connections and a list of tag objects with text names, the
    reply is the one text of name, id, status, node count and connection
    count, then one line [name (type)] per node under the
    [Nodes in workflow:] header, then the comma-joined tag names; one
    request is issued. *)
Theorem standalone_get_workflow_rendering (env : Env) (args : gmap string string)
    (r : response) (payload wf : list (string * value))
    (nodes : list (list (string * value))) (connections : list (string * value))
    (tags : list (list (string * value)))
    (Hkey : N8N_API_KEY env <> "")
    (Hans : transport env
              (request_for env "GET" ("workflows/" +:+ str_opt (args !! "workflow_id")) VNone)
            = Ok r)
    (Hst : status r = 200%Z)
    (Hjson : json r = Ok (VDict payload))
    (Herr : dict_lookup "error" payload = None)
    (Hwf : field payload "data" (VDict payload) = VDict wf)
    (Hnodes : field wf "nodes" (VList []) = VList (map VDict nodes))
    (Hconns : field wf "connections" (VDict []) = VDict connections)
    (Htags : field wf "tags" (VList []) = VList (map VDict tags))
    (Hnames : Forall (fun tag => exists n, field tag "name" (VStr "") = VStr n) tags) :
  Standalone.call_tool env "get_workflow" args
  = Run (Ok (Standalone.one_text (workflow_details wf nodes connections tags)))
        [request_for env "GET" ("workflows/" +:+ str_opt (args !! "workflow_id")) VNone].
Proof.
  assert (Hc : classify "GET"
                 (transport env
                    (request_for env "GET"
                       ("workflows/" +:+ str_opt (args !! "workflow_id")) VNone))
               = VDict payload).
  { unfold classify. rewrite Hans, Hst, Hjson. reflexivity. }
  assert (Hn : py_contains "error" (VDict payload) = Ok false).
  { simpl. now rewrite Herr. }
  unfold Standalone.call_tool, args_get. simpl String.eqb. cbv iota zeta.
  rewrite (bind_lift_run _ _ _ _ (make_n8n_request_spec env "GET" _ _ Hkey eq_refl)).
  rewrite Hc, (respond_no_error _ _ _ _ Hn).
  rewrite (standalone_get_workflow_text_details payload wf nodes connections tags
             Hwf Hnodes Hconns Htags Hnames).
  reflexivity.
Qed.

Lemma standalone_get_workflow_rendering_witness :
  Standalone.call_tool
    (sample_env "k" (json_response 200 "..." (VDict [("data", VDict tagged_workflow)])))
    "get_workflow" (args_id "7")
  = Run (Ok (Standalone.one_text
               ("Workflow: Bar" +:+ nl +:+ "ID: 7" +:+ nl +:+ "Status: Inactive" +:+ nl
                +:+ "Nodes: 0" +:+ nl +:+ "Connections: 0" +:+ nl
                +:+ nl +:+ "Tags: prod, billing")))
        [{| rq_method := "GET";
            rq_url := "http://localhost:5678/api/v1/workflows/7";
            rq_headers := [("X-N8N-API-KEY", "k"); ("Content-Type", "application/json")];
            rq_json := None;
            rq_skip_ssl_verify := false |}].
Proof.
  assert (Hkey : N8N_API_KEY (sample_env "k" refused) <> "") by discriminate.
  assert (Hnames : Forall (fun tag => exists n, field tag "name" (VStr "") = VStr n)
                     [[("id", VStr "t1"); ("name", VStr "prod")];
                      [("id", VStr "t2"); ("name", VStr "billing")]]).
  { repeat constructor; eexists; reflexivity. }
  exact (standalone_get_workflow_rendering
           (sample_env "k" (json_response 200 "..." (VDict [("data", VDict tagged_workflow)])))
           (args_id "7") _ [("data", VDict tagged_workflow)] tagged_workflow [] []
           [[("id", VStr "t1"); ("name", VStr "prod")];
            [("id", VStr "t2"); ("name", VStr "billing")]]
           Hkey eq_refl eq_refl eq_refl eq_refl eq_refl eq_refl eq_refl eq_refl Hnames).
Defined.

(** ** The module-level configuration *)

Lemma has_char_slash (c : ascii) : has_char c "/" = Ascii.eqb c "/".
Proof. unfold has_char. simpl. apply orb_false_r. Qed.

Lemma rstrip_cons (c : ascii) (s : string) :
  Config.rstrip "/" (String c s)
  = match Config.rstrip "/" s with
    | EmptyString => if Ascii.eqb c "/" then EmptyString else String c EmptyString
    | String c' kept => String c (String c' kept)
    end.
Proof. cbn [Config.rstrip]. now rewrite has_char_slash. Qed.

Lemma rstrip_slashes (n : nat) : Config.rstrip "/" (slashes n) = "".
Proof.
  induction n as [|n IH]; [reflexivity|].
  cbn [slashes]. rewrite rstrip_cons, IH. reflexivity.
Qed.

Lemma rstrip_append_slashes (s : string) (n : nat) :
  Config.rstrip "/" (s +:+ slashes n) = Config.rstrip "/" s.
Proof.
  induction s as [|c s IH].
  - apply rstrip_slashes.
  - change (String c s +:+ slashes n) with (String c (s +:+ slashes n)).
    now rewrite !rstrip_cons, IH.
Qed.

Lemma rstrip_kept (s : string) : ends_with "/" s = false -> Config.rstrip "/" s = s.
Proof.
  induction s as [|c s IH]; [reflexivity|].
  intros H. rewrite rstrip_cons. destruct s as [|c' s'].
  - simpl in H. cbn [Config.rstrip]. now rewrite H.
  - rewrite IH by exact H. reflexivity.
Qed.

Lemma rstrip_ends (s : string) : ends_with "/" (Config.rstrip "/" s) = false.
Proof.
  induction s as [|c s IH]; [reflexivity|].
  rewrite rstrip_cons. destruct (Config.rstrip "/" s) as [|c' kept].
  - destruct (Ascii.eqb c "/") eqn:E; [reflexivity|]. simpl. exact E.
  - exact IH.
Qed.

Lemma rstrip_decompose (s : string) :
  exists n, s = Config.rstrip "/" s +:+ slashes n.
Proof.
  induction s as [|c s [n IH]]; [exists 0%nat; reflexivity|].
  rewrite rstrip_cons. remember (Config.rstrip "/" s) as r eqn:Er.
  destruct r as [|c' kept].
  - destruct (Ascii.eqb c "/") eqn:E.
    + apply Ascii.eqb_eq in E. subst c. exists (S n). rewrite IH at 1. reflexivity.
    + exists n. rewrite IH at 1. reflexivity.
  - exists n. rewrite IH at 1. reflexivity.
Qed.

(** X4. The base address of the service is the value of [N8N_BASE_URL]
    with every trailing slash removed and nothing else changed: it never
    ends with a slash, the configured value is the base address followed
    by slashes only, and a value [b] followed by any number of slashes
    configures the same address as [b], so that the address of every
    request is [b/api/v1/<endpoint>] with one slash at the join.  The
    default [http://localhost:5678] stands for an unset variable only: a
    variable set to the empty text gives the empty base address. *)
Theorem base_url_trailing_slashes (environ : gmap string string)
    (transport : request -> res response) (loads : string -> res value) :
  let env := Config.load_globals environ transport loads in
  ends_with "/" (N8N_BASE_URL env) = false
  /\ (exists n, Config.getenv environ "N8N_BASE_URL" "http://localhost:5678"
                = N8N_BASE_URL env +:+ slashes n)
  /\ (forall b n,
        environ !! "N8N_BASE_URL" = Some (b +:+ slashes n) ->
        ends_with "/" b = false ->
        N8N_BASE_URL env = b
        /\ forall method endpoint data,
             N8N_API_KEY env <> "" -> known_method method = true ->
             map rq_url (issued (make_n8n_request env method endpoint data))
             = [b +:+ "/api/v1/" +:+ endpoint])
  /\ (environ !! "N8N_BASE_URL" = None -> N8N_BASE_URL env = "http://localhost:5678")
  /\ (environ !! "N8N_BASE_URL" = Some "" -> N8N_BASE_URL env = "").
Proof.
  intros env. subst env. cbn [Config.load_globals N8N_BASE_URL N8N_API_KEY].
  split; [apply rstrip_ends|]. split; [apply rstrip_decompose|].
  split; [|split].
  - intros b n Hb He.
    assert (Hbase : Config.rstrip "/" (Config.getenv environ "N8N_BASE_URL"
                                          "http://localhost:5678") = b).
    { unfold Config.getenv. rewrite Hb, rstrip_append_slashes. now apply rstrip_kept. }
    split; [exact Hbase|].
    intros method endpoint data Hkey Hm.
    rewrite (make_n8n_request_spec (Config.load_globals environ transport loads)
               method endpoint data Hkey Hm).
    cbn [issued map request_for rq_url N8N_BASE_URL Config.load_globals].
    now rewrite Hbase.
  - intros H. unfold Config.getenv. rewrite H. reflexivity.
  - intros H. unfold Config.getenv. rewrite H. reflexivity.
Qed.

Lemma base_url_trailing_slashes_witness :
  N8N_BASE_URL (Config.load_globals {[ "N8N_BASE_URL" := "https://n8n.example.com//" ]}
                  (fun _ => refused) sample_loads)
  = "https://n8n.example.com".
Proof.
  exact (proj1 (proj1 (proj2 (proj2 (base_url_trailing_slashes
           {[ "N8N_BASE_URL" := "https://n8n.example.com//" ]}
           (fun _ => refused) sample_loads)))
         "https://n8n.example.com" 2%nat eq_refl eq_refl)).
Defined.

Lemma lower_char_cases (c x : ascii) :
  Config.lower_char c = x -> Config.lower_char x = x ->
  c = x \/ (c = upper_char x /\ upper_char x <> x).
Proof.
  intros H Hx.
  destruct c as [[] [] [] [] [] [] [] []]; vm_compute in H; subst x;
    try (left; reflexivity); right; split; try reflexivity; discriminate.
Qed.

(** X5. Certificate verification is switched off exactly when
    [N8N_SKIP_SSL_VERIFY] is set to the word [true] in any mix of upper and
    lower case (one of sixteen texts).  An unset variable, an empty one and
    every other text, [1], [yes] or [true] with a space around it among
    them, leave verification on. *)
Theorem skip_ssl_verify_spellings (environ : gmap string string)
    (transport : request -> res response) (loads : string -> res value) :
  N8N_SKIP_SSL_VERIFY (Config.load_globals environ transport loads) = true
  <-> exists s, environ !! "N8N_SKIP_SSL_VERIFY" = Some s /\ In s (spellings "true").
Proof.
  cbn [Config.load_globals N8N_SKIP_SSL_VERIFY]. unfold Config.getenv. split.
  - intros H. apply String.eqb_eq in H.
    destruct (environ !! "N8N_SKIP_SSL_VERIFY") as [s|]; [|discriminate H].
    exists s. split; [reflexivity|].
    destruct s as [|c1 [|c2 [|c3 [|c4 [|c5 s]]]]]; try discriminate H.
    cbn [Config.lower] in H. injection H as H1 H2 H3 H4.
    destruct (lower_char_cases c1 _ H1 eq_refl) as [->|[-> _]];
    destruct (lower_char_cases c2 _ H2 eq_refl) as [->|[-> _]];
    destruct (lower_char_cases c3 _ H3 eq_refl) as [->|[-> _]];
    destruct (lower_char_cases c4 _ H4 eq_refl) as [->|[-> _]];
    vm_compute; tauto.
  - intros (s & -> & Hin). vm_compute in Hin.
    repeat (destruct Hin as [<-|Hin]; [reflexivity|]). destruct Hin.
Qed.

(** ** The request helper never raises *)

(** X6. The request helper never raises, whatever the network, the
    response and the arguments do: it always returns a value.  It issues
    exactly one request when a credential is configured and the method is
    one of GET, POST, PATCH and DELETE, and none otherwise; for another
    method name (with a credential) it returns [None], on which the
    ["error" in result] test of every tool would raise. *)
Theorem make_n8n_request_never_raises (env : Env) (method endpoint : string)
    (data : value) :
  exists v,
    outcome (make_n8n_request env method endpoint data) = Ok v
    /\ issued (make_n8n_request env method endpoint data)
       = (if String.eqb (N8N_API_KEY env) "" || negb (known_method method) then []
          else [request_for env method endpoint data])
    /\ (N8N_API_KEY env = "" -> v = error_dict not_configured)
    /\ (N8N_API_KEY env <> "" -> known_method method = false ->
        v = VNone
        /\ exists e, py_contains "error" v = Raise e /\ exn_class e = "TypeError").
Proof.
  destruct (String.eqb (N8N_API_KEY env) "") eqn:EK.
  - apply String.eqb_eq in EK.
    rewrite (make_n8n_request_no_key env method endpoint data EK).
    eexists. split; [reflexivity|]. split; [reflexivity|].
    split; [reflexivity|]. intros H. contradiction.
  - apply String.eqb_neq in EK. cbn [orb].
    destruct (known_method method) eqn:Hm; cbn [negb].
    + rewrite (make_n8n_request_spec env method endpoint data EK Hm).
      eexists. split; [reflexivity|]. split; [reflexivity|].
      split; [intros H; contradiction|]. intros _ H. discriminate H.
    + rewrite (make_n8n_request_other_method env method endpoint data EK Hm).
      eexists. split; [reflexivity|]. split; [reflexivity|].
      split; [intros H; contradiction|]. intros _ _.
      split; [reflexivity|]. eexists. split; reflexivity.
Qed.

(** ** The shape of every tool *)

Lemma sdk_run_no_key (env : Env) (method endpoint : string) (data : value)
    (render : value -> res string) (failure : string) :
  N8N_API_KEY env = "" ->
  sdk_run env method endpoint data render failure
  = Run (Ok (Sdk.error_reply ("Error: " +:+ not_configured))) [].
Proof.
  intros H. unfold sdk_run.
  rewrite (try_bind_lift _ _ _ _ _ (make_n8n_request_no_key env _ _ _ H)).
  reflexivity.
Qed.

Lemma sdk_run_key (env : Env) (method endpoint : string) (data : value)
    (render : value -> res string) (failure : string) :
  N8N_API_KEY env <> "" -> known_method method = true ->
  sdk_run env method endpoint data render failure
  = Run (Ok (match respond Sdk.reply Sdk.error_reply render
                     (classify method
                        (transport env (request_for env method endpoint data))) with
             | Ok r => r
             | Raise e => Sdk.error_reply (failure +:+ exn_msg e)
             end))
        [request_for env method endpoint data].
Proof.
  intros Hkey Hm. unfold sdk_run.
  apply try_bind_lift, (make_n8n_request_spec env method endpoint data Hkey Hm).
Qed.

Lemma standalone_run_no_key (env : Env) (method endpoint : string) (data : value)
    (render : value -> res string) :
  N8N_API_KEY env = "" ->
  standalone_run env method endpoint data render
  = Run (Ok (Standalone.one_text ("Error: " +:+ not_configured))) [].
Proof.
  intros H. unfold standalone_run.
  rewrite (bind_lift_run _ _ _ _ (make_n8n_request_no_key env _ _ _ H)).
  reflexivity.
Qed.

Lemma standalone_run_key (env : Env) (method endpoint : string) (data : value)
    (render : value -> res string) :
  N8N_API_KEY env <> "" -> known_method method = true ->
  standalone_run env method endpoint data render
  = Run (respond Standalone.one_text Standalone.one_text render
           (classify method (transport env (request_for env method endpoint data))))
        [request_for env method endpoint data].
Proof.
  intros Hkey Hm. unfold standalone_run.
  apply bind_lift_run, (make_n8n_request_spec env method endpoint data Hkey Hm).
Qed.

Lemma tool_method_known (m : string) :
  In m ["GET"; "POST"; "PATCH"] -> known_method m = true.
Proof. intros [<-|[<-|[<-|[]]]]; reflexivity. Qed.

Lemma renders_list_workflows : renders_result list_workflows_text.
Proof.
  intros v t H. unfold list_workflows_text in H. res_inv; split; (reflexivity || (simpl; lia)).
Qed.

Lemma renders_sdk_get_workflow : renders_result Sdk.get_workflow_text.
Proof.
  intros v t H. unfold Sdk.get_workflow_text in H.
  res_inv; split; (reflexivity || (simpl; lia)).
Qed.

Lemma renders_standalone_get_workflow : renders_result Standalone.get_workflow_text.
Proof.
  intros v t H. unfold Standalone.get_workflow_text in H.
  res_inv; split; (reflexivity || (simpl; lia)).
Qed.

Lemma renders_execute_workflow : renders_result execute_workflow_text.
Proof.
  intros v t H. unfold execute_workflow_text in H.
  res_inv; split; (reflexivity || (simpl; lia)).
Qed.

Lemma renders_get_execution : renders_result get_execution_text.
Proof.
  intros v t H. unfold get_execution_text, execution_info in H.
  res_inv; split; (reflexivity || (simpl; lia)).
Qed.

Lemma renders_fixed (a b : string) :
  renders_result (fun _ => mret ("Workflow " +:+ a +:+ b)).
Proof. intros v t H. injection H as <-. split; [reflexivity|simpl; lia]. Qed.

Create HintDb renders.

#[local] Hint Resolve renders_list_workflows renders_sdk_get_workflow
  renders_standalone_get_workflow renders_execute_workflow renders_get_execution
  renders_fixed : renders.

(** An SDK handler either replies with an error before it calls the
    helper, or runs the helper once. *)
Local Ltac patch_body_step :=
  let H := fresh in
  intros H; first [discriminate H | eexists; reflexivity].

Lemma sdk_handler_cases (env : Env) (t : Sdk.SdkTool) (args : gmap string string) :
  In t (Sdk.n8n_server env) ->
  (exists txt, Sdk.tool_handler t args = Run (Ok (Sdk.error_reply txt)) []
               /\ error_text txt = true)
  \/ (exists method endpoint data render,
        In method ["GET"; "POST"; "PATCH"]
        /\ patch_body method data
        /\ renders_result render
        /\ Sdk.tool_handler t args
           = sdk_run env method endpoint data render (failure_prefix (Sdk.tool_name t))).
Proof.
  intros Ht. sdk_cases Ht.
  - right. exists "GET", "workflows", VNone, list_workflows_text.
    split; [simpl; tauto|]. split; [patch_body_step|]. split; [auto with renders|reflexivity].
  - unfold Sdk.get_workflow, args_getitem.
    destruct (args !! "workflow_id") as [w|].
    + right. rewrite bind_lift_Ok. eexists "GET", _, _, _.
      split; [simpl; tauto|]. split; [patch_body_step|]. split; [|reflexivity]. auto with renders.
    + left. eexists. split; reflexivity.
  - unfold Sdk.execute_workflow, args_getitem.
    destruct (args !! "workflow_id") as [w|]; [|left; eexists; split; reflexivity].
    rewrite bind_lift_Ok.
    pose proof (sdk_data_payload_cases env args) as Hp.
    destruct (Sdk.data_payload env args) as [[payload|early]|e] eqn:E.
    + right. rewrite bind_lift_Ok. eexists "POST", _, _, _.
      split; [simpl; tauto|]. split; [patch_body_step|]. split; [|reflexivity]. auto with renders.
    + left. rewrite bind_lift_Ok.
      assert (early = Sdk.error_reply "Error: input_data must be valid JSON string") as ->.
      { destruct (args !! "input_data") as [s|]; [|congruence].
        destruct (String.eqb s ""); [congruence|].
        destruct (json_loads env s); [congruence|].
        destruct (String.eqb (exn_class e) "JSONDecodeError"); congruence. }
      eexists. split; reflexivity.
    + left. eexists. split; reflexivity.
  - unfold Sdk.get_execution, args_getitem.
    destruct (args !! "execution_id") as [w|].
    + right. rewrite bind_lift_Ok. eexists "GET", _, _, _.
      split; [simpl; tauto|]. split; [patch_body_step|]. split; [|reflexivity]. auto with renders.
    + left. eexists. split; reflexivity.
  - unfold Sdk.activate_workflow, args_getitem.
    destruct (args !! "workflow_id") as [w|].
    + right. rewrite bind_lift_Ok. eexists "PATCH", _, _, _.
      split; [simpl; tauto|]. split; [patch_body_step|]. split; [|reflexivity]. apply renders_fixed.
    + left. eexists. split; reflexivity.
  - unfold Sdk.deactivate_workflow, args_getitem.
    destruct (args !! "workflow_id") as [w|].
    + right. rewrite bind_lift_Ok. eexists "PATCH", _, _, _.
      split; [simpl; tauto|]. split; [patch_body_step|]. split; [|reflexivity]. apply renders_fixed.
    + left. eexists. split; reflexivity.
Qed.

(** [call_tool] either answers without the helper (an unknown name, an
    [input_data] that does not decode), or runs the helper once. *)
Lemma call_tool_cases (env : Env) (name : string) (args : gmap string string) :
  (exists txt, Standalone.call_tool env name args = Run (Ok (Standalone.one_text txt)) []
               /\ (0 < String.length txt)%nat)
  \/ (exists e, Standalone.call_tool env name args = Run (Raise e) [])
  \/ (exists method endpoint data render,
        In method ["GET"; "POST"; "PATCH"]
        /\ patch_body method data
        /\ renders_result render
        /\ Standalone.call_tool env name args
           = standalone_run env method endpoint data render).
Proof.
  unfold Standalone.call_tool.
  destruct (String.eqb name "list_workflows").
  { right; right. eexists "GET", _, _, _. split; [simpl; tauto|]. split; [patch_body_step|].
    split; [|reflexivity]. auto with renders. }
  destruct (String.eqb name "get_workflow").
  { right; right. eexists "GET", _, _, _. split; [simpl; tauto|]. split; [patch_body_step|].
    split; [|reflexivity]. auto with renders. }
  destruct (String.eqb name "execute_workflow").
  { pose proof (standalone_data_payload_cases env args) as Hp. cbv zeta in Hp.
    destruct (Standalone.data_payload env args) as [[payload|early]|e] eqn:E.
    - right; right. rewrite bind_lift_Ok. eexists "POST", _, _, _.
      split; [simpl; tauto|]. split; [patch_body_step|]. split; [|reflexivity]. auto with renders.
    - left. rewrite bind_lift_Ok.
      assert (early = Standalone.one_text "Error: input_data must be valid JSON string")
        as ->.
      { destruct (String.eqb (default "{}" (args !! "input_data")) ""); [congruence|].
        destruct (json_loads env (default "{}" (args !! "input_data"))); [congruence|].
        destruct (String.eqb (exn_class e) "JSONDecodeError"); congruence. }
      eexists. split; [reflexivity|simpl; lia].
    - right; left. exists e. reflexivity. }
  destruct (String.eqb name "get_execution").
  { right; right. eexists "GET", _, _, _. split; [simpl; tauto|]. split; [patch_body_step|].
    split; [|reflexivity]. auto with renders. }
  destruct (String.eqb name "activate_workflow").
  { right; right. eexists "PATCH", _, _, _. split; [simpl; tauto|]. split; [patch_body_step|].
    split; [|reflexivity]. apply renders_fixed. }
  destruct (String.eqb name "deactivate_workflow").
  { right; right. eexists "PATCH", _, _, _. split; [simpl; tauto|]. split; [patch_body_step|].
    split; [|reflexivity]. apply renders_fixed. }
  left. eexists. split; [reflexivity|simpl; lia].
Qed.

(** ** What every request of a tool has in common *)

Lemma request_for_well_formed (env : Env) (method endpoint : string) (data : value) :
  N8N_API_KEY env <> "" -> In method ["GET"; "POST"; "PATCH"] ->
  patch_body method data ->
  well_formed_request env (request_for env method endpoint data).
Proof.
  intros Hkey Hm Hb. unfold well_formed_request.
  split; [exact Hkey|]. split; [exact Hm|]. split; [eexists; reflexivity|].
  split; [reflexivity|]. split; [reflexivity|]. split; [|split].
  - destruct Hm as [<-|[<-|[<-|[]]]]; simpl; split; intros H;
      (reflexivity || discriminate H).
  - destruct Hm as [<-|[<-|[<-|[]]]].
    + left. split; reflexivity.
    + right; left. split; [reflexivity|]. eexists. reflexivity.
    + right; right. split; [reflexivity|].
      destruct (Hb eq_refl) as [b ->]. exists b. reflexivity.
  - unfold sent_body. destruct Hm as [<-|[<-|[<-|[]]]]; cbn [request_for rq_json rq_method].
    + simpl. split; [left; reflexivity|reflexivity].
    + simpl. destruct data; split; intros H;
        try reflexivity; try discriminate H; try (right; reflexivity);
        destruct H as [H|H]; discriminate H.
    + simpl. destruct (Hb eq_refl) as [b ->]. split; intros H; [discriminate H|].
      destruct H as [H|H]; discriminate H.
Qed.

Lemma sdk_run_requests (env : Env) (method endpoint : string) (data : value)
    (render : value -> res string) (failure : string) :
  In method ["GET"; "POST"; "PATCH"] ->
  patch_body method data ->
  Forall (well_formed_request env)
         (issued (sdk_run env method endpoint data render failure)).
Proof.
  intros Hm Hb. destruct (String.eqb (N8N_API_KEY env) "") eqn:EK.
  - apply String.eqb_eq in EK. rewrite (sdk_run_no_key _ _ _ _ _ _ EK). constructor.
  - apply String.eqb_neq in EK.
    rewrite (sdk_run_key _ _ _ _ _ _ EK (tool_method_known _ Hm)).
    apply List.Forall_cons; [now apply request_for_well_formed|apply List.Forall_nil].
Qed.

Lemma standalone_run_requests (env : Env) (method endpoint : string) (data : value)
    (render : value -> res string) :
  In method ["GET"; "POST"; "PATCH"] ->
  patch_body method data ->
  Forall (well_formed_request env)
         (issued (standalone_run env method endpoint data render)).
Proof.
  intros Hm Hb. destruct (String.eqb (N8N_API_KEY env) "") eqn:EK.
  - apply String.eqb_eq in EK. rewrite (standalone_run_no_key _ _ _ _ _ EK). constructor.
  - apply String.eqb_neq in EK.
    rewrite (standalone_run_key _ _ _ _ _ EK (tool_method_known _ Hm)).
    apply List.Forall_cons; [now apply request_for_well_formed|apply List.Forall_nil].
Qed.

(** X7. Every request that a tool of either server issues, for any tool
    name and any arguments, is made with a credential configured and
    carries it in the [X-N8N-API-KEY] header beside
    [Content-Type: application/json]; its method is GET, POST or PATCH (no
    tool ever issues a DELETE); its address is the base address followed by
    [/api/v1/] and an endpoint; it is sent with certificate verification
    as [N8N_SKIP_SSL_VERIFY] sets it.  A GET is called without a [json=]
    argument, a PATCH with the object [{"active": True}] or
    [{"active": False}], and a POST with the value decoded from
    [input_data], whatever that value is; so a JSON body goes out exactly
    when the request is not a GET and the argument is not [None] (the
    text [null] decodes to [None], and the POST then carries no body). *)
Theorem issued_requests_well_formed (env : Env) (args : gmap string string) :
  Forall (fun t => Forall (well_formed_request env) (issued (Sdk.tool_handler t args)))
         (Sdk.n8n_server env)
  /\ forall name,
       Forall (well_formed_request env) (issued (Standalone.call_tool env name args)).
Proof.
  split.
  - apply List.Forall_forall. intros t Ht.
    destruct (sdk_handler_cases env t args Ht)
      as [(txt & -> & _) | (m & ep & d & render & Hm & Hpb & _ & ->)].
    + constructor.
    + now apply sdk_run_requests.
  - intros name.
    destruct (call_tool_cases env name args)
      as [(txt & -> & _) | [(e & ->) | (m & ep & d & render & Hm & Hpb & _ & ->)]].
    + constructor.
    + constructor.
    + now apply standalone_run_requests.
Qed.

(** ** The error flag of the SDK replies *)

Lemma respond_sdk_flag (render : value -> res string) (v : value) (r : Sdk.ToolResult) :
  renders_result render ->
  respond Sdk.reply Sdk.error_reply render v = Ok r ->
  exists txt, r = (if error_text txt then Sdk.error_reply txt else Sdk.reply txt)
              /\ (0 < String.length txt)%nat.
Proof.
  unfold respond. intros Hr H. res_inv.
  - exists ("Error: " +:+ py_str x). split; [reflexivity|simpl; lia].
  - match goal with H : render v = Ok ?t |- _ =>
      destruct (Hr v t H) as [He Hl]; exists t; rewrite He; split; [reflexivity|exact Hl]
    end.
Qed.

Lemma failure_text (name msg : string) :
  error_text (failure_prefix name +:+ msg) = true
  /\ (0 < String.length (failure_prefix name +:+ msg))%nat.
Proof. split; [reflexivity|simpl; lia]. Qed.

(** X11. Every reply of an SDK handler, for any environment and any
    arguments, is one non-empty text block whose [is_error] flag is set
    exactly when the text opens with [Error: ] or [Failed to ]: no
    successful rendering opens that way, and every failure reply does. *)
Theorem sdk_error_flag (env : Env) (args : gmap string string) :
  Forall (fun t => exists txt,
            outcome (Sdk.tool_handler t args)
            = Ok (if error_text txt then Sdk.error_reply txt else Sdk.reply txt)
            /\ (0 < String.length txt)%nat)
         (Sdk.n8n_server env).
Proof.
  apply List.Forall_forall. intros t Ht.
  destruct (sdk_handler_cases env t args Ht)
    as [(txt & -> & He) | (m & ep & d & render & Hm & _ & Hr & ->)].
  - exists txt. rewrite He. split; [reflexivity|].
    destruct txt; [discriminate He|simpl; lia].
  - destruct (String.eqb (N8N_API_KEY env) "") eqn:EK.
    + apply String.eqb_eq in EK. rewrite (sdk_run_no_key _ _ _ _ _ _ EK).
      exists ("Error: " +:+ not_configured). split; [reflexivity|simpl; lia].
    + apply String.eqb_neq in EK.
      rewrite (sdk_run_key _ _ _ _ _ _ EK (tool_method_known _ Hm)).
      cbn [outcome].
      destruct (respond Sdk.reply Sdk.error_reply render _) as [r|e] eqn:E.
      * destruct (respond_sdk_flag render _ r Hr E) as (txt & -> & Hl).
        exists txt. split; [reflexivity|exact Hl].
      * destruct (failure_text (Sdk.tool_name t) (exn_msg e)) as [He Hl].
        exists (failure_prefix (Sdk.tool_name t) +:+ exn_msg e).
        rewrite He. split; [reflexivity|exact Hl].
Qed.

(** ** The failures of the HTTP step, as the tools report them *)

Lemma classify_failures {A} (env : Env) (method endpoint : string) (data : value)
    (ok err : string -> A) (render : value -> res string) :
  In method ["GET"; "POST"; "PATCH"] ->
  reports_failures env (request_for env method endpoint data)
    (respond ok err render
       (classify method (transport env (request_for env method endpoint data))))
    err.
Proof.
  intros Hm.
  assert (Hd : decodes_body method = true)
    by (destruct Hm as [<-|[<-|[<-|[]]]]; reflexivity).
  unfold reports_failures, classify. cbn [rq_method request_for].
  split; [|split; [|split]].
  - intros e ->. reflexivity.
  - intros r body -> -> ->. reflexivity.
  - intros r e -> -> ->. reflexivity.
  - intros r e -> -> ->. rewrite Hd. reflexivity.
Qed.

(** X8. When the one request of a tool fails in one of four ways, the
    reply of the tool says how, in either server and for every tool: when
    the network raises, the reply is
    [Error: Request failed: <description>]; when the status is not
    accepted by the method, [Error: HTTP <status>: <body text>]; when the
    status is not accepted and reading the body text raises, or the
    status is accepted and [response.json()] raises, again
    [Error: Request failed: <description>].  The SDK handlers flag each of
    these replies with [is_error]; in none of the four cases does a tool
    raise.  An accepted answer for which [response.json()] returns a
    value is not among them, whatever the value: an empty body decodes to
    [None] without raising, and what the tools do with it is another
    property (the membership test on it raises). *)
Theorem tool_error_replies (env : Env) (args : gmap string string) (rq : request) :
  (forall t, In t (Sdk.n8n_server env) ->
     issued (Sdk.tool_handler t args) = [rq] ->
     reports_failures env rq (outcome (Sdk.tool_handler t args)) Sdk.error_reply)
  /\ (forall name,
        issued (Standalone.call_tool env name args) = [rq] ->
        reports_failures env rq (outcome (Standalone.call_tool env name args))
          Standalone.one_text).
Proof.
  split.
  - intros t Ht.
    destruct (sdk_handler_cases env t args Ht)
      as [(txt & -> & _) | (m & ep & d & render & Hm & Hpb & _ & ->)]; [discriminate|].
    destruct (String.eqb (N8N_API_KEY env) "") eqn:EK.
    + apply String.eqb_eq in EK. rewrite (sdk_run_no_key _ _ _ _ _ _ EK). discriminate.
    + apply String.eqb_neq in EK.
      rewrite (sdk_run_key _ _ _ _ _ _ EK (tool_method_known _ Hm)).
      cbn [issued outcome]. intros [= <-].
      destruct (classify_failures env m ep d Sdk.reply Sdk.error_reply render Hm)
        as (H1 & H2 & H3 & H4).
      split; [|split; [|split]].
      * intros e He. now rewrite (H1 e He).
      * intros r body Hr Ha Hb. now rewrite (H2 r body Hr Ha Hb).
      * intros r e Hr Ha Hb. now rewrite (H3 r e Hr Ha Hb).
      * intros r e Hr Ha Hb. now rewrite (H4 r e Hr Ha Hb).
  - intros name.
    destruct (call_tool_cases env name args)
      as [(txt & -> & _) | [(e & ->) | (m & ep & d & render & Hm & Hpb & _ & ->)]];
      [discriminate|discriminate|].
    destruct (String.eqb (N8N_API_KEY env) "") eqn:EK.
    + apply String.eqb_eq in EK. rewrite (standalone_run_no_key _ _ _ _ _ EK).
      discriminate.
    + apply String.eqb_neq in EK.
      rewrite (standalone_run_key _ _ _ _ _ EK (tool_method_known _ Hm)).
      cbn [issued outcome]. intros [= <-].
      apply classify_failures, Hm.
Qed.

Lemma tool_error_replies_witness :
  outcome (Sdk.get_execution (sample_env "k" (plain_response 404 "not found"))
             {[ "execution_id" := "9" ]})
  = Ok (Sdk.error_reply "Error: HTTP 404: not found")
  /\ outcome (Standalone.call_tool (sample_env "k" refused) "activate_workflow"
                (args_id "1"))
     = Ok (Standalone.one_text
             "Error: Request failed: Cannot connect to host localhost:5678").
Proof.
  split.
  - assert (Hi : issued (Sdk.get_execution
                           (sample_env "k" (plain_response 404 "not found"))
                           {[ "execution_id" := "9" ]})
                 = [request_for (sample_env "k" (plain_response 404 "not found"))
                      "GET" "executions/9" VNone])
      by (vm_compute; reflexivity).
    destruct (proj1 (tool_error_replies
                       (sample_env "k" (plain_response 404 "not found"))
                       {[ "execution_id" := "9" ]} _)
                _ (or_intror (or_intror (or_intror (or_introl eq_refl)))) Hi)
      as (_ & H & _).
    exact (H _ "not found" eq_refl eq_refl eq_refl).
  - assert (Hi : issued (Standalone.call_tool (sample_env "k" refused)
                           "activate_workflow" (args_id "1"))
                 = [request_for (sample_env "k" refused) "PATCH" "workflows/1"
                      (VDict [("active", VBool true)])])
      by (vm_compute; reflexivity).
    destruct (proj2 (tool_error_replies (sample_env "k" refused) (args_id "1") _)
                "activate_workflow" Hi)
      as (H & _).
    exact (H _ eq_refl).
Defined.

(** ** Missing and extra arguments *)

(** X9. An SDK handler that indexes an argument which the invocation
    does not hold ([workflow_id], or [execution_id] for [get_execution])
    issues no request and returns the flagged reply
    [Failed to <tool name, with spaces>: '<argument>'], the text of the
    [KeyError]; this holds with or without a credential. *)
Theorem sdk_missing_argument_reply (env : Env) (args : gmap string string) :
  Forall (fun t =>
            forall k, In k (Sdk.tool_schema t) -> k <> "input_data" ->
                      args !! k = None ->
                      Sdk.tool_handler t args
                      = Run (Ok (Sdk.error_reply
                                   (failure_prefix (Sdk.tool_name t) +:+ single_quoted k)))
                            [])
         (Sdk.n8n_server env).
Proof.
  unfold Sdk.n8n_server.
  repeat (apply List.Forall_cons; [|try apply List.Forall_nil]);
    cbn [Sdk.tool_schema Sdk.tool_name Sdk.tool_handler]; intros k Hin Hk Hnone.
  - destruct Hin.
  - destruct Hin as [<-|[]].
    unfold Sdk.get_workflow, args_getitem. rewrite Hnone. reflexivity.
  - destruct Hin as [<-|[<-|[]]]; [|contradiction].
    unfold Sdk.execute_workflow, args_getitem. rewrite Hnone. reflexivity.
  - destruct Hin as [<-|[]].
    unfold Sdk.get_execution, args_getitem. rewrite Hnone. reflexivity.
  - destruct Hin as [<-|[]].
    unfold Sdk.activate_workflow, args_getitem. rewrite Hnone. reflexivity.
  - destruct Hin as [<-|[]].
    unfold Sdk.deactivate_workflow, args_getitem. rewrite Hnone. reflexivity.
Qed.

(** X10. The standalone [call_tool] reads a missing identifier as [None]
    and goes on: with a credential configured, a call without
    [workflow_id] (or without [execution_id], for [get_execution]) still
    issues its request, to the address where the text [None] stands for
    the identifier, and an accepted answer is replied as a success about
    the workflow [None]. *)
Theorem standalone_missing_id (env : Env) (args : gmap string string)
    (Hkey : N8N_API_KEY env <> "") :
  (args !! "workflow_id" = None ->
     issued (Standalone.call_tool env "get_workflow" args)
     = [request_for env "GET" "workflows/None" VNone]
     /\ (forall b,
           issued (Standalone.call_tool env
                     (if b : bool then "activate_workflow" else "deactivate_workflow") args)
           = [request_for env "PATCH" "workflows/None" (VDict [("active", VBool b)])])
     /\ (forall s body,
           args !! "input_data" = Some s -> s <> "" -> json_loads env s = Ok body ->
           issued (Standalone.call_tool env "execute_workflow" args)
           = [request_for env "POST" "workflows/None/execute" body])
     /\ (forall r v,
           transport env (request_for env "PATCH" "workflows/None"
                            (VDict [("active", VBool true)])) = Ok r ->
           status r = 200%Z -> json r = Ok v -> py_contains "error" v = Ok false ->
           outcome (Standalone.call_tool env "activate_workflow" args)
           = Ok (Standalone.one_text "Workflow None activated successfully!")))
  /\ (args !! "execution_id" = None ->
      issued (Standalone.call_tool env "get_execution" args)
      = [request_for env "GET" "executions/None" VNone]).
Proof.
  split.
  - intros Hw. split; [|split; [|split]].
    + unfold Standalone.call_tool, args_get. simpl String.eqb. cbv iota zeta.
      rewrite Hw.
      now rewrite (bind_lift_run _ _ _ _ (make_n8n_request_spec env "GET" _ _ Hkey eq_refl)).
    + intros [|]; unfold Standalone.call_tool, args_get; simpl String.eqb; cbv iota zeta;
        rewrite Hw;
        now rewrite (bind_lift_run _ _ _ _
                       (make_n8n_request_spec env "PATCH" _ _ Hkey eq_refl)).
    + intros s body Hs Hne Hl.
      unfold Standalone.call_tool, args_get. simpl String.eqb. cbv iota zeta.
      rewrite (standalone_payload_valid env args s body); [|now rewrite Hs|exact Hne|exact Hl].
      rewrite bind_lift_Ok, Hw.
      now rewrite (bind_lift_run _ _ _ _ (make_n8n_request_spec env "POST" _ _ Hkey eq_refl)).
    + intros r v Hr Hs Hj Hc.
      unfold Standalone.call_tool, args_get. simpl String.eqb. cbv iota zeta.
      rewrite Hw.
      rewrite (bind_lift_run _ _ _ _ (make_n8n_request_spec env "PATCH" _ _ Hkey eq_refl)).
      cbn [outcome str_opt]. unfold classify.
      change ("workflows/" +:+ "None") with "workflows/None".
      rewrite Hr, Hs, Hj. cbn.
      rewrite (respond_no_error _ _ _ _ Hc). reflexivity.
  - intros He. unfold Standalone.call_tool, args_get. simpl String.eqb. cbv iota zeta.
    rewrite He.
    now rewrite (bind_lift_run _ _ _ _ (make_n8n_request_spec env "GET" _ _ Hkey eq_refl)).
Qed.

Lemma standalone_missing_id_witness :
  map rq_url (issued (Standalone.call_tool (sample_env "k" refused) "get_workflow" ∅))
  = ["http://localhost:5678/api/v1/workflows/None"].
Proof.
  assert (Hkey : N8N_API_KEY (sample_env "k" refused) <> "") by discriminate.
  rewrite (proj1 (proj1 (standalone_missing_id (sample_env "k" refused) ∅ Hkey)
                    (lookup_empty "workflow_id"))).
  reflexivity.
Defined.

Lemma sdk_data_payload_ext (env : Env) (args args' : gmap string string) :
  args !! "input_data" = args' !! "input_data" ->
  Sdk.data_payload env args = Sdk.data_payload env args'.
Proof.
  intros H. unfold Sdk.data_payload, args_get, args_getitem. now rewrite H.
Qed.

Lemma standalone_data_payload_ext (env : Env) (args args' : gmap string string) :
  args !! "input_data" = args' !! "input_data" ->
  Standalone.data_payload env args = Standalone.data_payload env args'.
Proof.
  intros H. unfold Standalone.data_payload, args_get. now rewrite H.
Qed.

(** X20. A tool reads the arguments of its schema and nothing else: two
    invocations that agree on the arguments a tool declares get the same
    reply and issue the same requests, so that extra arguments are
    ignored.  This holds for every registered SDK handler, for every tool
    of the catalog of [call_tool] and, whatever the arguments, for a name
    that [call_tool] does not know. *)
Theorem undeclared_arguments_ignored (env : Env) (args args' : gmap string string) :
  (forall t, In t (Sdk.n8n_server env) ->
     (forall k, In k (Sdk.tool_schema t) -> args !! k = args' !! k) ->
     Sdk.tool_handler t args = Sdk.tool_handler t args')
  /\ (forall t, In t catalog ->
        (forall k, In k (declared_arguments t) -> args !! k = args' !! k) ->
        Standalone.call_tool env (Standalone.name t) args
        = Standalone.call_tool env (Standalone.name t) args')
  /\ (forall name, existsb (String.eqb name) catalog_names = false ->
        Standalone.call_tool env name args = Standalone.call_tool env name args').
Proof.
  split; [|split].
  - intros t Ht H. sdk_cases Ht; cbn [In] in H.
    + reflexivity.
    + unfold Sdk.get_workflow, args_getitem.
      now rewrite (H "workflow_id" (or_introl eq_refl)).
    + unfold Sdk.execute_workflow, args_getitem.
      rewrite (H "workflow_id" (or_introl eq_refl)).
      now rewrite (sdk_data_payload_ext env args args'
                     (H "input_data" (or_intror (or_introl eq_refl)))).
    + unfold Sdk.get_execution, args_getitem.
      now rewrite (H "execution_id" (or_introl eq_refl)).
    + unfold Sdk.activate_workflow, args_getitem.
      now rewrite (H "workflow_id" (or_introl eq_refl)).
    + unfold Sdk.deactivate_workflow, args_getitem.
      now rewrite (H "workflow_id" (or_introl eq_refl)).
  - intros t Ht H. cbn in Ht.
    destruct Ht as [<-|[<-|[<-|[<-|[<-|[<-|[]]]]]]];
      cbn [declared_arguments Standalone.name Standalone.inputSchema
           Standalone.properties Standalone.object_schema Standalone.string_property
           Standalone.prop_name map In] in *;
      unfold Standalone.call_tool, args_get; simpl String.eqb; cbv iota zeta.
    + reflexivity.
    + now rewrite (H "workflow_id" (or_introl eq_refl)).
    + rewrite (H "workflow_id" (or_introl eq_refl)).
      now rewrite (standalone_data_payload_ext env args args'
                     (H "input_data" (or_intror (or_introl eq_refl)))).
    + now rewrite (H "execution_id" (or_introl eq_refl)).
    + now rewrite (H "workflow_id" (or_introl eq_refl)).
    + now rewrite (H "workflow_id" (or_introl eq_refl)).
  - intros name H. cbn [existsb catalog_names] in H.
    repeat (apply orb_false_elim in H; destruct H as [? H]).
    unfold Standalone.call_tool.
    repeat match goal with E : String.eqb name _ = false |- _ => rewrite E; clear E end.
    reflexivity.
Qed.

(** X16. With a credential configured and an [input_data] that decodes,
    [call_tool] issues exactly one request when the tool name is one of
    the names that [list_tools] advertises, and none for any other name:
    every advertised tool is dispatched, and nothing else is. *)
Theorem catalog_dispatch (env : Env) (name : string) (args : gmap string string)
    (Hkey : N8N_API_KEY env <> "")
    (Hdec : standalone_input_decodes env args) :
  length (issued (Standalone.call_tool env name args))
  = if existsb (String.eqb name) (map Standalone.name catalog) then 1%nat else 0%nat.
Proof.
  cbn [catalog outcome Standalone.list_tools mret M_ret map Standalone.name existsb].
  unfold Standalone.call_tool.
  destruct (String.eqb name "list_workflows"); cbn [orb].
  { now rewrite (bind_lift_run _ _ _ _ (make_n8n_request_spec env "GET" _ _ Hkey eq_refl)). }
  destruct (String.eqb name "get_workflow"); cbn [orb].
  { now rewrite (bind_lift_run _ _ _ _ (make_n8n_request_spec env "GET" _ _ Hkey eq_refl)). }
  destruct (String.eqb name "execute_workflow"); cbn [orb].
  { pose proof (standalone_data_payload_cases env args) as Hp. cbv zeta in Hp.
    unfold standalone_input_decodes in Hdec. cbv zeta in Hdec.
    destruct (String.eqb (default "{}" (args !! "input_data")) "") eqn:Es.
    - rewrite Hp, bind_lift_Ok.
      now rewrite (bind_lift_run _ _ _ _
                     (make_n8n_request_spec env "POST" _ _ Hkey eq_refl)).
    - apply String.eqb_neq in Es. destruct Hdec as [Hd|[v Hv]]; [contradiction|].
      rewrite Hv in Hp. rewrite Hp, bind_lift_Ok.
      now rewrite (bind_lift_run _ _ _ _
                     (make_n8n_request_spec env "POST" _ _ Hkey eq_refl)). }
  destruct (String.eqb name "get_execution"); cbn [orb].
  { now rewrite (bind_lift_run _ _ _ _ (make_n8n_request_spec env "GET" _ _ Hkey eq_refl)). }
  destruct (String.eqb name "activate_workflow"); cbn [orb].
  { now rewrite (bind_lift_run _ _ _ _
                   (make_n8n_request_spec env "PATCH" _ _ Hkey eq_refl)). }
  destruct (String.eqb name "deactivate_workflow"); cbn [orb].
  { now rewrite (bind_lift_run _ _ _ _
                   (make_n8n_request_spec env "PATCH" _ _ Hkey eq_refl)). }
  reflexivity.
Qed.

Lemma catalog_dispatch_witness :
  length (issued (Standalone.call_tool (sample_env "k" refused) "get_execution" ∅)) = 1%nat
  /\ length (issued (Standalone.call_tool (sample_env "k" refused) "delete_workflow" ∅))
     = 0%nat.
Proof.
  assert (Hkey : N8N_API_KEY (sample_env "k" refused) <> "") by discriminate.
  assert (Hdec : standalone_input_decodes (sample_env "k" refused) ∅).
  { right. exists (VDict []). reflexivity. }
  split.
  - exact (catalog_dispatch (sample_env "k" refused) "get_execution" ∅ Hkey Hdec).
  - exact (catalog_dispatch (sample_env "k" refused) "delete_workflow" ∅ Hkey Hdec).
Defined.

(** ** The two servers, side by side *)

Lemma run_same_reply (env : Env) (method endpoint : string) (data : value)
    (render : value -> res string) (failure : string) :
  same_reply (sdk_run env method endpoint data render failure)
             (standalone_run env method endpoint data render) failure.
Proof.
  destruct (make_n8n_request_total env method endpoint data) as (v & t & Heq & _).
  unfold same_reply, sdk_run, standalone_run.
  rewrite (try_bind_lift _ _ _ _ _ Heq), (bind_lift_run _ _ _ _ Heq).
  cbn [issued outcome]. split; [reflexivity|].
  unfold respond.
  destruct (py_contains "error" v) as [[|]|e]; cbn.
  - destruct (py_getitem v "error") as [x|e]; cbn; [|reflexivity].
    eexists. split; reflexivity.
  - destruct (render v) as [txt|e]; cbn; [|reflexivity].
    eexists. split; reflexivity.
  - reflexivity.
Qed.

(** X12. For every tool but [get_workflow], the SDK handler and the
    standalone [call_tool] treat an invocation alike when the identifier
    the tool needs is given: they issue the same requests; whenever
    [call_tool] returns, the handler returns the same text block; and
    whenever [call_tool] raises, the handler returns the flagged reply
    [Failed to <tool name, with spaces>: <text of the exception>].  (For an
    absent [input_data], [call_tool] decodes the text ["{}"], which is
    taken to be the empty object.) *)
Theorem servers_agree (env : Env) (t : Sdk.SdkTool) (args : gmap string string)
    (Ht : In t (Sdk.n8n_server env))
    (Hname : Sdk.tool_name t <> "get_workflow")
    (Hargs : forall k, In k (Sdk.tool_schema t) -> k <> "input_data" ->
                       is_Some (args !! k))
    (Hempty : args !! "input_data" = None -> json_loads env "{}" = Ok (VDict [])) :
  same_reply (Sdk.tool_handler t args)
             (Standalone.call_tool env (Sdk.tool_name t) args)
             (failure_prefix (Sdk.tool_name t)).
Proof.
  sdk_cases Ht; cbn [In] in Hargs.
  - apply (run_same_reply env "GET" "workflows" VNone list_workflows_text).
  - contradiction.
  - destruct (Hargs "workflow_id" (or_introl eq_refl)) as [w Hw]; [discriminate|].
    unfold Sdk.execute_workflow, Standalone.call_tool, args_getitem, args_get.
    simpl String.eqb. cbv iota zeta. rewrite Hw, bind_lift_Ok. cbn [str_opt].
    pose proof (sdk_data_payload_cases env args) as Hs.
    pose proof (standalone_data_payload_cases env args) as Hp. cbv zeta in Hp.
    destruct (args !! "input_data") as [s|] eqn:Ein; simpl in Hp.
    + destruct (String.eqb s "").
      { rewrite Hs, Hp, !bind_lift_Ok.
        apply (run_same_reply env "POST" _ _ execute_workflow_text). }
      destruct (json_loads env s) as [v|e].
      { rewrite Hs, Hp, !bind_lift_Ok.
        apply (run_same_reply env "POST" _ _ execute_workflow_text). }
      destruct (String.eqb (exn_class e) "JSONDecodeError"); rewrite Hs, Hp.
      * rewrite !bind_lift_Ok. split; [reflexivity|]. eexists. split; reflexivity.
      * split; reflexivity.
    + rewrite (Hempty eq_refl) in Hp. change (String.eqb "{}" "") with false in Hp.
      rewrite Hs, Hp, !bind_lift_Ok.
      apply (run_same_reply env "POST" _ _ execute_workflow_text).
  - destruct (Hargs "execution_id" (or_introl eq_refl)) as [w Hw]; [discriminate|].
    unfold Sdk.get_execution, Standalone.call_tool, args_getitem, args_get.
    simpl String.eqb. cbv iota zeta. rewrite Hw, bind_lift_Ok. cbn [str_opt].
    apply (run_same_reply env "GET" _ _ get_execution_text).
  - destruct (Hargs "workflow_id" (or_introl eq_refl)) as [w Hw]; [discriminate|].
    unfold Sdk.activate_workflow, Standalone.call_tool, args_getitem, args_get.
    simpl String.eqb. cbv iota zeta. rewrite Hw, bind_lift_Ok. cbn [str_opt].
    apply (run_same_reply env "PATCH" _ _
             (fun _ => mret ("Workflow " +:+ w +:+ " activated successfully!"))).
  - destruct (Hargs "workflow_id" (or_introl eq_refl)) as [w Hw]; [discriminate|].
    unfold Sdk.deactivate_workflow, Standalone.call_tool, args_getitem, args_get.
    simpl String.eqb. cbv iota zeta. rewrite Hw, bind_lift_Ok. cbn [str_opt].
    apply (run_same_reply env "PATCH" _ _
             (fun _ => mret ("Workflow " +:+ w +:+ " deactivated successfully!"))).
Qed.

Lemma servers_agree_witness :
  same_reply
    (Sdk.list_workflows (sample_env "k" (json_response 200 "[]" (VList []))) ∅)
    (Standalone.call_tool (sample_env "k" (json_response 200 "[]" (VList [])))
       "list_workflows" ∅)
    "Failed to list workflows: ".
Proof.
  refine (servers_agree (sample_env "k" (json_response 200 "[]" (VList [])))
            _ ∅ (or_introl eq_refl) _ _ _).
  - discriminate.
  - intros k [].
  - intros _. reflexivity.
Defined.

(** ** The texts of the successful replies *)

(** Both servers, on an accepted answer whose body is an object with no
    ["error"]. *)
Lemma run_success (env : Env) (method endpoint : string) (data : value)
    (render : value -> res string) (failure : string)
    (r : response) (payload : list (string * value)) (txt : string) :
  N8N_API_KEY env <> "" ->
  In method ["GET"; "POST"; "PATCH"] ->
  transport env (request_for env method endpoint data) = Ok r ->
  accepted method (status r) = true ->
  json r = Ok (VDict payload) ->
  dict_lookup "error" payload = None ->
  render (VDict payload) = Ok txt ->
  sdk_run env method endpoint data render failure
  = Run (Ok (Sdk.reply txt)) [request_for env method endpoint data]
  /\ standalone_run env method endpoint data render
     = Run (Ok (Standalone.one_text txt)) [request_for env method endpoint data].
Proof.
  intros Hkey Hm Hr Ha Hj He Ht.
  assert (Hd : decodes_body method = true)
    by (destruct Hm as [<-|[<-|[<-|[]]]]; reflexivity).
  assert (Hc : classify method (transport env (request_for env method endpoint data))
               = VDict payload).
  { unfold classify. rewrite Hr, Ha, Hd, Hj. reflexivity. }
  assert (Hn : py_contains "error" (VDict payload) = Ok false).
  { simpl. now rewrite He. }
  rewrite (sdk_run_key _ _ _ _ _ _ Hkey (tool_method_known _ Hm)).
  rewrite (standalone_run_key _ _ _ _ _ Hkey (tool_method_known _ Hm)).
  rewrite Hc, !(respond_no_error _ _ _ _ Hn), Ht. split; reflexivity.
Qed.

Lemma get_execution_text_details (payload execution workflow_data : list (string * value)) :
  field payload "data" (VDict []) = VDict execution ->
  field execution "workflowData" (VDict []) = VDict workflow_data ->
  get_execution_text (VDict payload) = Ok (execution_details execution workflow_data).
Proof.
  intros Hd Hw. unfold get_execution_text, execution_info.
  rewrite py_get_field, res_bind_Ok, Hd.
  rewrite !py_get_field, !res_bind_Ok, Hw.
  rewrite !py_get_field, !res_bind_Ok.
  unfold execution_details, finished_word.
  destruct (py_truthy (field execution "stoppedAt" VNone)).
  - rewrite ?py_get_field, ?res_bind_Ok. reflexivity.
  - rewrite ?res_bind_Ok. reflexivity.
Qed.

(** X13. [get_execution], in both servers, on a successful answer
    (credential configured, status 200, a JSON object with no ["error"])
    whose [data] field is an execution object: one GET to
    [executions/<execution_id>], and the reply is the text of four lines,
    [Execution ID: <id>], [Workflow: <name of workflowData, or Unknown>],
    [Status: Finished] or [Running] and [Mode: <mode, or unknown>],
    followed by [Stopped at: <time>] when [stoppedAt] holds a value.  The
    execution is read from [data] only: an answer without [data] is
    rendered as the empty execution. *)
Theorem get_execution_rendering (env : Env) (args : gmap string string)
    (eid : string) (r : response)
    (payload execution workflow_data : list (string * value))
    (Hkey : N8N_API_KEY env <> "")
    (Hid : args !! "execution_id" = Some eid)
    (Hans : transport env (request_for env "GET" ("executions/" +:+ eid) VNone) = Ok r)
    (Hst : status r = 200%Z)
    (Hjson : json r = Ok (VDict payload))
    (Herr : dict_lookup "error" payload = None)
    (Hdata : field payload "data" (VDict []) = VDict execution)
    (Hwd : field execution "workflowData" (VDict []) = VDict workflow_data) :
  Sdk.get_execution env args
  = Run (Ok (Sdk.reply (execution_details execution workflow_data)))
        [request_for env "GET" ("executions/" +:+ eid) VNone]
  /\ Standalone.call_tool env "get_execution" args
     = Run (Ok (Standalone.one_text (execution_details execution workflow_data)))
           [request_for env "GET" ("executions/" +:+ eid) VNone]
  /\ (dict_lookup "data" payload = None ->
      execution_details execution workflow_data
      = "Execution ID: None" +:+ nl +:+ "Workflow: Unknown" +:+ nl
        +:+ "Status: Running" +:+ nl +:+ "Mode: unknown").
Proof.
  assert (Ha : accepted "GET" (status r) = true) by (rewrite Hst; reflexivity).
  destruct (run_success env "GET" ("executions/" +:+ eid) VNone get_execution_text
              "Failed to get execution: " r payload _ Hkey
              (or_introl eq_refl) Hans Ha Hjson Herr
              (get_execution_text_details payload execution workflow_data Hdata Hwd))
    as [Hsdk Hsa].
  split; [|split].
  - unfold Sdk.get_execution, args_getitem. rewrite Hid, bind_lift_Ok. exact Hsdk.
  - unfold Standalone.call_tool, args_get. simpl String.eqb. cbv iota zeta.
    rewrite Hid. exact Hsa.
  - intros Hnone. unfold field in Hdata. rewrite Hnone in Hdata.
    injection Hdata as <-. unfold field in Hwd. simpl in Hwd. injection Hwd as <-.
    reflexivity.
Qed.

Lemma get_execution_rendering_witness :
  outcome
    (Sdk.get_execution
       (sample_env "k"
          (json_response 200 "..."
             (VDict [("data",
                      VDict [("id", VInt 231); ("finished", VBool true);
                             ("mode", VStr "manual");
                             ("stoppedAt", VStr "2024-05-01T10:00:03.000Z");
                             ("workflowData", VDict [("name", VStr "Foo")])])])))
       {[ "execution_id" := "231" ]})
  = Ok (Sdk.reply ("Execution ID: 231" +:+ nl +:+ "Workflow: Foo" +:+ nl
                   +:+ "Status: Finished" +:+ nl +:+ "Mode: manual" +:+ nl
                   +:+ "Stopped at: 2024-05-01T10:00:03.000Z")).
Proof.
  assert (Hkey : N8N_API_KEY (sample_env "k" refused) <> "") by discriminate.
  exact (f_equal outcome
           (proj1 (get_execution_rendering
                     (sample_env "k"
                        (json_response 200 "..."
                           (VDict [("data",
                                    VDict [("id", VInt 231); ("finished", VBool true);
                                           ("mode", VStr "manual");
                                           ("stoppedAt", VStr "2024-05-01T10:00:03.000Z");
                                           ("workflowData", VDict [("name", VStr "Foo")])])])))
                     {[ "execution_id" := "231" ]} "231" _ _ _ [("name", VStr "Foo")]
                     Hkey eq_refl eq_refl eq_refl eq_refl eq_refl eq_refl eq_refl))).
Defined.

Lemma posts_sdk (env : Env) (args : gmap string string) (body : value) :
  posts env args body -> Sdk.data_payload env args = Ok (inl body).
Proof.
  unfold posts. intros H. pose proof (sdk_data_payload_cases env args) as Hs.
  destruct (args !! "input_data") as [s|].
  - destruct (String.eqb s ""); [now subst body|]. now rewrite H in Hs.
  - destruct H as [-> _]. exact Hs.
Qed.

Lemma posts_standalone (env : Env) (args : gmap string string) (body : value) :
  posts env args body -> Standalone.data_payload env args = Ok (inl body).
Proof.
  unfold posts. intros H. pose proof (standalone_data_payload_cases env args) as Hp.
  cbv zeta in Hp. destruct (args !! "input_data") as [s|]; simpl in Hp.
  - destruct (String.eqb s ""); [now subst body|]. now rewrite H in Hp.
  - destruct H as [-> H]. now rewrite H in Hp.
Qed.

Lemma execute_workflow_text_started (payload execution_data : list (string * value)) :
  field payload "data" (VDict []) = VDict execution_data ->
  execute_workflow_text (VDict payload) = Ok (started_execution execution_data).
Proof.
  intros Hd. unfold execute_workflow_text.
  rewrite py_get_field, res_bind_Ok, Hd. rewrite !py_get_field, !res_bind_Ok.
  reflexivity.
Qed.

(** X14. [execute_workflow], in both servers, on a successful answer
    (credential configured, status 200 or 201, a JSON object with no
    ["error"]) whose [data] field is an object: one POST of the decoded
    [input_data] to [workflows/<workflow_id>/execute], and the reply is
    [Workflow executed!], the line [Execution ID: <id>] (the word [unknown]
    when [data] has no [id], which is the case of an answer without [data])
    and the line [Status: Finished] or [Status: Running]. *)
Theorem execute_workflow_rendering (env : Env) (args : gmap string string)
    (wid : string) (body : value) (r : response)
    (payload execution_data : list (string * value))
    (Hkey : N8N_API_KEY env <> "")
    (Hid : args !! "workflow_id" = Some wid)
    (Hbody : posts env args body)
    (Hans : transport env
              (request_for env "POST" ("workflows/" +:+ wid +:+ "/execute") body) = Ok r)
    (Hst : status r = 200%Z \/ status r = 201%Z)
    (Hjson : json r = Ok (VDict payload))
    (Herr : dict_lookup "error" payload = None)
    (Hdata : field payload "data" (VDict []) = VDict execution_data) :
  Sdk.execute_workflow env args
  = Run (Ok (Sdk.reply (started_execution execution_data)))
        [request_for env "POST" ("workflows/" +:+ wid +:+ "/execute") body]
  /\ Standalone.call_tool env "execute_workflow" args
     = Run (Ok (Standalone.one_text (started_execution execution_data)))
           [request_for env "POST" ("workflows/" +:+ wid +:+ "/execute") body]
  /\ (dict_lookup "data" payload = None ->
      started_execution execution_data
      = "Workflow executed!" +:+ nl +:+ "Execution ID: unknown" +:+ nl
        +:+ "Status: Running").
Proof.
  assert (Ha : accepted "POST" (status r) = true)
    by (destruct Hst as [-> | ->]; reflexivity).
  destruct (run_success env "POST" ("workflows/" +:+ wid +:+ "/execute") body
              execute_workflow_text "Failed to execute workflow: " r payload _ Hkey
              (or_intror (or_introl eq_refl)) Hans Ha Hjson Herr
              (execute_workflow_text_started payload execution_data Hdata))
    as [Hsdk Hsa].
  split; [|split].
  - unfold Sdk.execute_workflow, args_getitem.
    rewrite Hid, bind_lift_Ok, (posts_sdk env args body Hbody), bind_lift_Ok.
    exact Hsdk.
  - unfold Standalone.call_tool, args_get. simpl String.eqb. cbv iota zeta.
    rewrite Hid, (posts_standalone env args body Hbody), bind_lift_Ok. exact Hsa.
  - intros Hnone. unfold field in Hdata. rewrite Hnone in Hdata.
    injection Hdata as <-. reflexivity.
Qed.

Lemma execute_workflow_rendering_witness :
  outcome
    (Standalone.call_tool
       (sample_env "k"
          (json_response 201 "..."
             (VDict [("data", VDict [("id", VInt 232); ("finished", VBool false)])])))
       "execute_workflow" (args_input "5" "[1, 2]"))
  = Ok (Standalone.one_text
          ("Workflow executed!" +:+ nl +:+ "Execution ID: 232" +:+ nl
           +:+ "Status: Running")).
Proof.
  assert (Hkey : N8N_API_KEY (sample_env "k" refused) <> "") by discriminate.
  assert (Hid : args_input "5" "[1, 2]" !! "workflow_id" = Some "5")
    by (vm_compute; reflexivity).
  assert (Hbody : posts (sample_env "k" refused) (args_input "5" "[1, 2]")
                    (VList [VInt 1; VInt 2]))
    by (vm_compute; reflexivity).
  exact (f_equal outcome
           (proj1 (proj2 (execute_workflow_rendering
                     (sample_env "k"
                        (json_response 201 "..."
                           (VDict [("data", VDict [("id", VInt 232);
                                                   ("finished", VBool false)])])))
                     (args_input "5" "[1, 2]") "5" (VList [VInt 1; VInt 2]) _ _
                     [("id", VInt 232); ("finished", VBool false)]
                     Hkey Hid Hbody eq_refl (or_intror eq_refl) eq_refl eq_refl eq_refl)))).
Defined.

Lemma sdk_get_workflow_text_summary (payload wf : list (string * value))
    (nodes : list value) (connections : list (string * value))
    (tags : list (list (string * value))) :
  field payload "data" (VDict []) = VDict wf ->
  field wf "nodes" (VList []) = VList nodes ->
  field wf "connections" (VDict []) = VDict connections ->
  field wf "tags" (VList []) = VList (map VDict tags) ->
  Forall (fun tag => exists n, field tag "name" (VStr "") = VStr n) tags ->
  Sdk.get_workflow_text (VDict payload)
  = Ok (workflow_summary wf (length nodes) (length connections) tags).
Proof.
  intros Hwf Hnodes Hconns Htags Hnames. unfold Sdk.get_workflow_text.
  rewrite py_get_field, res_bind_Ok, Hwf.
  rewrite !py_get_field, Hnodes, Hconns, Htags.
  repeat (rewrite res_bind_Ok; cbn [py_len]).
  unfold workflow_summary, active_word.
  destruct (field_default_cases _ _ _ _ Htags) as [Hl | [Hl Hd]].
  - assert (Hf : field wf "tags" VNone = VList (map VDict tags))
      by (unfold field; now rewrite Hl).
    rewrite Hf. destruct tags as [|tag tags']; [reflexivity|].
    change (py_truthy (VList (map VDict (tag :: tags')))) with true. cbv iota.
    rewrite ?res_bind_Ok, (tag_names_entries _ Hnames). reflexivity.
  - assert (Hf : field wf "tags" VNone = VNone) by (unfold field; now rewrite Hl).
    rewrite Hf. destruct tags as [|tag tags']; [reflexivity|].
    discriminate Hd.
Qed.

(** X15. [get_workflow] of the SDK server, on a successful answer
    (credential configured, status 200, a JSON object with no ["error"])
    whose [data] field is a workflow object: one GET to
    [workflows/<workflow_id>], and the reply is the five lines
    [Workflow: <name>], [ID: <id>], [Status: Active] or [Inactive],
    [Nodes: <count>] and [Connections: <count>], followed by
    [Tags: <names joined by a comma>] when the workflow has tags.  Only
    the number of nodes is rendered, whatever the nodes are, and the
    workflow is read from [data] only. *)
Theorem sdk_get_workflow_rendering (env : Env) (args : gmap string string)
    (wid : string) (r : response) (payload wf : list (string * value))
    (nodes : list value) (connections : list (string * value))
    (tags : list (list (string * value)))
    (Hkey : N8N_API_KEY env <> "")
    (Hid : args !! "workflow_id" = Some wid)
    (Hans : transport env (request_for env "GET" ("workflows/" +:+ wid) VNone) = Ok r)
    (Hst : status r = 200%Z)
    (Hjson : json r = Ok (VDict payload))
    (Herr : dict_lookup "error" payload = None)
    (Hwf : field payload "data" (VDict []) = VDict wf)
    (Hnodes : field wf "nodes" (VList []) = VList nodes)
    (Hconns : field wf "connections" (VDict []) = VDict connections)
    (Htags : field wf "tags" (VList []) = VList (map VDict tags))
    (Hnames : Forall (fun tag => exists n, field tag "name" (VStr "") = VStr n) tags) :
  Sdk.get_workflow env args
  = Run (Ok (Sdk.reply (workflow_summary wf (length nodes) (length connections) tags)))
        [request_for env "GET" ("workflows/" +:+ wid) VNone].
Proof.
  assert (Ha : accepted "GET" (status r) = true) by (rewrite Hst; reflexivity).
  destruct (run_success env "GET" ("workflows/" +:+ wid) VNone Sdk.get_workflow_text
              "Failed to get workflow: " r payload _ Hkey
              (or_introl eq_refl) Hans Ha Hjson Herr
              (sdk_get_workflow_text_summary payload wf nodes connections tags
                 Hwf Hnodes Hconns Htags Hnames))
    as [Hsdk _].
  unfold Sdk.get_workflow, args_getitem. rewrite Hid, bind_lift_Ok. exact Hsdk.
Qed.

Lemma sdk_get_workflow_rendering_witness :
  outcome
    (Sdk.get_workflow
       (sample_env "k" (json_response 200 "..." (VDict [("data", VDict tagged_workflow)])))
       (args_id "7"))
  = Ok (Sdk.reply ("Workflow: Bar" +:+ nl +:+ "ID: 7" +:+ nl +:+ "Status: Inactive" +:+ nl
                   +:+ "Nodes: 0" +:+ nl +:+ "Connections: 0" +:+ nl
                   +:+ "Tags: prod, billing")).
Proof.
  assert (Hkey : N8N_API_KEY (sample_env "k" refused) <> "") by discriminate.
  assert (Hnames : Forall (fun tag => exists n, field tag "name" (VStr "") = VStr n)
                     [[("id", VStr "t1"); ("name", VStr "prod")];
                      [("id", VStr "t2"); ("name", VStr "billing")]]).
  { repeat constructor; eexists; reflexivity. }
  exact (f_equal outcome
           (sdk_get_workflow_rendering
              (sample_env "k"
                 (json_response 200 "..." (VDict [("data", VDict tagged_workflow)])))
              (args_id "7") "7" _ [("data", VDict tagged_workflow)] tagged_workflow [] []
              [[("id", VStr "t1"); ("name", VStr "prod")];
               [("id", VStr "t2"); ("name", VStr "billing")]]
              Hkey eq_refl eq_refl eq_refl eq_refl eq_refl eq_refl eq_refl eq_refl eq_refl
              Hnames)).
Defined.

(** ** Answers that are accepted but are not what the tools expect *)

Lemma classify_accepted (env : Env) (method endpoint : string) (data : value)
    (r : response) (v : value) :
  In method ["GET"; "POST"; "PATCH"] ->
  transport env (request_for env method endpoint data) = Ok r ->
  accepted method (status r) = true ->
  json r = Ok v ->
  classify method (transport env (request_for env method endpoint data)) = v.
Proof.
  intros Hm Hr Ha Hj.
  assert (Hd : decodes_body method = true)
    by (destruct Hm as [<-|[<-|[<-|[]]]]; reflexivity).
  unfold classify. now rewrite Hr, Ha, Hd, Hj.
Qed.

(** The reply of a tool that issued [rq] and got the accepted body [v],
    in terms of what its server does with [v]. *)
Lemma sdk_accepted (env : Env) (t : Sdk.SdkTool) (args : gmap string string)
    (rq : request) (r : response) (v : value) :
  In t (Sdk.n8n_server env) ->
  issued (Sdk.tool_handler t args) = [rq] ->
  transport env rq = Ok r -> accepted (rq_method rq) (status r) = true ->
  json r = Ok v ->
  exists render,
    outcome (Sdk.tool_handler t args)
    = Ok (match respond Sdk.reply Sdk.error_reply render v with
          | Ok a => a
          | Raise e => Sdk.error_reply (failure_prefix (Sdk.tool_name t) +:+ exn_msg e)
          end).
Proof.
  intros Ht Hi Hr Ha Hj.
  destruct (sdk_handler_cases env t args Ht)
    as [(txt & Heq & _) | (m & ep & d & render & Hm & _ & _ & Heq)];
    rewrite Heq in Hi |- *; [discriminate Hi|].
  destruct (String.eqb (N8N_API_KEY env) "") eqn:EK.
  - apply String.eqb_eq in EK. rewrite (sdk_run_no_key _ _ _ _ _ _ EK) in Hi.
    discriminate Hi.
  - apply String.eqb_neq in EK.
    rewrite (sdk_run_key _ _ _ _ _ _ EK (tool_method_known _ Hm)) in Hi |- *.
    cbn [issued outcome] in Hi |- *. injection Hi as <-.
    exists render. now rewrite (classify_accepted env m ep d r v Hm Hr Ha Hj).
Qed.

Lemma standalone_accepted (env : Env) (name : string) (args : gmap string string)
    (rq : request) (r : response) (v : value) :
  issued (Standalone.call_tool env name args) = [rq] ->
  transport env rq = Ok r -> accepted (rq_method rq) (status r) = true ->
  json r = Ok v ->
  exists render,
    outcome (Standalone.call_tool env name args)
    = respond Standalone.one_text Standalone.one_text render v.
Proof.
  intros Hi Hr Ha Hj.
  destruct (call_tool_cases env name args)
    as [(txt & Heq & _) | [(e & Heq) | (m & ep & d & render & Hm & _ & _ & Heq)]];
    rewrite Heq in Hi |- *; [discriminate Hi|discriminate Hi|].
  destruct (String.eqb (N8N_API_KEY env) "") eqn:EK.
  - apply String.eqb_eq in EK. rewrite (standalone_run_no_key _ _ _ _ _ EK) in Hi.
    discriminate Hi.
  - apply String.eqb_neq in EK.
    rewrite (standalone_run_key _ _ _ _ _ EK (tool_method_known _ Hm)) in Hi |- *.
    cbn [issued outcome] in Hi |- *. injection Hi as <-.
    exists render. now rewrite (classify_accepted env m ep d r v Hm Hr Ha Hj).
Qed.

(** X17. An accepted answer (a status the method accepts, a body that is
    a JSON object) that holds the key [error] is replied as an error by
    every tool of either server, whatever the value under the key, [null]
    and [false] included: the reply is [Error: <the value as text>], and
    the rest of the answer is not rendered.  The SDK handlers flag it. *)
Theorem payload_error_key (env : Env) (args : gmap string string) (rq : request)
    (r : response) (payload : list (string * value)) (x : value)
    (Hans : transport env rq = Ok r)
    (Hacc : accepted (rq_method rq) (status r) = true)
    (Hjson : json r = Ok (VDict payload))
    (Herr : dict_lookup "error" payload = Some x) :
  (forall t, In t (Sdk.n8n_server env) ->
     issued (Sdk.tool_handler t args) = [rq] ->
     outcome (Sdk.tool_handler t args) = Ok (Sdk.error_reply ("Error: " +:+ py_str x)))
  /\ (forall name,
        issued (Standalone.call_tool env name args) = [rq] ->
        outcome (Standalone.call_tool env name args)
        = Ok (Standalone.one_text ("Error: " +:+ py_str x))).
Proof.
  split.
  - intros t Ht Hi.
    destruct (sdk_accepted env t args rq r _ Ht Hi Hans Hacc Hjson) as [render ->].
    unfold respond. simpl. rewrite Herr. reflexivity.
  - intros name Hi.
    destruct (standalone_accepted env name args rq r _ Hi Hans Hacc Hjson) as [render ->].
    unfold respond. simpl. rewrite Herr. reflexivity.
Qed.

Lemma payload_error_key_witness :
  outcome (Sdk.activate_workflow
             (sample_env "k" (json_response 200 "..."
                                (VDict [("error", VNone); ("data", VDict [])])))
             (args_id "1"))
  = Ok (Sdk.error_reply "Error: None").
Proof.
  assert (Hi : issued (Sdk.activate_workflow
                         (sample_env "k" (json_response 200 "..."
                                            (VDict [("error", VNone); ("data", VDict [])])))
                         (args_id "1"))
               = [request_for (sample_env "k" refused) "PATCH" "workflows/1"
                    (VDict [("active", VBool true)])])
    by (vm_compute; reflexivity).
  exact (proj1 (payload_error_key
                  (sample_env "k" (json_response 200 "..."
                                     (VDict [("error", VNone); ("data", VDict [])])))
                  (args_id "1")
                  (request_for (sample_env "k" refused) "PATCH" "workflows/1"
                     (VDict [("active", VBool true)]))
                  _ _ VNone eq_refl eq_refl eq_refl eq_refl)
           _ (or_intror (or_intror (or_intror (or_intror (or_introl eq_refl))))) Hi).
Defined.

(** X18. An accepted answer whose JSON body is no container ([null], a
    number, [true] or [false]) makes the membership test
    ["error" in result] raise a [TypeError] in every tool.  The SDK
    handlers catch it and return the flagged reply
    [Failed to <tool name, with spaces>: <text of the exception>]; the
    standalone [call_tool] lets the exception reach its caller. *)
Theorem payload_not_a_container (env : Env) (args : gmap string string) (rq : request)
    (r : response) (v : value)
    (Hans : transport env rq = Ok r)
    (Hacc : accepted (rq_method rq) (status r) = true)
    (Hjson : json r = Ok v)
    (Hv : match v with
          | VNone | VBool _ | VInt _ | VFloat _ => True
          | VStr _ | VList _ | VDict _ => False
          end) :
  exists e,
    py_contains "error" v = Raise e
    /\ exn_class e = "TypeError"
    /\ (forall t, In t (Sdk.n8n_server env) ->
          issued (Sdk.tool_handler t args) = [rq] ->
          outcome (Sdk.tool_handler t args)
          = Ok (Sdk.error_reply
                  (failure_prefix (Sdk.tool_name t) +:+ exn_msg e)))
    /\ (forall name,
          issued (Standalone.call_tool env name args) = [rq] ->
          outcome (Standalone.call_tool env name args) = Raise e).
Proof.
  assert (Hc : exists e, py_contains "error" v = Raise e /\ exn_class e = "TypeError").
  { destruct v; try contradiction; eexists; split; reflexivity. }
  destruct Hc as (e & Hc & Hcls). exists e. split; [exact Hc|]. split; [exact Hcls|].
  split.
  - intros t Ht Hi.
    destruct (sdk_accepted env t args rq r _ Ht Hi Hans Hacc Hjson) as [render ->].
    unfold respond. rewrite Hc. reflexivity.
  - intros name Hi.
    destruct (standalone_accepted env name args rq r _ Hi Hans Hacc Hjson) as [render ->].
    unfold respond. rewrite Hc. reflexivity.
Qed.

Lemma payload_not_a_container_witness :
  exists e,
    py_contains "error" VNone = Raise e
    /\ exn_class e = "TypeError"
    /\ (forall t, In t (Sdk.n8n_server (sample_env "k" (json_response 200 "null" VNone))) ->
          issued (Sdk.tool_handler t ∅)
          = [request_for (sample_env "k" refused) "GET" "workflows" VNone] ->
          outcome (Sdk.tool_handler t ∅)
          = Ok (Sdk.error_reply
                  (failure_prefix (Sdk.tool_name t) +:+ exn_msg e)))
    /\ (forall name,
          issued (Standalone.call_tool (sample_env "k" (json_response 200 "null" VNone))
                    name ∅)
          = [request_for (sample_env "k" refused) "GET" "workflows" VNone] ->
          outcome (Standalone.call_tool (sample_env "k" (json_response 200 "null" VNone))
                     name ∅)
          = Raise e).
Proof.
  exact (payload_not_a_container (sample_env "k" (json_response 200 "null" VNone)) ∅
           (request_for (sample_env "k" refused) "GET" "workflows" VNone)
           _ VNone eq_refl eq_refl eq_refl I).
Defined.

Lemma data_null_raises (payload : list (string * value)) :
  dict_lookup "data" payload = Some VNone ->
  let e := AttributeError "'NoneType' object has no attribute 'get'" in
  Sdk.get_workflow_text (VDict payload) = Raise e
  /\ Standalone.get_workflow_text (VDict payload) = Raise e
  /\ execute_workflow_text (VDict payload) = Raise e
  /\ get_execution_text (VDict payload) = Raise e
  /\ list_workflows_text (VDict payload) = Ok "No workflows found in n8n.".
Proof.
  intros H e.
  unfold Sdk.get_workflow_text, Standalone.get_workflow_text, execute_workflow_text,
    get_execution_text, list_workflows_text.
  cbn [py_get py_contains]. rewrite H. repeat split; reflexivity.
Qed.

(** X19. The default of [result.get("data", ...)] stands for a missing
    key only.  On an accepted answer that is a JSON object with no
    [error] and whose [data] is [null]: [list_workflows] replies
    [No workflows found in n8n.] in both servers, while [get_workflow],
    [execute_workflow] and [get_execution] fail on the [null]: their SDK
    handlers return the flagged reply
    [Failed to <tool name, with spaces>: 'NoneType' object has no
    attribute 'get'], and the standalone [call_tool] raises that
    [AttributeError]. *)
Theorem null_data (env : Env) (args : gmap string string) (rq : request)
    (r : response) (payload : list (string * value))
    (Hans : transport env rq = Ok r)
    (Hacc : accepted (rq_method rq) (status r) = true)
    (Hjson : json r = Ok (VDict payload))
    (Herr : dict_lookup "error" payload = None)
    (Hdata : dict_lookup "data" payload = Some VNone) :
  let e := AttributeError "'NoneType' object has no attribute 'get'" in
  (issued (Sdk.list_workflows env args) = [rq] ->
     outcome (Sdk.list_workflows env args) = Ok (Sdk.reply "No workflows found in n8n."))
  /\ (issued (Standalone.call_tool env "list_workflows" args) = [rq] ->
      outcome (Standalone.call_tool env "list_workflows" args)
      = Ok (Standalone.one_text "No workflows found in n8n."))
  /\ (forall t, In t (Sdk.n8n_server env) ->
        In (Sdk.tool_name t) ["get_workflow"; "execute_workflow"; "get_execution"] ->
        issued (Sdk.tool_handler t args) = [rq] ->
        outcome (Sdk.tool_handler t args)
        = Ok (Sdk.error_reply
                (failure_prefix (Sdk.tool_name t) +:+ exn_msg e)))
  /\ (forall name,
        In name ["get_workflow"; "execute_workflow"; "get_execution"] ->
        issued (Standalone.call_tool env name args) = [rq] ->
        outcome (Standalone.call_tool env name args) = Raise e).
Proof.
  intros e.
  destruct (data_null_raises payload Hdata) as (Hg & Hsg & Hx & Hge & Hl).
  assert (Hn : py_contains "error" (VDict payload) = Ok false).
  { simpl. now rewrite Herr. }
  (* The reply of a run of the helper, in each server, from the issued
     request. *)
  assert (Hsdk : forall m ep d render failure,
             In m ["GET"; "POST"; "PATCH"] ->
             issued (sdk_run env m ep d render failure) = [rq] ->
             outcome (sdk_run env m ep d render failure)
             = Ok (match render (VDict payload) with
                   | Ok txt => Sdk.reply txt
                   | Raise x => Sdk.error_reply (failure +:+ exn_msg x)
                   end)).
  { intros m ep d render failure Hm Hi.
    destruct (String.eqb (N8N_API_KEY env) "") eqn:EK.
    - apply String.eqb_eq in EK. rewrite (sdk_run_no_key _ _ _ _ _ _ EK) in Hi.
      discriminate Hi.
    - apply String.eqb_neq in EK.
      rewrite (sdk_run_key _ _ _ _ _ _ EK (tool_method_known _ Hm)) in Hi |- *.
      cbn [issued outcome] in Hi |- *. injection Hi as <-.
      rewrite (classify_accepted env m ep d r _ Hm Hans Hacc Hjson).
      rewrite (respond_no_error _ _ _ _ Hn). destruct (render (VDict payload)); reflexivity. }
  assert (Hsa : forall m ep d render,
             In m ["GET"; "POST"; "PATCH"] ->
             issued (standalone_run env m ep d render) = [rq] ->
             outcome (standalone_run env m ep d render)
             = (txt ← render (VDict payload); mret (Standalone.one_text txt))).
  { intros m ep d render Hm Hi.
    destruct (String.eqb (N8N_API_KEY env) "") eqn:EK.
    - apply String.eqb_eq in EK. rewrite (standalone_run_no_key _ _ _ _ _ EK) in Hi.
      discriminate Hi.
    - apply String.eqb_neq in EK.
      rewrite (standalone_run_key _ _ _ _ _ EK (tool_method_known _ Hm)) in Hi |- *.
      cbn [issued outcome] in Hi |- *. injection Hi as <-.
      rewrite (classify_accepted env m ep d r _ Hm Hans Hacc Hjson).
      now rewrite (respond_no_error _ _ _ _ Hn). }
  split; [|split; [|split]].
  - intros Hi.
    refine (eq_trans (Hsdk "GET" "workflows" VNone list_workflows_text _
                        (or_introl eq_refl) Hi) _).
    now rewrite Hl.
  - intros Hi.
    refine (eq_trans (Hsa "GET" "workflows" VNone list_workflows_text
                        (or_introl eq_refl) Hi) _).
    now rewrite Hl.
  - intros t Ht Hname Hi. sdk_cases Ht;
      cbn [Sdk.tool_handler Sdk.tool_name In] in Hi, Hname;
      try (exfalso; intuition discriminate).
    + unfold Sdk.get_workflow, args_getitem in Hi |- *.
      destruct (args !! "workflow_id") as [w|]; [|cbn in Hi; discriminate Hi].
      rewrite bind_lift_Ok in Hi |- *.
      refine (eq_trans (Hsdk "GET" _ VNone Sdk.get_workflow_text _
                          (or_introl eq_refl) Hi) _).
      now rewrite Hg.
    + unfold Sdk.execute_workflow, args_getitem in Hi |- *.
      destruct (args !! "workflow_id") as [w|]; [|cbn in Hi; discriminate Hi].
      rewrite bind_lift_Ok in Hi |- *.
      destruct (Sdk.data_payload env args) as [[body|early]|x];
        [|cbn in Hi; discriminate Hi|cbn in Hi; discriminate Hi].
      rewrite bind_lift_Ok in Hi |- *.
      refine (eq_trans (Hsdk "POST" _ body execute_workflow_text _
                          (or_intror (or_introl eq_refl)) Hi) _).
      now rewrite Hx.
    + unfold Sdk.get_execution, args_getitem in Hi |- *.
      destruct (args !! "execution_id") as [w|]; [|cbn in Hi; discriminate Hi].
      rewrite bind_lift_Ok in Hi |- *.
      refine (eq_trans (Hsdk "GET" _ VNone get_execution_text _
                          (or_introl eq_refl) Hi) _).
      now rewrite Hge.
  - intros name Hname Hi. cbn [In] in Hname.
    destruct Hname as [<-|[<-|[<-|[]]]];
      unfold Standalone.call_tool in Hi |- *; simpl String.eqb in Hi |- *;
      cbv iota zeta in Hi |- *.
    + refine (eq_trans (Hsa "GET" _ VNone Standalone.get_workflow_text
                          (or_introl eq_refl) Hi) _).
      now rewrite Hsg.
    + destruct (Standalone.data_payload env args) as [[body|early]|x];
        [|cbn in Hi; discriminate Hi|cbn in Hi; discriminate Hi].
      rewrite bind_lift_Ok in Hi |- *.
      refine (eq_trans (Hsa "POST" _ body execute_workflow_text
                          (or_intror (or_introl eq_refl)) Hi) _).
      now rewrite Hx.
    + refine (eq_trans (Hsa "GET" _ VNone get_execution_text
                          (or_introl eq_refl) Hi) _).
      now rewrite Hge.
Qed.

Lemma null_data_witness :
  outcome (Sdk.get_execution
             (sample_env "k" (json_response 200 "..." (VDict [("data", VNone)])))
             {[ "execution_id" := "9" ]})
  = Ok (Sdk.error_reply
          "Failed to get execution: 'NoneType' object has no attribute 'get'").
Proof.
  assert (Hi : issued (Sdk.get_execution
                         (sample_env "k" (json_response 200 "..." (VDict [("data", VNone)])))
                         {[ "execution_id" := "9" ]})
               = [request_for (sample_env "k" refused) "GET" "executions/9" VNone])
    by (vm_compute; reflexivity).
  exact (proj1 (proj2 (proj2 (null_data
                  (sample_env "k" (json_response 200 "..." (VDict [("data", VNone)])))
                  {[ "execution_id" := "9" ]}
                  (request_for (sample_env "k" refused) "GET" "executions/9" VNone)
                  _ _ eq_refl eq_refl eq_refl eq_refl eq_refl)))
           _ (or_intror (or_intror (or_intror (or_introl eq_refl))))
           (or_intror (or_intror (or_introl eq_refl))) Hi).
Defined.

(** ** The example client *)

(** X21. The example client allows exactly the tools that the server it
    mounts registers, in the order of their registration: each allowed
    name is [mcp__], the key of the server in [mcp_servers], [__] and the
    name of a registered tool, and every registered tool is allowed. *)
Theorem example_allows_registered_tools (env : Env) :
  Example.allowed_tools (Example.options env)
  = flat_map (fun server =>
                map (fun t => "mcp__" +:+ fst server +:+ "__" +:+ Sdk.tool_name t)
                    (snd server))
             (Example.mcp_servers (Example.options env)).
Proof. reflexivity. Qed.

(** ** Where the two renderings of a workflow part *)

Lemma length_append (a b : string) :
  String.length (a +:+ b) = (String.length a + String.length b)%nat.
Proof. induction a as [|c a IH]; [reflexivity|]. simpl. now rewrite IH. Qed.

Lemma length_concat_app (sep : string) (xs ys : list string) :
  xs <> [] ->
  String.length (String.concat sep (xs ++ ys))
  = (String.length (String.concat sep xs)
     + list_sum (map (fun y => String.length sep + String.length y) ys))%nat.
Proof.
  induction xs as [|x xs IH]; [congruence|]. intros _.
  destruct xs as [|x' xs].
  - clear IH. cbn [app]. revert x. induction ys as [|y ys IHy]; intros x.
    + simpl. lia.
    + change (String.concat sep (x :: y :: ys))
        with (x +:+ sep +:+ String.concat sep (y :: ys)).
      rewrite !length_append, IHy. simpl. lia.
  - change (String.concat sep ((x :: x' :: xs) ++ ys))
      with (x +:+ sep +:+ String.concat sep ((x' :: xs) ++ ys)).
    change (String.concat sep (x :: x' :: xs))
      with (x +:+ sep +:+ String.concat sep (x' :: xs)).
    rewrite !length_append, IH by discriminate. lia.
Qed.

Lemma list_sum_cons (x : nat) (l : list nat) : list_sum (x :: l) = (x + list_sum l)%nat.
Proof. reflexivity. Qed.

Lemma list_sum_nil : list_sum [] = 0%nat.
Proof. reflexivity. Qed.

(** X22. Where the two servers part on [get_workflow].  On a successful
    answer whose [data] is a workflow object with a list of node objects,
    an object of connections and a list of tags with text names, both
    servers issue the same request and return a text; the two texts are
    the same exactly when the workflow has no node and no tag.  Otherwise
    the text of the standalone server is strictly the longer one: it has
    the node lines, and a blank line before the tag line. *)
Theorem get_workflow_servers_differ (env : Env) (args : gmap string string)
    (wid : string) (r : response) (payload wf : list (string * value))
    (nodes : list (list (string * value))) (connections : list (string * value))
    (tags : list (list (string * value)))
    (Hkey : N8N_API_KEY env <> "")
    (Hid : args !! "workflow_id" = Some wid)
    (Hans : transport env (request_for env "GET" ("workflows/" +:+ wid) VNone) = Ok r)
    (Hst : status r = 200%Z)
    (Hjson : json r = Ok (VDict payload))
    (Herr : dict_lookup "error" payload = None)
    (Hwf : dict_lookup "data" payload = Some (VDict wf))
    (Hnodes : field wf "nodes" (VList []) = VList (map VDict nodes))
    (Hconns : field wf "connections" (VDict []) = VDict connections)
    (Htags : field wf "tags" (VList []) = VList (map VDict tags))
    (Hnames : Forall (fun tag => exists n, field tag "name" (VStr "") = VStr n) tags) :
  exists a b,
    Sdk.get_workflow env args
    = Run (Ok (Sdk.reply a)) [request_for env "GET" ("workflows/" +:+ wid) VNone]
    /\ Standalone.call_tool env "get_workflow" args
       = Run (Ok (Standalone.one_text b))
             [request_for env "GET" ("workflows/" +:+ wid) VNone]
    /\ (a = b <-> nodes = [] /\ tags = [])
    /\ (String.length a <= String.length b)%nat
    /\ ((nodes = [] /\ tags = []) \/ (String.length a < String.length b)%nat).
Proof.
  assert (Ha : accepted "GET" (status r) = true) by (rewrite Hst; reflexivity).
  assert (Hd1 : field payload "data" (VDict []) = VDict wf)
    by (unfold field; now rewrite Hwf).
  assert (Hd2 : field payload "data" (VDict payload) = VDict wf)
    by (unfold field; now rewrite Hwf).
  assert (Hn' : field wf "nodes" (VList []) = VList (map VDict nodes)) by exact Hnodes.
  destruct (run_success env "GET" ("workflows/" +:+ wid) VNone Sdk.get_workflow_text
              "Failed to get workflow: " r payload _ Hkey
              (or_introl eq_refl) Hans Ha Hjson Herr
              (sdk_get_workflow_text_summary payload wf (map VDict nodes) connections tags
                 Hd1 Hn' Hconns Htags Hnames))
    as [Hsdk _].
  destruct (run_success env "GET" ("workflows/" +:+ wid) VNone
              Standalone.get_workflow_text
              "" r payload _ Hkey
              (or_introl eq_refl) Hans Ha Hjson Herr
              (standalone_get_workflow_text_details payload wf nodes connections tags
                 Hd2 Hnodes Hconns Htags Hnames))
    as [_ Hsa].
  eexists _, _. split; [|split; [|split; [|split]]].
  - unfold Sdk.get_workflow, args_getitem. rewrite Hid, bind_lift_Ok. exact Hsdk.
  - unfold Standalone.call_tool, args_get. simpl String.eqb. cbv iota zeta.
    rewrite Hid. exact Hsa.
  - rewrite length_map. split.
    + intros Heq. apply (f_equal String.length) in Heq.
      unfold workflow_summary, workflow_details in Heq.
      rewrite !length_concat_app in Heq by discriminate.
      apply Nat.add_cancel_l in Heq.
      destruct nodes as [|node nodes']; destruct tags as [|tag tags'];
        [split; reflexivity|exfalso..];
        cbn [app map] in Heq; rewrite ?map_app in Heq; cbn [map] in Heq;
        repeat rewrite ?list_sum_cons, ?list_sum_app, ?list_sum_nil in Heq;
        rewrite ?length_append in Heq; cbn [String.length nl] in Heq; lia.
    + intros [-> ->]. reflexivity.
  - rewrite length_map. unfold workflow_summary, workflow_details.
    rewrite !length_concat_app by discriminate.
    apply Nat.add_le_mono_l.
    destruct nodes as [|node nodes']; destruct tags as [|tag tags'];
      cbn [app map]; rewrite ?map_app; cbn [map];
      repeat rewrite ?list_sum_cons, ?list_sum_app, ?list_sum_nil;
      rewrite ?length_append; cbn [String.length nl]; lia.
  - rewrite length_map. unfold workflow_summary, workflow_details.
    rewrite !length_concat_app by discriminate.
    destruct nodes as [|node nodes']; destruct tags as [|tag tags'];
      [left; split; reflexivity|right..];
      apply Nat.add_lt_mono_l;
      cbn [app map]; rewrite ?map_app; cbn [map];
      repeat rewrite ?list_sum_cons, ?list_sum_app, ?list_sum_nil;
      rewrite ?length_append; cbn [String.length nl]; lia.
Qed.

Lemma get_workflow_servers_differ_witness :
  exists a b,
    Sdk.get_workflow
      (sample_env "k" (json_response 200 "..." (VDict [("data", VDict tagged_workflow)])))
      (args_id "7")
    = Run (Ok (Sdk.reply a))
          [request_for (sample_env "k" refused) "GET" ("workflows/" +:+ "7") VNone]
    /\ Standalone.call_tool
         (sample_env "k" (json_response 200 "..." (VDict [("data", VDict tagged_workflow)])))
         "get_workflow" (args_id "7")
       = Run (Ok (Standalone.one_text b))
             [request_for (sample_env "k" refused) "GET" ("workflows/" +:+ "7") VNone]
    /\ (a = b <-> @nil (list (string * value)) = []
                  /\ [[("id", VStr "t1"); ("name", VStr "prod")];
                      [("id", VStr "t2"); ("name", VStr "billing")]] = [])
    /\ (String.length a <= String.length b)%nat
    /\ ((@nil (list (string * value)) = []
         /\ [[("id", VStr "t1"); ("name", VStr "prod")];
             [("id", VStr "t2"); ("name", VStr "billing")]] = [])
        \/ (String.length a < String.length b)%nat).
Proof.
  assert (Hkey : N8N_API_KEY (sample_env "k" refused) <> "") by discriminate.
  assert (Hnames : Forall (fun tag => exists n, field tag "name" (VStr "") = VStr n)
                     [[("id", VStr "t1"); ("name", VStr "prod")];
                      [("id", VStr "t2"); ("name", VStr "billing")]]).
  { repeat constructor; eexists; reflexivity. }
  exact (get_workflow_servers_differ
           (sample_env "k" (json_response 200 "..." (VDict [("data", VDict tagged_workflow)])))
           (args_id "7") "7" _ [("data", VDict tagged_workflow)] tagged_workflow [] []
           [[("id", VStr "t1"); ("name", VStr "prod")];
            [("id", VStr "t2"); ("name", VStr "billing")]]
           Hkey eq_refl eq_refl eq_refl eq_refl eq_refl eq_refl eq_refl eq_refl eq_refl
           Hnames).
Defined.
